(** * Socaio: audience-analysis form: selector and report pipelines

    A shallow embedding of the two Next.js API routes (auto-select and
    generate-report, [handler] in each) and of the state handlers of the
    [Home] component ([handleQuerySubmit], [applyAutoSelections],
    [toggleCharacteristic], [generateReport], [fallbackReport]).

    The JavaScript platform the code runs on is modelled as far as the code
    observes it: strings are sequences of UTF-16 code units, numbers are
    binary64 values, [JSON.parse] is a total function on text, exceptions
    are explicit outcomes, and a [Set] is an insertion-ordered list.  The
    external chat-completion service and the browser-to-API transport are
    oracles that the handlers are handed as arguments. *)

From Stdlib Require Import List ZArith NArith Bool Ascii String Lia.
From Stdlib Require Import Floats.SpecFloat DecimalString.
Import ListNotations.

Local Open Scope Z_scope.

(** ** Strings *)

(** A JavaScript string is a sequence of 16-bit code units. *)
Definition str := list N.

(** An ASCII literal as a JavaScript string. *)
Definition lit (s : string) : str :=
  map N_of_ascii (list_ascii_of_string s).

(** A literal in which every apostrophe stands for a double quote
    (code unit 34); used for the texts that contain double quotes. *)
Definition litq (s : string) : str :=
  map (fun c => if N.eqb c 39 then 34%N else c) (lit s).

Fixpoint str_eqb (a b : str) : bool :=
  match a, b with
  | [], [] => true
  | x :: a', y :: b' => N.eqb x y && str_eqb a' b'
  | _, _ => false
  end.

Fixpoint starts_with (p s : str) : bool :=
  match p, s with
  | [], _ => true
  | x :: p', y :: s' => N.eqb x y && starts_with p' s'
  | _ :: _, [] => false
  end.

(** [s.includes(p)] *)
Fixpoint includes (s p : str) : bool :=
  starts_with p s ||
  match s with
  | [] => false
  | _ :: s' => includes s' p
  end.

(** [sep]-separated concatenation, as [Array.prototype.join] lays it out. *)
Fixpoint join_with (sep : str) (parts : list str) : str :=
  match parts with
  | [] => []
  | [p] => p
  | p :: rest => p ++ sep ++ join_with sep rest
  end.

(** WhiteSpace and LineTerminator code units, as [String.prototype.trim]
    strips them. *)
Definition is_js_space (c : N) : bool :=
  existsb (N.eqb c)
    [9; 10; 11; 12; 13; 32; 160; 5760; 8232; 8233; 8239; 8287; 12288; 65279]%N
  || (N.leb 8192 c && N.leb c 8202).

Fixpoint trim_start (s : str) : str :=
  match s with
  | c :: s' => if is_js_space c then trim_start s' else s
  | [] => []
  end.

Definition trim (s : str) : str :=
  rev (trim_start (rev (trim_start s))).

(** The iteration of a string (spread syntax): one string per code point,
    a surrogate pair staying together. *)
Fixpoint code_points (s : str) : list str :=
  match s with
  | [] => []
  | hi :: rest =>
      match rest with
      | lo :: rest' =>
          if N.leb 55296 hi && N.leb hi 56319 && N.leb 56320 lo && N.leb lo 57343
          then [hi; lo] :: code_points rest'
          else [hi] :: code_points rest
      | [] => [[hi]]
      end
  end.

(** ** Numbers *)

(** A Number is an IEEE 754 binary64 value. *)
Definition number := spec_float.

Module Number.

Definition prec : Z := 53.
Definition emax : Z := 1024.

(** The Number value for the decimal [m * 10^e] ([m >= 0]), rounded to
    nearest, ties to even: what a numeric literal denotes. *)
Definition of_decimal (neg : bool) (m e : Z) : number :=
  match m with
  | Z0 => S754_zero neg
  | Zpos p =>
      if 0 <=? e
      then binary_round prec emax neg (p * Z.to_pos (10 ^ e)) 0
      else
        let '(q, e', l) :=
          SFdiv_core_binary prec emax (Zpos p) 0 (10 ^ (- e)) 0 in
        binary_round_aux prec emax neg q e' l
  | Zneg _ => S754_nan
  end.

Definition is_zero (x : number) : bool :=
  match x with S754_zero _ => true | _ => false end.

Definition is_finite (x : number) : bool :=
  match x with S754_zero _ | S754_finite _ _ _ => true | _ => false end.

(** SameValueZero on numbers: the two zeros are the same value, and so
    are two NaNs. *)
Definition same_value_zero (x y : number) : bool :=
  match x, y with
  | S754_nan, S754_nan => true
  | _, _ => SFeqb x y
  end.

Definition ltb (x y : number) : bool := SFltb x y.

(** *** Number::toString (radix 10) *)

Definition digits_of (z : Z) : str :=
  lit (NilZero.string_of_int (Z.to_int z)).

(** [cmp_pow10 m e n] compares the real [m * 2^e] with [10^n]. *)
Definition cmp_pow10 (m e n : Z) : comparison :=
  let lhs := m * 2 ^ Z.max e 0 * 10 ^ Z.max (- n) 0 in
  let rhs := 2 ^ Z.max (- e) 0 * 10 ^ Z.max n 0 in
  lhs ?= rhs.

(** The least [n] in the candidates with [m * 2^e < 10^n]. *)
Fixpoint magnitude (m e : Z) (lo : Z) (fuel : nat) : Z :=
  match fuel with
  | O => lo
  | S fuel' =>
      match cmp_pow10 m e lo with
      | Lt => lo
      | _ => magnitude m e (lo + 1) fuel'
      end
  end.

(** With [k] digits: the decimal [s * 10^(n-k)] nearest to [m * 2^e]
    among those that denote it, if there is one. *)
Definition shortest_at (m : positive) (e n k : Z) : option (Z * Z) :=
  let p := k - n in
  let wn := Zpos m * 2 ^ Z.max e 0 * 10 ^ Z.max p 0 in
  let wd := 2 ^ Z.max (- e) 0 * 10 ^ Z.max (- p) 0 in
  let lo := wn / wd in
  let r := wn mod wd in
  let ok s n' :=
    match of_decimal false s (n' - k) with
    | S754_finite _ m' e' => Pos.eqb m m' && (e =? e')
    | _ => false
    end in
  let hi := if lo + 1 <? 10 ^ k then (lo + 1, n) else (10 ^ (k - 1), n + 1) in
  let lo_ok := ok lo n in
  let hi_ok := negb (r =? 0) && ok (fst hi) (snd hi) in
  match lo_ok, hi_ok with
  | true, false => Some (lo, n)
  | false, true => Some hi
  | false, false => None
  | true, true =>
      match 2 * r ?= wd with
      | Lt => Some (lo, n)
      | Gt => Some hi
      | Eq => if Z.even lo then Some (lo, n) else Some hi
      end
  end.

Fixpoint shortest (m : positive) (e n k : Z) (fuel : nat) : Z * Z * Z :=
  match fuel with
  | O => (Zpos m, n, k)
  | S fuel' =>
      match shortest_at m e n k with
      | Some (s, n') => (s, n', k)
      | None => shortest m e n (k + 1) fuel'
      end
  end.

Definition zeros (n : Z) : str := repeat 48%N (Z.to_nat n).

Definition layout (s n k : Z) : str :=
  let ds := digits_of s in
  if (k <=? n) && (n <=? 21) then ds ++ zeros (n - k)
  else if (0 <? n) && (n <=? 21)
  then firstn (Z.to_nat n) ds ++ lit "." ++ skipn (Z.to_nat n) ds
  else if (-6 <? n) && (n <=? 0) then lit "0." ++ zeros (- n) ++ ds
  else
    let ex := (if 0 <=? n - 1 then lit "+" else lit "-")
                ++ digits_of (Z.abs (n - 1)) in
    if k =? 1 then ds ++ lit "e" ++ ex
    else firstn 1 ds ++ lit "." ++ skipn 1 ds ++ lit "e" ++ ex.

Definition to_string (x : number) : str :=
  match x with
  | S754_nan => lit "NaN"
  | S754_zero _ => lit "0"
  | S754_infinity neg => (if neg then lit "-" else []) ++ lit "Infinity"
  | S754_finite neg m e =>
      let n0 := magnitude (Zpos m) e (-330) 660 in
      let '(s, n, k) := shortest m e n0 1 17 in
      (if neg then lit "-" else []) ++ layout s n k
  end.

End Number.

(** ** Exceptions *)

Inductive exn : Type :=
| TypeError
| SyntaxError
| NetworkError
| Error (message : str).

(** The completion of an evaluation: a value, or a thrown exception. *)
Inductive completion (A : Type) : Type :=
| Normal (a : A)
| Throw (e : exn).
Arguments Normal {A} a.
Arguments Throw {A} e.

Definition bind {A B} (c : completion A) (k : A -> completion B)
  : completion B :=
  match c with
  | Normal a => k a
  | Throw e => Throw e
  end.

Notation "x <- c ;; k" := (bind c (fun x => k))
  (at level 61, c at next level, right associativity).

(** [try { body } catch (e) { handler }] *)
Definition try_catch {A} (body : completion A) (handler : exn -> completion A)
  : completion A :=
  match body with
  | Normal a => Normal a
  | Throw e => handler e
  end.

(** ** Values *)

(** The values the code handles: what [JSON.parse] produces, and
    [undefined] for what is absent.  An object is its own properties in
    creation order; where a key occurs twice the later entry is the
    property's value. *)
#[warnings="-register-all"]
Inductive value : Type :=
| VUndefined
| VNull
| VBool (b : bool)
| VNum (n : number)
| VStr (s : str)
| VArr (elems : list value)
| VObj (props : list (str * value)).

(** ToBoolean *)
Definition truthy (v : value) : bool :=
  match v with
  | VUndefined | VNull => false
  | VBool b => b
  | VNum S754_nan => false
  | VNum n => negb (Number.is_zero n)
  | VStr s => match s with [] => false | _ => true end
  | VArr _ | VObj _ => true
  end.

Definition has_key (k : str) (props : list (str * value)) : bool :=
  existsb (fun kv => str_eqb k (fst kv)) props.

(** The own property [k] of an object's property list: the last entry
    for [k], or [undefined]. *)
Fixpoint lookup (k : str) (props : list (str * value)) : value :=
  match props with
  | [] => VUndefined
  | (k', v) :: rest =>
      if str_eqb k k' && negb (has_key k rest) then v else lookup k rest
  end.

(** ToString.  An array is converted by [Array.prototype.toString], which
    joins its elements with a comma, [undefined] and [null] counting as
    the empty string.  An object is converted by the [toString] it has:
    the inherited one gives [[object Object]]; an own property of that
    name stands in its way, and as no value here is a function (nor is
    what the inherited [valueOf] returns a primitive), the conversion
    then throws a TypeError. *)
Fixpoint ToString (v : value) : completion str :=
  match v with
  | VUndefined => Normal (lit "undefined")
  | VNull => Normal (lit "null")
  | VBool true => Normal (lit "true")
  | VBool false => Normal (lit "false")
  | VNum n => Normal (Number.to_string n)
  | VStr s => Normal s
  | VArr elems =>
      parts <- (fix each (xs : list value) : completion (list str) :=
                  match xs with
                  | [] => Normal []
                  | x :: rest =>
                      part <- match x with
                              | VUndefined | VNull => Normal []
                              | _ => ToString x
                              end ;;
                      parts <- each rest ;;
                      Normal (part :: parts)
                  end) elems ;;
      Normal (join_with (lit ",") parts)
  | VObj props =>
      if has_key (lit "toString") props then Throw TypeError
      else Normal (lit "[object Object]")
  end.

(** The strings [Array.prototype.join] puts together, element after
    element: [undefined] and [null] give the empty string, and the
    conversion of an element may throw. *)
Fixpoint element_strings (elems : list value) : completion (list str) :=
  match elems with
  | [] => Normal []
  | x :: rest =>
      part <- match x with
              | VUndefined | VNull => Normal []
              | _ => ToString x
              end ;;
      parts <- element_strings rest ;;
      Normal (part :: parts)
  end.

(** [Array.prototype.join] *)
Definition array_join (elems : list value) (sep : str) : completion str :=
  parts <- element_strings elems ;;
  Normal (join_with sep parts).

(** SameValueZero, the equality of [Set].  Arrays and objects are compared
    by identity; every array or object the program meets is a fresh one
    out of [JSON.parse], so two of them are never the same value. *)
Definition same_value_zero (a b : value) : bool :=
  match a, b with
  | VUndefined, VUndefined => true
  | VNull, VNull => true
  | VBool x, VBool y => Bool.eqb x y
  | VNum x, VNum y => Number.same_value_zero x y
  | VStr x, VStr y => str_eqb x y
  | _, _ => false
  end.

(** [base.name], for a property name that no built-in prototype defines
    (all the names the code reads are such): reading a property of
    [undefined] or [null] throws, an object gives its own property, any
    other value gives [undefined]. *)
Definition get (base : value) (name : str) : completion value :=
  match base with
  | VUndefined | VNull => Throw TypeError
  | VObj props => Normal (lookup name props)
  | _ => Normal VUndefined
  end.

(** [base[0]] *)
Definition get0 (base : value) : completion value :=
  match base with
  | VUndefined | VNull => Throw TypeError
  | VObj props => Normal (lookup (lit "0") props)
  | VArr elems => Normal (nth 0 elems VUndefined)
  | VStr s => Normal (match s with
                      | [] => VUndefined
                      | c :: _ => VStr [c]
                      end)
  | _ => Normal VUndefined
  end.

(** ** JSON.parse *)

Module JSON.

Inductive token : Type :=
| TLBrace | TRBrace | TLBracket | TRBracket | TColon | TComma
| TLit (v : value).

(** *** Lexer: one code unit at a time *)

Inductive num_state : Type :=
| NSign        (* after the minus sign *)
| NZero        (* after a leading 0 *)
| NInt         (* in the integer digits *)
| NDot         (* after the decimal point *)
| NFrac        (* in the fraction digits *)
| NExp         (* after e or E *)
| NExpSign     (* after the exponent's sign *)
| NExpDigits.  (* in the exponent digits *)

(** The literal read so far: sign, the digits of integer and fraction
    as one integer, the number of fraction digits, the exponent. *)
Record num_acc : Type := {
  neg : bool; mant : Z; scale : Z; eneg : bool; ex : Z
}.

Definition num_value (a : num_acc) : value :=
  VNum (Number.of_decimal (neg a) (mant a)
          ((if eneg a then - ex a else ex a) - scale a)).

Inductive lex_state : Type :=
| LIdle
| LWord (rest : str) (v : value)
| LString (acc : str)
| LEscape (acc : str)
| LUnicode (acc : str) (count : nat) (code : N)
| LNumber (st : num_state) (a : num_acc).

Definition digit (c : N) : option Z :=
  if (N.leb 48 c && N.leb c 57)%bool then Some (Z.of_N c - 48) else None.

Definition hex_digit (c : N) : option N :=
  if (N.leb 48 c && N.leb c 57)%bool then Some (c - 48)%N
  else if (N.leb 65 c && N.leb c 70)%bool then Some (c - 55)%N
  else if (N.leb 97 c && N.leb c 102)%bool then Some (c - 87)%N
  else None.

Definition is_ws (c : N) : bool :=
  (N.eqb c 9 || N.eqb c 10 || N.eqb c 13 || N.eqb c 32)%bool.

(** A code unit met between tokens. *)
Definition idle (c : N) (out : list token)
  : option (lex_state * list token) :=
  let num d := {| neg := false; mant := d; scale := 0;
                  eneg := false; ex := 0 |} in
  if is_ws c then Some (LIdle, out)
  else if N.eqb c 123 then Some (LIdle, TLBrace :: out)
  else if N.eqb c 125 then Some (LIdle, TRBrace :: out)
  else if N.eqb c 91 then Some (LIdle, TLBracket :: out)
  else if N.eqb c 93 then Some (LIdle, TRBracket :: out)
  else if N.eqb c 58 then Some (LIdle, TColon :: out)
  else if N.eqb c 44 then Some (LIdle, TComma :: out)
  else if N.eqb c 34 then Some (LString [], out)
  else if N.eqb c 116 then Some (LWord (lit "rue") (VBool true), out)
  else if N.eqb c 102 then Some (LWord (lit "alse") (VBool false), out)
  else if N.eqb c 110 then Some (LWord (lit "ull") VNull, out)
  else if N.eqb c 45
  then Some (LNumber NSign {| neg := true; mant := 0; scale := 0;
                              eneg := false; ex := 0 |}, out)
  else if N.eqb c 48 then Some (LNumber NZero (num 0), out)
  else match digit c with
       | Some d => Some (LNumber NInt (num d), out)
       | None => None
       end.

Definition is_e (c : N) : bool := (N.eqb c 101 || N.eqb c 69)%bool.

(** A code unit met inside a number: the next state of the number, or
    [inr true] when the number ended before it, [inr false] when the
    literal is malformed. *)
Definition in_number (st : num_state) (a : num_acc) (c : N)
  : (num_state * num_acc) + bool :=
  let int_digit d :=
    {| neg := neg a; mant := mant a * 10 + d; scale := scale a;
       eneg := eneg a; ex := ex a |} in
  let frac_digit d :=
    {| neg := neg a; mant := mant a * 10 + d; scale := scale a + 1;
       eneg := eneg a; ex := ex a |} in
  let exp_digit d :=
    {| neg := neg a; mant := mant a; scale := scale a;
       eneg := eneg a; ex := ex a * 10 + d |} in
  let exp_neg :=
    {| neg := neg a; mant := mant a; scale := scale a;
       eneg := true; ex := ex a |} in
  match st, digit c with
  | NSign, Some d => if d =? 0 then inl (NZero, a) else inl (NInt, int_digit d)
  | NSign, None => inr false
  | NZero, _ =>
      if N.eqb c 46 then inl (NDot, a)
      else if is_e c then inl (NExp, a) else inr true
  | NInt, Some d => inl (NInt, int_digit d)
  | NInt, None =>
      if N.eqb c 46 then inl (NDot, a)
      else if is_e c then inl (NExp, a) else inr true
  | NDot, Some d => inl (NFrac, frac_digit d)
  | NDot, None => inr false
  | NFrac, Some d => inl (NFrac, frac_digit d)
  | NFrac, None => if is_e c then inl (NExp, a) else inr true
  | NExp, Some d => inl (NExpDigits, exp_digit d)
  | NExp, None =>
      if N.eqb c 43 then inl (NExpSign, a)
      else if N.eqb c 45 then inl (NExpSign, exp_neg) else inr false
  | NExpSign, Some d => inl (NExpDigits, exp_digit d)
  | NExpSign, None => inr false
  | NExpDigits, Some d => inl (NExpDigits, exp_digit d)
  | NExpDigits, None => inr true
  end.

Definition escape (c : N) : option N :=
  if N.eqb c 34 then Some 34%N
  else if N.eqb c 92 then Some 92%N
  else if N.eqb c 47 then Some 47%N
  else if N.eqb c 98 then Some 8%N
  else if N.eqb c 102 then Some 12%N
  else if N.eqb c 110 then Some 10%N
  else if N.eqb c 114 then Some 13%N
  else if N.eqb c 116 then Some 9%N
  else None.

Definition lex_step (st : lex_state) (c : N) (out : list token)
  : option (lex_state * list token) :=
  match st with
  | LIdle => idle c out
  | LWord rest v =>
      match rest with
      | x :: rest' =>
          if N.eqb c x
          then match rest' with
               | [] => Some (LIdle, TLit v :: out)
               | _ => Some (LWord rest' v, out)
               end
          else None
      | [] => None
      end
  | LString acc =>
      if N.eqb c 34 then Some (LIdle, TLit (VStr (rev acc)) :: out)
      else if N.eqb c 92 then Some (LEscape acc, out)
      else if N.ltb c 32 then None
      else Some (LString (c :: acc), out)
  | LEscape acc =>
      if N.eqb c 117 then Some (LUnicode acc 0 0%N, out)
      else match escape c with
           | Some u => Some (LString (u :: acc), out)
           | None => None
           end
  | LUnicode acc count code =>
      match hex_digit c with
      | Some h =>
          let code' := (code * 16 + h)%N in
          if Nat.eqb count 3 then Some (LString (code' :: acc), out)
          else Some (LUnicode acc (S count) code', out)
      | None => None
      end
  | LNumber ns a =>
      match in_number ns a c with
      | inl (ns', a') => Some (LNumber ns' a', out)
      | inr true => idle c (TLit (num_value a) :: out)
      | inr false => None
      end
  end.

Definition lex_end (st : lex_state) (out : list token)
  : option (list token) :=
  match st with
  | LIdle => Some (rev out)
  | LNumber (NZero | NInt | NFrac | NExpDigits) a =>
      Some (rev (TLit (num_value a) :: out))
  | _ => None
  end.

Fixpoint lex (st : lex_state) (out : list token) (s : str)
  : option (list token) :=
  match s with
  | [] => lex_end st out
  | c :: s' =>
      match lex_step st c out with
      | Some (st', out') => lex st' out' s'
      | None => None
      end
  end.

(** *** Parser: one token at a time, with the open containers on a
    stack *)

Inductive frame : Type :=
| InArray (done : list value)
| InObject (done : list (str * value)) (key : str).

Inductive parse_state : Type :=
| PValue (stack : list frame)
| PFirstElement (stack : list frame)
| PFirstKey (stack : list frame)
| PKey (done : list (str * value)) (stack : list frame)
| PColon (done : list (str * value)) (key : str) (stack : list frame)
| PAfter (v : value) (stack : list frame).

Definition begin_value (t : token) (stack : list frame)
  : option parse_state :=
  match t with
  | TLit v => Some (PAfter v stack)
  | TLBracket => Some (PFirstElement stack)
  | TLBrace => Some (PFirstKey stack)
  | _ => None
  end.

Definition parse_step (st : parse_state) (t : token) : option parse_state :=
  match st with
  | PValue stack => begin_value t stack
  | PFirstElement stack =>
      match t with
      | TRBracket => Some (PAfter (VArr []) stack)
      | _ => begin_value t (InArray [] :: stack)
      end
  | PFirstKey stack =>
      match t with
      | TRBrace => Some (PAfter (VObj []) stack)
      | TLit (VStr k) => Some (PColon [] k stack)
      | _ => None
      end
  | PKey done stack =>
      match t with
      | TLit (VStr k) => Some (PColon done k stack)
      | _ => None
      end
  | PColon done k stack =>
      match t with
      | TColon => Some (PValue (InObject done k :: stack))
      | _ => None
      end
  | PAfter v (InArray done :: stack) =>
      match t with
      | TComma => Some (PValue (InArray (v :: done) :: stack))
      | TRBracket => Some (PAfter (VArr (rev (v :: done))) stack)
      | _ => None
      end
  | PAfter v (InObject done k :: stack) =>
      match t with
      | TComma => Some (PKey ((k, v) :: done) stack)
      | TRBrace => Some (PAfter (VObj (rev ((k, v) :: done))) stack)
      | _ => None
      end
  | PAfter _ [] => None
  end.

Fixpoint run (st : parse_state) (ts : list token) : option value :=
  match ts with
  | [] => match st with PAfter v [] => Some v | _ => None end
  | t :: ts' =>
      match parse_step st t with
      | Some st' => run st' ts'
      | None => None
      end
  end.

(** [JSON.parse(text)] for a string: the value, or a SyntaxError. *)
Definition parse_text (text : str) : completion value :=
  match lex LIdle [] text with
  | Some ts =>
      match run (PValue []) ts with
      | Some v => Normal v
      | None => Throw SyntaxError
      end
  | None => Throw SyntaxError
  end.

(** [JSON.parse(v)]: the argument is converted to a string first. *)
Definition parse (v : value) : completion value :=
  text <- ToString v ;;
  parse_text text.

End JSON.

(** The properties [JSON.stringify] writes: each key once, with its last
    value, and no property whose value is [undefined]. *)
Fixpoint own (props : list (str * value)) : list (str * value) :=
  match props with
  | [] => []
  | (k, v) :: rest =>
      if has_key k rest then own rest
      else match v with
           | VUndefined => own rest
           | _ => (k, v) :: own rest
           end
  end.

(** [JSON.parse(JSON.stringify(v))]: what a value is after it travelled
    as a JSON body.  A property whose value is [undefined] is left out,
    [undefined] in an array and a number that is not finite become [null],
    and minus zero becomes zero. *)
Fixpoint wire (v : value) : value :=
  match v with
  | VUndefined => VNull
  | VNum n =>
      if Number.is_finite n
      then (if Number.is_zero n then VNum (S754_zero false) else VNum n)
      else VNull
  | VArr elems => VArr (map wire elems)
  | VObj props =>
      VObj (own (map (fun '(k, x) => (k, match x with
                                         | VUndefined => VUndefined
                                         | _ => wire x
                                         end)) props))
  | _ => v
  end.

(** What [wire] does to a property's value. *)
Definition wire_property (x : value) : value :=
  match x with
  | VUndefined => VUndefined
  | _ => wire x
  end.

Definition nl : str := [10%N].

(** The lines of a template literal. *)
Definition lines (ls : list str) : str := join_with nl ls.

(** ** The API routes *)

Module Api.

(** *** HTTP, as the handlers see it *)

Record request : Type := {
  method : str;
  body : value
}.

Inductive sent : Type :=
| Json (v : value)    (* res.json(v) *)
| End_.               (* res.end() *)

Record response : Type := {
  headers : list (str * value);
  status : Z;
  payload : sent
}.

(** The headers both handlers set before anything else. *)
Definition cors : list (str * value) :=
  [ (lit "Access-Control-Allow-Credentials", VBool true);
    (lit "Access-Control-Allow-Origin", VStr (lit "*"));
    (lit "Access-Control-Allow-Methods",
      VStr (lit "GET,OPTIONS,PATCH,DELETE,POST,PUT"));
    (lit "Access-Control-Allow-Headers",
      VStr (lit "X-CSRF-Token, X-Requested-With, Accept, Accept-Version, Content-Length, Content-MD5, Content-Type, Date, X-Api-Version")) ].

Definition json (code : Z) (v : value) : response :=
  {| headers := cors; status := code; payload := Json v |}.

Definition error (code : Z) (message : string) : response :=
  json code (VObj [(lit "error", VStr (lit message))]).

(** *** The chat-completion service *)

(** One outbound call: the request [fetch] sends. *)
Record call : Type := {
  url : str;
  authorization : str;
  model : str;
  messages : list (str * str);   (* role, content *)
  max_tokens : Z;
  temperature : number
}.

(** What [await fetch(...)] gives: a rejection, or a response with its
    status and body text. *)
Inductive fetched : Type :=
| Rejects
| Resolves (code : Z) (text : str).

Definition upstream := call -> fetched.

(** [response.ok] *)
Definition ok (code : Z) : bool := (200 <=? code) && (code <=? 299).

(** [process.env.OPENAI_API_KEY]: [None] when the variable is not set. *)
Definition environment := option str.

Definition configured (env : environment) : bool :=
  match env with
  | Some (_ :: _) => true
  | _ => false
  end.

Definition api_key (env : environment) : str :=
  match env with
  | Some k => k
  | None => lit "undefined"
  end.

(** What a handler did: the outbound calls it made, and the response it
    sent, or the exception that escaped it. *)
Record served : Type := {
  calls : list call;
  outcome : completion response
}.

Definition reply (r : response) : served :=
  {| calls := []; outcome := Normal r |}.

(** The part both [try] blocks share: the status check and
    [data.choices[0].message.content]. *)
Definition completion_content (r : fetched) : completion value :=
  match r with
  | Rejects => Throw NetworkError
  | Resolves code text =>
      if negb (ok code)
      then Throw (Error (lit "OpenAI API error: " ++ Number.digits_of code))
      else
        data <- JSON.parse_text text ;;
        choices <- get data (lit "choices") ;;
        first <- get0 choices ;;
        message <- get first (lit "message") ;;
        get message (lit "content")
  end.

(** [v.join(sep)]: only an array has the method. *)
Definition join (v : value) (sep : str) : completion str :=
  match v with
  | VUndefined | VNull => Throw TypeError
  | VArr elems => array_join elems sep
  | _ => Throw TypeError
  end.

(** *** generate-report *)

Module GenerateReport.

Definition prompt (traits newsContent : str) : str :=
  lines [
    lit "Provide a detailed analysis of how an audience with these characteristics would likely react to this news:";
    [];
    lit "Audience Characteristics: " ++ traits;
    [];
    litq "News Content: '" ++ newsContent ++ litq "'";
    [];
    lit "Please provide:";
    lit "1. Overall emotional reaction (positive/negative/mixed/neutral)";
    lit "2. Key concerns or interests this audience would have";
    lit "3. Likely engagement behavior (share, comment, ignore, etc.)";
    lit "4. Potential misconceptions or areas of confusion";
    lit "5. Recommended messaging adjustments for this audience";
    lit "6. Cultural or demographic-specific considerations";
    [];
    lit "Format your response as a comprehensive analysis report."
  ].

Definition completion_call (env : environment) (traits newsContent : str)
  : call :=
  {| url := lit "https://api.openai.com/v1/chat/completions";
     authorization := lit "Bearer " ++ api_key env;
     model := lit "gpt-3.5-turbo";
     messages := [(lit "user", prompt traits newsContent)];
     max_tokens := 2000;
     temperature := Number.of_decimal false 7 (-1) |}.

(** The two interpolations of the message's template literal, in the
    order they are evaluated: [selectedTraits.join(', ')], then the
    conversion of [newsContent] to a string.  Either may throw; this
    happens inside the [try], before [fetch] is called. *)
Definition content (selectedTraits newsContent : value)
  : completion (str * str) :=
  traits <- join selectedTraits (lit ", ") ;;
  text <- ToString newsContent ;;
  Normal (traits, text).

Definition handler (env : environment) (openai : upstream) (req : request)
  : served :=
  if str_eqb (method req) (lit "OPTIONS")
  then reply {| headers := cors; status := 200; payload := End_ |}
  else if negb (str_eqb (method req) (lit "POST"))
  then reply (error 405 "Method not allowed")
  else
    match get (body req) (lit "newsContent"),
          get (body req) (lit "selectedTraits") with
    | Normal newsContent, Normal selectedTraits =>
        if negb (truthy newsContent) || negb (truthy selectedTraits)
        then reply (error 400 "News content and selected traits are required")
        else if negb (configured env)
        then reply (error 500 "OpenAI API key not configured")
        else
          let failed := error 500 "Failed to generate analysis report" in
          match content selectedTraits newsContent with
          | Throw _ => reply failed
          | Normal (traits, text) =>
              let c := completion_call env traits text in
              {| calls := [c];
                 outcome :=
                   try_catch
                     (analysisReport <- completion_content (openai c) ;;
                      Normal (json 200
                                (VObj [(lit "report", analysisReport)])))
                     (fun _ => Normal failed) |}
          end
    | Throw e, _ | _, Throw e => {| calls := []; outcome := Throw e |}
    end.

End GenerateReport.

(** *** auto-select *)

Module AutoSelect.

Record options : Type := {
  ages : list str;
  genders : list str;
  personality_traits : list str;
  interests : list str
}.

Definition fixedOptions : options :=
  {| ages := map lit ["18-"; "18-24"; "24-30"; "30-36"; "36-42"; "42-48";
                      "48-54"; "54-60"; "60-66"; "66-72"; "72+"]%string;
     genders := map lit ["male"; "female"; "non-binary"]%string;
     personality_traits :=
       map lit ["analytical"; "empathetic"; "adventurous"; "conscientious";
                "spontaneous"; "pragmatic"; "idealistic"; "assertive";
                "diplomatic"; "introspective"]%string;
     interests :=
       map lit ["technology"; "music"; "visual arts"; "sports";
                "literature"; "finance"; "gaming"; "travel"; "culinary";
                "environment"]%string |}.

Definition prompt (newsContent : str) : str :=
  let list_of labels := join_with (lit ", ") labels in
  lines [
    lit "Analyze this news content and select the most relevant audience characteristics from the following fixed options. Return your selections in JSON format:";
    [];
    lit "Available options:";
    lit "- Ages: [" ++ list_of (ages fixedOptions) ++ lit "]";
    lit "- Genders: [" ++ list_of (genders fixedOptions) ++ lit "]";
    lit "- Personality Traits: ["
      ++ list_of (personality_traits fixedOptions) ++ lit "]";
    lit "- Interests: [" ++ list_of (interests fixedOptions) ++ lit "]";
    [];
    lit "Return format:";
    lit "{";
    litq "  'ages': ['24-30', '30-36'],";
    litq "  'genders': ['male', 'female'],";
    litq "  'personality_traits': ['analytical', 'pragmatic'],";
    litq "  'interests': ['technology', 'finance']";
    lit "}";
    [];
    litq "News content to analyze: '" ++ newsContent ++ litq "'"
  ].

Definition completion_call (env : environment) (newsContent : str)
  : call :=
  {| url := lit "https://api.openai.com/v1/chat/completions";
     authorization := lit "Bearer " ++ api_key env;
     model := lit "gpt-3.5-turbo";
     messages := [(lit "user", prompt newsContent)];
     max_tokens := 500;
     temperature := Number.of_decimal false 3 (-1) |}.

Definition strings (labels : list string) : value :=
  VArr (map (fun l => VStr (lit l)) labels).

(** The selections sent when [JSON.parse] throws. *)
Definition fallback : value :=
  VObj [ (lit "ages", strings ["24-30"; "30-36"]%string);
         (lit "genders", strings ["male"; "female"]%string);
         (lit "personality_traits",
           strings ["analytical"; "pragmatic"]%string);
         (lit "interests", strings ["technology"]%string) ].

(** The inner [try]: parse the text of the completion and send it, or
    send the fallback selections.  [JSON.parse] converts its argument to a
    string first; an exception of that conversion is caught as well. *)
Definition send_selections (analysisText : value) : completion response :=
  try_catch
    (selections <- JSON.parse analysisText ;;
     Normal (json 200 selections))
    (fun _ => Normal (json 200 fallback)).

Definition handler (env : environment) (openai : upstream) (req : request)
  : served :=
  if str_eqb (method req) (lit "OPTIONS")
  then reply {| headers := cors; status := 200; payload := End_ |}
  else if negb (str_eqb (method req) (lit "POST"))
  then reply (error 405 "Method not allowed")
  else
    match get (body req) (lit "newsContent") with
    | Normal newsContent =>
        if negb (truthy newsContent)
        then reply (error 400 "News content is required")
        else if negb (configured env)
        then reply (error 500 "OpenAI API key not configured")
        else
          let failed := error 500 "Failed to analyze content" in
          match ToString newsContent with
          | Throw _ => reply failed
          | Normal text =>
              let c := completion_call env text in
              {| calls := [c];
                 outcome :=
                   try_catch
                     (analysisText <- completion_content (openai c) ;;
                      send_selections analysisText)
                     (fun _ => Normal failed) |}
          end
    | Throw e => {| calls := []; outcome := Throw e |}
    end.

End AutoSelect.

End Api.

(** ** Set *)

(** A [Set] of values: its elements in insertion order. *)
Module JSSet.

Definition t := list value.

Definition empty : t := [].

Definition has (s : t) (v : value) : bool :=
  existsb (same_value_zero v) s.

Definition add (s : t) (v : value) : t :=
  if has s v then s else s ++ [v].

Definition delete (s : t) (v : value) : t :=
  filter (fun x => negb (same_value_zero v x)) s.

Definition size (s : t) : nat := List.length s.

(** [new Set(iterable)] *)
Definition of_list (vs : list value) : t := fold_left add vs empty.

(** [Array.from(set)] *)
Definition to_list (s : t) : list value := s.

End JSSet.

(** ** The page *)

Module Home.

(** *** The API as the browser reaches it *)

(** What [await fetch(path, ...)] gives the page: a rejection, or a
    response with its status and what [response.json()] resolves to. *)
Inductive landed : Type :=
| Unreachable
| Answered (code : Z) (data : completion value).

(** The server side: it is given the path and the value whose JSON text
    is the request body. *)
Definition backend := str -> value -> landed.

(** *** State *)

Record state : Type := {
  currentQuery : str;
  selectedCharacteristics : JSSet.t;
  showChat : bool;
  showCharacteristics : bool;
  showReport : bool;
  messages : list (str * str);    (* sender, content *)
  reportContent : value;
  isLoading : bool
}.

Definition initial : state :=
  {| currentQuery := [];
     selectedCharacteristics := JSSet.empty;
     showChat := false;
     showCharacteristics := false;
     showReport := false;
     messages := [];
     reportContent := VStr [];
     isLoading := false |}.

Definition setCurrentQuery (q : str) (st : state) : state :=
  {| currentQuery := q;
     selectedCharacteristics := selectedCharacteristics st;
     showChat := showChat st;
     showCharacteristics := showCharacteristics st;
     showReport := showReport st;
     messages := messages st;
     reportContent := reportContent st;
     isLoading := isLoading st |}.

Definition setSelectedCharacteristics (s : JSSet.t) (st : state) : state :=
  {| currentQuery := currentQuery st;
     selectedCharacteristics := s;
     showChat := showChat st;
     showCharacteristics := showCharacteristics st;
     showReport := showReport st;
     messages := messages st;
     reportContent := reportContent st;
     isLoading := isLoading st |}.

Definition setShowChat (b : bool) (st : state) : state :=
  {| currentQuery := currentQuery st;
     selectedCharacteristics := selectedCharacteristics st;
     showChat := b;
     showCharacteristics := showCharacteristics st;
     showReport := showReport st;
     messages := messages st;
     reportContent := reportContent st;
     isLoading := isLoading st |}.

Definition setShowCharacteristics (b : bool) (st : state) : state :=
  {| currentQuery := currentQuery st;
     selectedCharacteristics := selectedCharacteristics st;
     showChat := showChat st;
     showCharacteristics := b;
     showReport := showReport st;
     messages := messages st;
     reportContent := reportContent st;
     isLoading := isLoading st |}.

Definition setShowReport (b : bool) (st : state) : state :=
  {| currentQuery := currentQuery st;
     selectedCharacteristics := selectedCharacteristics st;
     showChat := showChat st;
     showCharacteristics := showCharacteristics st;
     showReport := b;
     messages := messages st;
     reportContent := reportContent st;
     isLoading := isLoading st |}.

Definition setMessages (f : list (str * str) -> list (str * str))
  (st : state) : state :=
  {| currentQuery := currentQuery st;
     selectedCharacteristics := selectedCharacteristics st;
     showChat := showChat st;
     showCharacteristics := showCharacteristics st;
     showReport := showReport st;
     messages := f (messages st);
     reportContent := reportContent st;
     isLoading := isLoading st |}.

Definition setReportContent (r : value) (st : state) : state :=
  {| currentQuery := currentQuery st;
     selectedCharacteristics := selectedCharacteristics st;
     showChat := showChat st;
     showCharacteristics := showCharacteristics st;
     showReport := showReport st;
     messages := messages st;
     reportContent := r;
     isLoading := isLoading st |}.

Definition setIsLoading (b : bool) (st : state) : state :=
  {| currentQuery := currentQuery st;
     selectedCharacteristics := selectedCharacteristics st;
     showChat := showChat st;
     showCharacteristics := showCharacteristics st;
     showReport := showReport st;
     messages := messages st;
     reportContent := reportContent st;
     isLoading := b |}.

(** What a handler did: the requests it sent to the API, and the state
    it left, or the exception that escaped it. *)
Record ran : Type := {
  requests : list (str * value);
  after : completion state
}.

(** *** Handlers *)

Definition addMessage (sender content : str) (st : state) : state :=
  setMessages (fun prev => prev ++ [(sender, content)]) st.

Definition updateLastMessage (content : str) (st : state) : state :=
  setMessages
    (fun prev =>
       match rev prev with
       | (sender, _) :: before =>
           if str_eqb sender (lit "assistant")
           then rev before ++ [(sender, content)]
           else prev
       | [] => prev
       end) st.

(** [...(v || [])]: the elements the spread contributes. *)
Definition spread_or_empty (v : value) : completion (list value) :=
  if truthy v
  then match v with
       | VArr elems => Normal elems
       | VStr s => Normal (map VStr (code_points s))
       | _ => Throw TypeError
       end
  else Normal [].

Definition applyAutoSelections (autoSelections : value) (st : state)
  : completion state :=
  ages <- get autoSelections (lit "ages") ;;
  ages <- spread_or_empty ages ;;
  genders <- get autoSelections (lit "genders") ;;
  genders <- spread_or_empty genders ;;
  personality_traits <- get autoSelections (lit "personality_traits") ;;
  personality_traits <- spread_or_empty personality_traits ;;
  interests <- get autoSelections (lit "interests") ;;
  interests <- spread_or_empty interests ;;
  let allSelections := ages ++ genders ++ personality_traits ++ interests in
  Normal (setSelectedCharacteristics (JSSet.of_list allSelections) st).

Definition analyzing : str :=
  lit "Analyzing your content to identify the most relevant audience characteristics...".

Definition analyzed : str :=
  lit "I've analyzed your content and auto-selected the most relevant audience characteristics (marked in green). You can modify these selections and click 'Generate Analysis Report' when ready.".

Definition unavailable : str :=
  lit "Please select the audience characteristics you'd like to focus on and click 'Generate Analysis Report'. AI auto-selection is currently unavailable.".

Definition handleQuerySubmit (api : backend) (st : state) : ran :=
  let query := currentQuery st in
  if negb (truthy (VStr (trim query)))
  then {| requests := []; after := Normal st |}
  else
    let st1 :=
      addMessage (lit "assistant") analyzing
        (addMessage (lit "user") query
           (setShowReport false
              (setShowCharacteristics true
                 (setShowChat true
                    (setSelectedCharacteristics JSSet.empty
                       (setMessages (fun _ => [])
                          (setIsLoading true st))))))) in
    let sent := VObj [(lit "newsContent", VStr query)] in
    {| requests := [(lit "/api/auto-select", sent)];
       after :=
         st2 <- try_catch
                  (match api (lit "/api/auto-select") sent with
                   | Unreachable => Throw NetworkError
                   | Answered code data =>
                       if Api.ok code
                       then
                         autoSelections <- data ;;
                         st2 <- applyAutoSelections autoSelections st1 ;;
                         Normal (updateLastMessage analyzed st2)
                       else Normal (updateLastMessage unavailable st1)
                   end)
                  (fun _ => Normal (updateLastMessage unavailable st1)) ;;
         Normal (setIsLoading false st2) |}.

Definition toggleCharacteristic (v : value) (st : state) : state :=
  let newSelected := selectedCharacteristics st in
  let newSelected :=
    if JSSet.has newSelected v
    then JSSet.delete newSelected v
    else JSSet.add newSelected v in
  setSelectedCharacteristics newSelected st.

Definition fallbackReport : str :=
  lines [
    [];
    lit "    <h4>Overall Analysis</h4>";
    lit "    <p>This content would likely resonate with the selected demographic based on their characteristics.</p>";
    lit "    ";
    lit "    <h4>Engagement Patterns</h4>";
    lit "    <p>Audience engagement patterns suggest varying levels of interest and emotional response based on the selected traits.</p>";
    lit "    ";
    lit "    <h4>Recommendations</h4>";
    lit "    <ul>";
    lit "        <li>Tailor messaging to address specific concerns of this demographic</li>";
    lit "        <li>Consider cultural and generational factors when crafting communication strategy</li>";
    lit "        <li>Monitor engagement metrics to validate assumptions</li>";
    lit "        <li>Test different messaging approaches with this audience segment</li>";
    lit "    </ul>";
    lit "    ";
    lit "    <p><em>Note: Full AI analysis temporarily unavailable. Using general recommendations.</em></p>";
    lit "  "
  ].

Definition generateReport (api : backend) (st : state) : ran :=
  if Nat.eqb (JSSet.size (selectedCharacteristics st)) 0
  then {| requests := []; after := Normal st |}
  else
    let st1 := setIsLoading true st in
    let traits := JSSet.to_list (selectedCharacteristics st) in
    let sent := VObj [ (lit "newsContent", VStr (currentQuery st));
                       (lit "selectedTraits", VArr traits) ] in
    {| requests := [(lit "/api/generate-report", sent)];
       after :=
         st2 <- try_catch
                  (match api (lit "/api/generate-report") sent with
                   | Unreachable => Throw NetworkError
                   | Answered code data =>
                       if Api.ok code
                       then
                         data <- data ;;
                         report <- get data (lit "report") ;;
                         Normal (setReportContent report st1)
                       else Normal (setReportContent (VStr fallbackReport) st1)
                   end)
                  (fun _ => Normal (setReportContent (VStr fallbackReport) st1)) ;;
         Normal (setIsLoading false (setShowReport true st2)) |}.

Definition goBackToMain (st : state) : state :=
  setSelectedCharacteristics JSSet.empty
    (setMessages (fun _ => [])
       (setCurrentQuery []
          (setShowReport false
             (setShowCharacteristics false
                (setShowChat false st))))).

Record options : Type := {
  ages : list str;
  genders : list str;
  personality : list str;
  interests : list str
}.

Definition characteristics : options :=
  {| ages := map lit ["18-"; "18-24"; "24-30"; "30-36"; "36-42"; "42-48";
                      "48-54"; "54-60"; "60-66"; "66-72"; "72+"]%string;
     genders := map lit ["male"; "female"; "non-binary"]%string;
     personality :=
       map lit ["analytical"; "empathetic"; "adventurous"; "conscientious";
                "spontaneous"; "pragmatic"; "idealistic"; "assertive";
                "diplomatic"; "introspective"]%string;
     interests :=
       map lit ["technology"; "music"; "visual arts"; "sports";
                "literature"; "finance"; "gaming"; "travel"; "culinary";
                "environment"]%string |}.

(** The [disabled] attribute of the generate button. *)
Definition generate_btn_disabled (st : state) : bool :=
  Nat.eqb (JSSet.size (selectedCharacteristics st)) 0 || isLoading st.

End Home.

(** ** The deployed application: the page's requests served by the routes *)

Definition deploy (env : Api.environment) (openai : Api.upstream)
  : Home.backend :=
  fun path sent =>
    let req := {| Api.method := lit "POST"; Api.body := wire sent |} in
    let served :=
      if str_eqb path (lit "/api/auto-select")
      then Some (Api.AutoSelect.handler env openai req)
      else if str_eqb path (lit "/api/generate-report")
      then Some (Api.GenerateReport.handler env openai req)
      else None in
    match served with
    | Some s =>
        match Api.outcome s with
        | Normal r =>
            Home.Answered (Api.status r)
              match Api.payload r with
              | Api.Json v => Normal (wire v)
              | Api.End_ => Throw SyntaxError
              end
        | Throw _ => Home.Answered 500 (Throw SyntaxError)
        end
    | None => Home.Answered 404 (Throw SyntaxError)
    end.

(** * Vocabulary of the properties *)

Import Api.

(** A request turned away: a response with the given status, and no call
    to the completion service. *)
Definition rejected (s : served) (code : Z) : Prop :=
  calls s = [] /\ exists r, outcome s = Normal r /\ status r = code.

(** The ways the invocation of the completion service fails: the request
    does not get through, the status is not a success, or reading the
    completion out of the body throws (the body is not JSON, or it has no
    [choices[0].message]). *)
Inductive invocation_fails : fetched -> Prop :=
| transport_error : invocation_fails Rejects
| bad_status (code : Z) (text : str) :
    ok code = false -> invocation_fails (Resolves code text)
| bad_completion (code : Z) (text : str) (e : exn) :
    ok code = true ->
    completion_content (Resolves code text) = Throw e ->
    invocation_fails (Resolves code text).

(** The elements a suggestion lists under a category. *)
Definition labels (suggestion : value) (category : str) : list value :=
  match suggestion with
  | VObj props =>
      match lookup category props with
      | VArr elems => elems
      | _ => []
      end
  | _ => []
  end.

(** The categories of the taxonomy with their labels. *)
Definition categories : list (str * list str) :=
  [ (lit "ages", AutoSelect.ages AutoSelect.fixedOptions);
    (lit "genders", AutoSelect.genders AutoSelect.fixedOptions);
    (lit "personality_traits",
      AutoSelect.personality_traits AutoSelect.fixedOptions);
    (lit "interests", AutoSelect.interests AutoSelect.fixedOptions) ].

(** Every element a suggestion lists under a category is a label of that
    category. *)
Definition within_taxonomy (suggestion : value) : Prop :=
  forall category options,
    In (category, options) categories ->
    forall l, In l (labels suggestion category) ->
    exists label, l = VStr label /\ In label options.

(** The selector as the specification words it: every suggestion the
    auto-select route returns lies within the taxonomy. *)
Definition suggestions_filtered : Prop :=
  forall (env : environment) (openai : upstream) (req : request) (v : value),
    outcome (AutoSelect.handler env openai req) = Normal (json 200 v) ->
    within_taxonomy v.

(** The selector as the specification words it: a request in order whose
    invocation of the completion service fails is answered with the
    fallback selections. *)
Definition failures_defaulted : Prop :=
  forall (env : environment) (openai : upstream) (req : request)
         (newsContent : str),
    method req = lit "POST" ->
    get (body req) (lit "newsContent") = Normal (VStr newsContent) ->
    truthy (VStr newsContent) = true ->
    configured env = true ->
    invocation_fails
      (openai (AutoSelect.completion_call env newsContent)) ->
    outcome (AutoSelect.handler env openai req)
    = Normal (json 200 AutoSelect.fallback).

(** A category of a parsed suggestion: its array of labels, or nothing
    when the key is missing. *)
Definition category_value (present : option (list str)) : value :=
  match present with
  | Some ls => VArr (map VStr ls)
  | None => VUndefined
  end.

Definition present_labels (present : option (list str)) : list str :=
  match present with
  | Some ls => ls
  | None => []
  end.

(** ** Sample requests and completions *)

Module Sample.

Definition env : environment := Some (lit "sk-test").

Definition query : str := lit "Company X raises prices".

Definition select : request :=
  {| method := lit "POST";
     body := VObj [(lit "newsContent", VStr query)] |}.

Definition report (traits : list value) : request :=
  {| method := lit "POST";
     body := VObj [ (lit "newsContent", VStr query);
                    (lit "selectedTraits", VArr traits) ] |}.

(** The body of a chat completion whose message content is the JSON
    text with the given characters; [content] is written as it stands
    inside the JSON string, with its double quotes escaped. *)
Definition completion (content : str) : str :=
  litq "{'id':'chatcmpl-1','choices':[{'index':0,'message':{'role':'assistant','content':'"
    ++ content ++ litq "'},'finish_reason':'stop'}]}".

(** A completion that names a label the taxonomy does not have. *)
Definition hallucinating : upstream :=
  fun _ => Resolves 200
             (completion (litq "{\'ages\':[\'99+\'],\'genders\':[\'male\']}")).

(** What it parses to. *)
Definition hallucinated_selections : value :=
  VObj [ (lit "ages", VArr [VStr (lit "99+")]);
         (lit "genders", VArr [VStr (lit "male")]) ].

(** A completion that leaves two categories out. *)
Definition partial : upstream :=
  fun _ => Resolves 200
             (completion (litq "{\'ages\':[\'24-30\'],\'interests\':[\'finance\',\'music\']}")).

(** What it parses to. *)
Definition partial_selections : value :=
  VObj [ (lit "ages", VArr [VStr (lit "24-30")]);
         (lit "interests", VArr [VStr (lit "finance"); VStr (lit "music")]) ].

(** A completion that is JSON, but no suggestion. *)
Definition off_schema : upstream :=
  fun _ => Resolves 200 (completion (lit "42")).

(** A completion cut off in the middle. *)
Definition truncated : upstream :=
  fun _ => Resolves 200 (completion (litq "{\'ages\': [\'24-30\'")).

Definition unreachable : upstream := fun _ => Rejects.

Definition overloaded : upstream :=
  fun _ => Resolves 429 (litq "{'error':{'message':'Rate limit reached'}}").

Definition no_choices : upstream :=
  fun _ => Resolves 200 (litq "{'choices':[]}").

(** A completion whose text is the JSON literal [null]. *)
Definition null_text : upstream :=
  fun _ => Resolves 200 (completion (lit "null")).

(** A completion that carries a report. *)
Definition analysing : upstream :=
  fun _ => Resolves 200 (completion (lit "<h4>Overall reaction</h4><p>Mixed.</p>")).

(** The page after the query was typed. *)
Definition typed : Home.state := Home.setCurrentQuery query Home.initial.

End Sample.

(** * The prompts without their inputs *)

(** The auto-select prompt up to the news content. *)
Definition selection_prompt_opening : str :=
  removelast (Api.AutoSelect.prompt []).

(** The report prompt before the traits, between the traits and the news
    content, and after the news content. *)
Definition report_prompt_opening : str :=
  lines [
    lit "Provide a detailed analysis of how an audience with these characteristics would likely react to this news:";
    [];
    lit "Audience Characteristics: "
  ].

Definition report_prompt_middle : str :=
  lines [ []; []; litq "News Content: '" ].

Definition report_prompt_closing : str :=
  lines [
    litq "'";
    [];
    lit "Please provide:";
    lit "1. Overall emotional reaction (positive/negative/mixed/neutral)";
    lit "2. Key concerns or interests this audience would have";
    lit "3. Likely engagement behavior (share, comment, ignore, etc.)";
    lit "4. Potential misconceptions or areas of confusion";
    lit "5. Recommended messaging adjustments for this audience";
    lit "6. Cultural or demographic-specific considerations";
    [];
    lit "Format your response as a comprehensive analysis report."
  ].

(** * The rest of the page *)

(** ** What the page shows *)

Module View.

Import Home.

(** The regions of the page that are rendered. *)
Definition welcome_screen (st : state) : bool := negb (showChat st).

Definition chat_interface (st : state) : bool := showChat st.

Definition characteristics_panel (st : state) : bool := showCharacteristics st.

Definition report_display (st : state) : bool :=
  showCharacteristics st && showReport st.

Definition characteristics_content (st : state) : bool :=
  showCharacteristics st && negb (showReport st).

(** The [disabled] attribute of the submit button. *)
Definition submit_btn_disabled (st : state) : bool := isLoading st.

(** The "News Content" line of the report: at most the first hundred code
    units of the query. *)
Definition news_content_meta (st : state) : str :=
  if Nat.ltb 100 (List.length (currentQuery st))
  then firstn 100 (currentQuery st) ++ lit "..."
  else currentQuery st.

(** The "Selected Traits" line of the report; the render throws when the
    conversion of a selected value does. *)
Definition selected_traits_meta (st : state) : completion str :=
  array_join (JSSet.to_list (selectedCharacteristics st)) (lit ", ").

(** The title of a section of the panel. *)
Definition section_title (category : str) : str :=
  if str_eqb category (lit "ages") then lit "Age Groups"
  else if str_eqb category (lit "genders") then lit "Gender"
  else if str_eqb category (lit "personality") then lit "Personality Traits"
  else lit "Interests".

(** [Object.entries(characteristics)] *)
Definition sections : list (str * list str) :=
  [ (lit "ages", ages characteristics);
    (lit "genders", genders characteristics);
    (lit "personality", personality characteristics);
    (lit "interests", interests characteristics) ].

(** The items of the panel, section after section. *)
Definition items : list str := List.concat (map snd sections).

(** The class of an item of the panel. *)
Definition item_class (st : state) (item : str) : str :=
  lit "characteristic-item "
    ++ (if JSSet.has (selectedCharacteristics st) (VStr item)
        then lit "selected" else []).

(** The text of the generate button. *)
Definition generate_btn_label (st : state) : str :=
  let size := JSSet.size (selectedCharacteristics st) in
  if isLoading st then lit "Generating Report..."
  else if Nat.ltb 0 size
  then lit "Generate Analysis Report ("
         ++ Number.digits_of (Z.of_nat size) ++ lit " traits selected)"
  else lit "Generate Analysis Report".

End View.

(** ** The page over time *)

(** The handlers that wait for the API are in two parts: what runs up to
    the [await], and what runs when the response is there; between the
    two, other handlers may run.  The state setters of the second part
    act on the state of that moment. *)
Module Session.

Import Home.

(** What the user does. *)
Inductive event : Type :=
| Typed (q : str)          (* onChange of the query input *)
| Submitted                (* Enter in the input, or the submit button *)
| Toggled (item : str)     (* click on an item of the panel *)
| GenerateClicked          (* click on the generate button *)
| BackClicked              (* click on "Back to Characteristics" *)
| LogoClicked.             (* click on the logo *)

(** The event can happen: its element is rendered and not disabled. *)
Definition enabled (st : state) (e : event) : bool :=
  match e with
  | Typed _ | Submitted => View.welcome_screen st
  | Toggled item =>
      View.characteristics_content st && existsb (str_eqb item) View.items
  | GenerateClicked =>
      View.characteristics_content st && negb (generate_btn_disabled st)
  | BackClicked => View.report_display st
  | LogoClicked => true
  end.

(** A request the page waits for. *)
Inductive pending : Type :=
| Selecting    (* handleQuerySubmit awaits /api/auto-select *)
| Reporting.   (* generateReport awaits /api/generate-report *)

(** The handler of an event up to its [await]: the state it leaves and
    the request it sent, if any. *)
Definition start (e : event) (st : state)
  : state * option (pending * (str * value)) :=
  match e with
  | Typed q => (setCurrentQuery q st, None)
  | Submitted =>
      let query := currentQuery st in
      if negb (truthy (VStr (trim query))) then (st, None)
      else
        (addMessage (lit "assistant") analyzing
           (addMessage (lit "user") query
              (setShowReport false
                 (setShowCharacteristics true
                    (setShowChat true
                       (setSelectedCharacteristics JSSet.empty
                          (setMessages (fun _ => [])
                             (setIsLoading true st))))))),
         Some (Selecting,
               (lit "/api/auto-select",
                VObj [(lit "newsContent", VStr query)])))
  | Toggled item => (toggleCharacteristic (VStr item) st, None)
  | GenerateClicked =>
      if Nat.eqb (JSSet.size (selectedCharacteristics st)) 0 then (st, None)
      else
        (setIsLoading true st,
         Some (Reporting,
               (lit "/api/generate-report",
                VObj [ (lit "newsContent", VStr (currentQuery st));
                       (lit "selectedTraits",
                         VArr (JSSet.to_list (selectedCharacteristics st))) ])))
  | BackClicked => (setShowReport false st, None)
  | LogoClicked => (goBackToMain st, None)
  end.

(** The rest of the handler, once the response is there. *)
Definition resume (p : pending) (r : landed) (st : state) : state :=
  match p with
  | Selecting =>
      match
        match r with
        | Unreachable => Throw NetworkError
        | Answered code data =>
            if Api.ok code
            then
              autoSelections <- data ;;
              st' <- applyAutoSelections autoSelections st ;;
              Normal (updateLastMessage analyzed st')
            else Normal (updateLastMessage unavailable st)
        end
      with
      | Normal st' => setIsLoading false st'
      | Throw _ => setIsLoading false (updateLastMessage unavailable st)
      end
  | Reporting =>
      match
        match r with
        | Unreachable => Throw NetworkError
        | Answered code data =>
            if Api.ok code
            then
              data <- data ;;
              report <- get data (lit "report") ;;
              Normal (setReportContent report st)
            else Normal (setReportContent (VStr fallbackReport) st)
        end
      with
      | Normal st' => setIsLoading false (setShowReport true st')
      | Throw _ =>
          setIsLoading false
            (setShowReport true (setReportContent (VStr fallbackReport) st))
      end
  end.

(** The page and the requests it waits for. *)
Record world : Type := {
  page : state;
  inflight : list pending
}.

Definition opened : world := {| page := initial; inflight := [] |}.

(** One thing happens: the user does something that is enabled, or the
    response to one of the requests in flight arrives, whatever it is. *)
Inductive step : world -> world -> Prop :=
| event_happens (e : event) (w : world) :
    enabled (page w) e = true ->
    step w {| page := fst (start e (page w));
              inflight := inflight w
                          ++ match snd (start e (page w)) with
                             | Some (p, _) => [p]
                             | None => []
                             end |}
| response_arrives (p : pending) (r : landed) (w : world)
    (before after : list pending) :
    inflight w = before ++ p :: after ->
    step w {| page := resume p r (page w); inflight := before ++ after |}.

Inductive reachable : world -> Prop :=
| reachable_opened : reachable opened
| reachable_step (w w' : world) : reachable w -> step w w' -> reachable w'.

(** A run, to be played: what the user does, and which of the requests
    in flight is answered with what. *)
Inductive occurrence : Type :=
| Does (e : event)
| Arrives (n : nat) (r : landed).

Definition occur (o : occurrence) (w : world) : option world :=
  match o with
  | Does e =>
      if enabled (page w) e
      then Some {| page := fst (start e (page w));
                   inflight := inflight w
                               ++ match snd (start e (page w)) with
                                  | Some (p, _) => [p]
                                  | None => []
                                  end |}
      else None
  | Arrives n r =>
      match nth_error (inflight w) n with
      | Some p =>
          Some {| page := resume p r (page w);
                  inflight := firstn n (inflight w)
                              ++ skipn (S n) (inflight w) |}
      | None => None
      end
  end.

Fixpoint play (os : list occurrence) (w : world) : option world :=
  match os with
  | [] => Some w
  | o :: os' =>
      match occur o w with
      | Some w' => play os' w'
      | None => None
      end
  end.

End Session.

(** No value is held twice: an element is not the same value as one
    before it. *)
Definition distinct (s : JSSet.t) : Prop :=
  ForallOrdPairs (fun x y => same_value_zero y x = false) s.

(** What the page keeps at every moment: the panel is shown with the
    chat; while the chat is shown the query is not blank and the messages
    are the query and one message of the assistant, and before that there
    are no messages; the selection holds no value twice. *)
Definition consistent (st : Home.state) : Prop :=
  Home.showCharacteristics st = Home.showChat st
  /\ (Home.showChat st = true -> trim (Home.currentQuery st) <> [])
  /\ (if Home.showChat st
      then exists m,
             In m [Home.analyzing; Home.analyzed; Home.unavailable]
             /\ Home.messages st
                = [ (lit "user", Home.currentQuery st); (lit "assistant", m) ]
      else Home.messages st = [])
  /\ distinct (Home.selectedCharacteristics st).

(** A value the spread syntax takes after [|| []]: a falsy one, an array
    or a string. *)
Definition spreadable (x : value) : bool :=
  negb (truthy x)
  || match x with
     | VArr _ | VStr _ => true
     | _ => false
     end.

(** The keys [applyAutoSelections] reads. *)
Definition suggestion_keys : list str :=
  [lit "ages"; lit "genders"; lit "personality_traits"; lit "interests"].

(** Whether a parsed value has the key [k]. *)
Definition has_category (v : value) (k : str) : bool :=
  match v with
  | VObj props => has_key k props
  | _ => false
  end.

(** The selector as the specification words it: when the text of the
    completion is valid JSON in which a category key is missing, the
    categories that are there being arrays of labels, the page does not
    take this as a failure: it reports the analysis as done, and selects
    the labels of the categories that are there. *)
Definition partial_parse_accepted : Prop :=
  forall (env : environment) (openai : upstream) (st : Home.state)
         (text : str) (v : value),
    trim (Home.currentQuery st) <> [] ->
    configured env = true ->
    (forall c, completion_content (openai c) = Normal (VStr text)) ->
    JSON.parse_text text = Normal v ->
    (exists k, In k suggestion_keys /\ has_category v k = false) ->
    (forall k, In k suggestion_keys -> has_category v k = true ->
               exists ls, get v k = Normal (VArr (map VStr ls))) ->
    exists st',
      Home.after (Home.handleQuerySubmit (deploy env openai) st) = Normal st'
      /\ Home.messages st'
         = [ (lit "user", Home.currentQuery st);
             (lit "assistant", Home.analyzed) ]
      /\ forall label,
           JSSet.has (Home.selectedCharacteristics st') (VStr label) = true
           <-> exists k ls,
                 In k suggestion_keys
                 /\ get v k = Normal (VArr (map VStr ls))
                 /\ In label ls.

(** * The build script *)

Module Build.

(** [String.prototype.indexOf], as a split: what precedes the first
    occurrence of [pat] and what follows it. *)
Fixpoint split_first (pat s before : str) : option (str * str) :=
  if starts_with pat s
  then Some (rev before, skipn (List.length pat) s)
  else match s with
       | [] => None
       | c :: s' => split_first pat s' (c :: before)
       end.

(** GetSubstitution for a string pattern (no captures): [$$] is a dollar
    sign, [$&] the match, [$`] what precedes it, [$'] what follows it;
    any other code unit stands for itself. *)
Fixpoint get_substitution (matched before after template : str) : str :=
  match template with
  | [] => []
  | c :: tail =>
      if N.eqb c 36
      then match tail with
           | [] => [c]
           | d :: rest =>
               if N.eqb d 36
               then 36%N :: get_substitution matched before after rest
               else if N.eqb d 38
               then matched ++ get_substitution matched before after rest
               else if N.eqb d 96
               then before ++ get_substitution matched before after rest
               else if N.eqb d 39
               then after ++ get_substitution matched before after rest
               else c :: get_substitution matched before after tail
           end
      else c :: get_substitution matched before after tail
  end.

(** [s.replace(pat, replacement)] for a string [pat]: the first occurrence
    only. *)
Definition replace (s pat replacement : str) : str :=
  match split_first pat s [] with
  | Some (before, after) =>
      before ++ get_substitution pat before after replacement ++ after
  | None => s
  end.

Definition placeholder : str := lit "{{OPENAI_API_KEY}}".

(** The files the script meets, relative to its directory: the template
    [chat/index.html], if it is there, and whether [dist] exists. *)
Record disk : Type := {
  template : option str;
  dist_exists : bool
}.

Inductive effect : Type :=
| ConsoleError (message : str)
| ConsoleLog (message : str)
| Mkdir (path : str)
| WriteFile (path : str) (content : str).

(** What a run did, and how it ended: the exit code, or the exception
    that nothing caught. *)
Record run : Type := {
  effects : list effect;
  finished : completion Z
}.

(** The script, top to bottom. The read of a template that is not there
    throws, and nothing catches it; its message is kept without the path,
    which depends on where the script lies. Paths are written relative to
    the script's directory, and [mkdirSync] and [writeFileSync] are taken
    to succeed. *)
Definition build (apiKey : option str) (d : disk) : run :=
  match template d with
  | None =>
      {| effects := [];
         finished := Throw (Error (lit "ENOENT: no such file or directory")) |}
  | Some htmlContent =>
      match apiKey with
      | Some ((_ :: _) as key) =>
          let processedContent := replace htmlContent placeholder key in
          {| effects :=
               (if dist_exists d then [] else [Mkdir (lit "dist")])
               ++ [ WriteFile (lit "dist/index.html") processedContent;
                    ConsoleLog
                      (9989%N :: lit " Build completed successfully!");
                    ConsoleLog
                      (55357%N :: 56513%N :: lit " Output: dist/index.html");
                    ConsoleLog
                      (55357%N :: 56593%N :: lit " API key injected securely") ];
             finished := Normal 0 |}
      | _ =>
          {| effects :=
               [ConsoleError
                  (lit "Error: OPENAI_API_KEY environment variable is not set")];
             finished := Normal 1 |}
      end
  end.

End Build.

(** * Properties *)

(** ** The platform on sample inputs *)

Example parse_object :
  JSON.parse_text
    (litq " { 'ages' : [ '24-30' ] , 'n' : [ 1.5e3 , -0 , true , null ] } ")
  = Normal (VObj [ (lit "ages", VArr [VStr (lit "24-30")]);
                   (lit "n", VArr [ VNum (Number.of_decimal false 1500 0);
                                    VNum (S754_zero true);
                                    VBool true; VNull ]) ]).
Proof. vm_compute. reflexivity. Qed.

Example parse_escapes :
  JSON.parse_text (litq "'a\u0041\n\/'") = Normal (VStr [97; 65; 10; 47]%N).
Proof. vm_compute. reflexivity. Qed.

Example parse_rejects :
  map JSON.parse_text
    [ lit "[1,]"; litq "{'a':1,}"; lit "01"; lit "1."; lit ".5"; lit "+1";
      lit "tru"; litq "'open"; litq "{'a' 1}"; lit "1 2"; lit "" ]
  = repeat (Throw SyntaxError) 11.
Proof. vm_compute. reflexivity. Qed.

Example last_key_wins :
  (data <- JSON.parse_text (litq "{'a': 1, 'a': 2}") ;; get data (lit "a"))
  = Normal (VNum (Number.of_decimal false 2 0)).
Proof. vm_compute. reflexivity. Qed.

Example number_to_string :
  map (fun '(m, e) => Number.to_string (Number.of_decimal false m e))
    [ (1, -1); (30000000000000004, -17); (1, 21); (1, 20); (15, -8);
      (5, -324); (2, -324); (18, 307); (9007199254740993, 0) ]
  = map lit [ "0.1"; "0.30000000000000004"; "1e+21"; "100000000000000000000";
              "1.5e-7"; "5e-324"; "0"; "Infinity"; "9007199254740992" ]%string.
Proof. vm_compute. reflexivity. Qed.

Example parse_of_values :
  map JSON.parse
    [ VNull; VUndefined; VObj []; VArr [VStr (lit "7")];
      VArr [VStr (lit "[1"); VNum (Number.of_decimal false 25 (-1));
            VStr (lit "3]")] ]
  = [ Normal VNull; Throw SyntaxError; Throw SyntaxError;
      Normal (VNum (Number.of_decimal false 7 0));
      Normal (VArr [ VNum (Number.of_decimal false 1 0);
                     VNum (Number.of_decimal false 25 (-1));
                     VNum (Number.of_decimal false 3 0) ]) ].
Proof. vm_compute. reflexivity. Qed.

Example wire_drops :
  wire (VObj [ (lit "report", VUndefined);
               (lit "big", VNum (Number.of_decimal false 1 999));
               (lit "list", VArr [VUndefined; VNum (S754_zero true)]) ])
  = VObj [ (lit "big", VNull);
           (lit "list", VArr [VNull; VNum (S754_zero false)]) ].
Proof. vm_compute. reflexivity. Qed.

Example spread_of_string :
  Home.spread_or_empty (VStr [97; 55357; 56832; 98]%N)
  = Normal [VStr [97%N]; VStr [55357; 56832]%N; VStr [98%N]].
Proof. reflexivity. Qed.

Example report_shown :
  (st <- Home.after
           (Home.generateReport (deploy Sample.env Sample.analysing)
              (Home.toggleCharacteristic (VStr (lit "technology"))
                 Sample.typed)) ;;
   Normal (Home.reportContent st, Home.showReport st, Home.isLoading st))
  = Normal (VStr (lit "<h4>Overall reaction</h4><p>Mixed.</p>"), true, false).
Proof. vm_compute. reflexivity. Qed.

Example no_choices_fails :
  completion_content (Sample.no_choices
                        (AutoSelect.completion_call Sample.env Sample.query))
  = Throw TypeError.
Proof. vm_compute. reflexivity. Qed.

Example options_answered :
  outcome (AutoSelect.handler None Sample.unreachable
             {| method := lit "OPTIONS"; body := VUndefined |})
  = Normal {| headers := cors; status := 200; payload := End_ |}.
Proof. reflexivity. Qed.

Example own_toString_throws :
  map ToString
    [ VObj [(lit "toString", VNum (Number.of_decimal false 1 0))];
      VArr [VStr (lit "a");
            VObj [(lit "toString", VNum (Number.of_decimal false 1 0))]];
      VObj [(lit "valueOf", VNull)];
      VArr [VNull; VStr (lit "a"); VUndefined; VArr [VBool true; VObj []]] ]
  = [ Throw TypeError; Throw TypeError;
      Normal (lit "[object Object]");
      Normal (lit ",a,,true,[object Object]") ].
Proof. vm_compute. reflexivity. Qed.

Example unprintable_news_content :
  AutoSelect.handler Sample.env Sample.analysing
    {| method := lit "POST";
       body := VObj [(lit "newsContent",
                      VObj [(lit "toString",
                             VNum (Number.of_decimal false 1 0))])] |}
  = reply (error 500 "Failed to analyze content").
Proof. reflexivity. Qed.

Example unprintable_trait :
  GenerateReport.handler Sample.env Sample.analysing
    (Sample.report
       [VStr (lit "male");
        VObj [(lit "toString", VNum (Number.of_decimal false 1 0))]])
  = reply (error 500 "Failed to generate analysis report").
Proof. reflexivity. Qed.

Example null_body_throws :
  AutoSelect.handler Sample.env Sample.unreachable
    {| method := lit "POST"; body := VNull |}
  = {| calls := []; outcome := Throw TypeError |}.
Proof. reflexivity. Qed.

(** ** Strings and values *)

Lemma str_eqb_eq (a b : str) : str_eqb a b = true <-> a = b.
Proof.
  revert b; induction a as [|x a IH]; intros [|y b]; simpl;
    try (split; [discriminate | discriminate]); [tauto|].
  rewrite andb_true_iff, N.eqb_eq, IH.
  split; [intros [-> ->]; reflexivity | intros H; injection H; auto].
Qed.

Lemma str_eqb_refl (a : str) : str_eqb a a = true.
Proof. apply str_eqb_eq; reflexivity. Qed.

Lemma str_eqb_neq (a b : str) : str_eqb a b = false <-> a <> b.
Proof.
  rewrite <- str_eqb_eq. destruct (str_eqb a b); split; congruence.
Qed.

(** Only the string itself is the same value as a string. *)
Lemma same_value_zero_str (x : value) (s : str) :
  same_value_zero x (VStr s) = true <-> x = VStr s.
Proof.
  destruct x; simpl; try (split; [discriminate | discriminate]).
  rewrite str_eqb_eq. split; [intros ->; reflexivity | intros H; injection H; auto].
Qed.

Lemma same_value_zero_str_l (x : value) (s : str) :
  same_value_zero (VStr s) x = true <-> x = VStr s.
Proof.
  destruct x; simpl; try (split; [discriminate | discriminate]).
  rewrite str_eqb_eq. split; [intros ->; reflexivity | intros H; injection H; auto].
Qed.

Lemma trim_start_nonempty (s : str) : trim_start s <> [] -> s <> [].
Proof. destruct s; simpl; congruence. Qed.

Lemma trim_nonempty (s : str) : trim s <> [] -> s <> [].
Proof.
  unfold trim. intros H. apply trim_start_nonempty. intros E.
  rewrite E in H. apply H. reflexivity.
Qed.

Lemma truthy_str (s : str) : truthy (VStr s) = true <-> s <> [].
Proof. destruct s; simpl; split; congruence. Qed.

(** ** Sets *)

Module JSSetFacts.
Import JSSet.

Lemma has_app (s s' : t) (x : value) :
  has (s ++ s') x = has s x || has s' x.
Proof. apply existsb_app. Qed.

Lemma has_delete_same (s : t) (label : str) :
  has (delete s (VStr label)) (VStr label) = false.
Proof.
  unfold has, delete. induction s as [|y s IH]; [reflexivity|].
  cbn [filter]. destruct (same_value_zero (VStr label) y) eqn:E;
    cbn [negb existsb]; [exact IH|].
  rewrite E. exact IH.
Qed.

Lemma has_delete_other (s : t) (label : str) (x : value) :
  x <> VStr label -> has (delete s (VStr label)) x = has s x.
Proof.
  intros Hx. unfold has, delete. induction s as [|y s IH]; [reflexivity|].
  cbn [filter existsb].
  destruct (same_value_zero (VStr label) y) eqn:E; cbn [negb existsb].
  - apply same_value_zero_str_l in E. subst y.
    destruct (same_value_zero x (VStr label)) eqn:E'; [|exact IH].
    apply same_value_zero_str in E'. contradiction.
  - rewrite IH. reflexivity.
Qed.

Lemma delete_absent (s : t) (v : value) : has s v = false -> delete s v = s.
Proof.
  unfold has, delete. induction s as [|y s IH]; [reflexivity|].
  cbn [filter existsb].
  intros H. apply orb_false_iff in H. destruct H as [H1 H2].
  rewrite H1. cbn [negb]. rewrite IH by assumption. reflexivity.
Qed.

Lemma same_value_zero_refl_str (label : str) :
  same_value_zero (VStr label) (VStr label) = true.
Proof. apply str_eqb_refl. Qed.

Lemma has_add (s : t) (label : str) (x : value) :
  has (add s (VStr label)) x = has s x || same_value_zero x (VStr label).
Proof.
  unfold add. destruct (has s (VStr label)) eqn:E.
  - destruct (same_value_zero x (VStr label)) eqn:E'.
    + apply same_value_zero_str in E'. subst x. rewrite E. reflexivity.
    + rewrite orb_false_r. reflexivity.
  - rewrite has_app. unfold has at 2. cbn [existsb].
    rewrite orb_false_r. reflexivity.
Qed.

(** Membership of a label in [new Set(vs)]. *)
Lemma has_fold_add (vs : list value) (acc : t) (label : str) :
  has (fold_left add vs acc) (VStr label)
  = has acc (VStr label) || existsb (same_value_zero (VStr label)) vs.
Proof.
  revert acc. induction vs as [|v vs IH]; intros acc; cbn [fold_left existsb].
  - rewrite orb_false_r. reflexivity.
  - rewrite IH. rewrite orb_assoc. f_equal.
    unfold add. destruct (has acc v) eqn:E.
    + destruct (same_value_zero (VStr label) v) eqn:E';
        [|rewrite orb_false_r; reflexivity].
      apply same_value_zero_str_l in E'. subst v. rewrite E. reflexivity.
    + rewrite has_app. unfold has at 2. cbn [existsb].
      rewrite orb_false_r. reflexivity.
Qed.

Lemma has_of_labels (labels : list str) (label : str) :
  has (of_list (map VStr labels)) (VStr label) = true <-> In label labels.
Proof.
  unfold of_list. rewrite has_fold_add. unfold empty, has at 1.
  cbn [existsb orb]. rewrite existsb_exists. split.
  - intros (x & Hin & Hx). apply in_map_iff in Hin.
    destruct Hin as (l & <- & Hl).
    apply same_value_zero_str_l in Hx. injection Hx as ->. exact Hl.
  - intros H. exists (VStr label). split; [apply in_map; exact H|].
    apply same_value_zero_refl_str.
Qed.

End JSSetFacts.

(** ** Toggling a characteristic *)

(** C10: toggling a label twice gives a set with the members of the
    original one; toggling it once flips the membership of that label and
    leaves the membership of every other value as it was.  Nothing but the
    selection changes, and when the label was not selected the two toggles
    give back the very state, order of insertion included. *)
Theorem toggleCharacteristic_involution :
  forall (st : Home.state) (label : str),
    let once := Home.toggleCharacteristic (VStr label) st in
    let twice := Home.toggleCharacteristic (VStr label) once in
    (forall x : value,
        JSSet.has (Home.selectedCharacteristics twice) x
        = JSSet.has (Home.selectedCharacteristics st) x)
    /\ JSSet.has (Home.selectedCharacteristics once) (VStr label)
       = negb (JSSet.has (Home.selectedCharacteristics st) (VStr label))
    /\ (forall x : value,
           x <> VStr label ->
           JSSet.has (Home.selectedCharacteristics once) x
           = JSSet.has (Home.selectedCharacteristics st) x)
    /\ Home.setSelectedCharacteristics (Home.selectedCharacteristics st) twice
       = st
    /\ (JSSet.has (Home.selectedCharacteristics st) (VStr label) = false ->
        twice = st).
Proof.
  intros st label. destruct st as [q s c1 c2 c3 ms rc ld].
  unfold Home.toggleCharacteristic. cbn [Home.selectedCharacteristics
    Home.setSelectedCharacteristics Home.currentQuery Home.showChat
    Home.showCharacteristics Home.showReport Home.messages Home.reportContent
    Home.isLoading].
  destruct (JSSet.has s (VStr label)) eqn:E.
  - rewrite JSSetFacts.has_delete_same.
    split; [|split; [|split; [|split]]].
    + intros x. rewrite JSSetFacts.has_add.
      destruct (same_value_zero x (VStr label)) eqn:Ex.
      * apply same_value_zero_str in Ex. subst x. rewrite E, orb_true_r. reflexivity.
      * rewrite orb_false_r. apply JSSetFacts.has_delete_other.
        intros ->. rewrite JSSetFacts.same_value_zero_refl_str in Ex. discriminate.
    + reflexivity.
    + intros x Hx. apply JSSetFacts.has_delete_other. exact Hx.
    + reflexivity.
    + discriminate.
  - assert (Hadd : JSSet.has (JSSet.add s (VStr label)) (VStr label) = true).
    { rewrite JSSetFacts.has_add, JSSetFacts.same_value_zero_refl_str, orb_true_r.
      reflexivity. }
    rewrite Hadd.
    assert (Hback : JSSet.delete (JSSet.add s (VStr label)) (VStr label) = s).
    { unfold JSSet.add. rewrite E. unfold JSSet.delete. rewrite filter_app.
      cbn [filter]. rewrite JSSetFacts.same_value_zero_refl_str. cbn [negb].
      rewrite app_nil_r. apply JSSetFacts.delete_absent. exact E. }
    split; [|split; [|split; [|split]]].
    + intros x. rewrite Hback. reflexivity.
    + reflexivity.
    + intros x Hx. rewrite JSSetFacts.has_add.
      destruct (same_value_zero x (VStr label)) eqn:Ex.
      * apply same_value_zero_str in Ex. contradiction.
      * rewrite orb_false_r. reflexivity.
    + reflexivity.
    + intros _. rewrite Hback. reflexivity.
Qed.

Lemma toggleCharacteristic_involution_witness :
  let st := Home.toggleCharacteristic (VStr (lit "male")) Home.initial in
  JSSet.has (Home.selectedCharacteristics st) (VStr (lit "male")) = true
  /\ JSSet.has (Home.selectedCharacteristics
                  (Home.toggleCharacteristic (VStr (lit "male")) st))
       (VStr (lit "male")) = false.
Proof.
  intros st.
  destruct (toggleCharacteristic_involution Home.initial (lit "male"))
    as (_ & Hflip & _).
  destruct (toggleCharacteristic_involution st (lit "male"))
    as (_ & Hflip' & _).
  split; [exact Hflip|].
  rewrite Hflip'. fold st in Hflip. rewrite Hflip. reflexivity.
Defined.

(** ** The taxonomy *)

(** C6: the option lists of the auto-select route and the lists the page
    shows are the same lists, category by category, so a label of one is a
    label of the other. *)
Theorem taxonomy_identical :
  Api.AutoSelect.ages Api.AutoSelect.fixedOptions
    = Home.ages Home.characteristics
  /\ Api.AutoSelect.genders Api.AutoSelect.fixedOptions
     = Home.genders Home.characteristics
  /\ Api.AutoSelect.personality_traits Api.AutoSelect.fixedOptions
     = Home.personality Home.characteristics
  /\ Api.AutoSelect.interests Api.AutoSelect.fixedOptions
     = Home.interests Home.characteristics
  /\ forall label : str,
       In label (Api.AutoSelect.ages Api.AutoSelect.fixedOptions
                 ++ Api.AutoSelect.genders Api.AutoSelect.fixedOptions
                 ++ Api.AutoSelect.personality_traits Api.AutoSelect.fixedOptions
                 ++ Api.AutoSelect.interests Api.AutoSelect.fixedOptions)
       <-> In label (Home.ages Home.characteristics
                     ++ Home.genders Home.characteristics
                     ++ Home.personality Home.characteristics
                     ++ Home.interests Home.characteristics).
Proof.
  repeat split; try reflexivity; intros H; exact H.
Qed.

(** ** Request validation *)

Lemma get_total (b : value) (k k' : str) (v : value) :
  get b k = Normal v -> exists v', get b k' = Normal v'.
Proof. destruct b; simpl; intros H; try discriminate; eauto. Qed.

Lemma rejected_reply (r : response) : rejected (reply r) (status r).
Proof. split; [reflexivity | exists r; split; reflexivity]. Qed.

Section Validation.

Variables (env : environment) (openai : upstream) (req : request).

Lemma not_allowed :
  method req <> lit "POST" -> method req <> lit "OPTIONS" ->
  AutoSelect.handler env openai req = reply (error 405 "Method not allowed")
  /\ GenerateReport.handler env openai req
     = reply (error 405 "Method not allowed").
Proof.
  intros HP HO. apply str_eqb_neq in HP, HO.
  unfold AutoSelect.handler, GenerateReport.handler.
  rewrite HP, HO. split; reflexivity.
Qed.

Hypothesis post : method req = lit "POST".

Lemma AutoSelect_post :
  AutoSelect.handler env openai req
  = match get (body req) (lit "newsContent") with
    | Normal newsContent =>
        if negb (truthy newsContent)
        then reply (error 400 "News content is required")
        else if negb (configured env)
        then reply (error 500 "OpenAI API key not configured")
        else
          let failed := error 500 "Failed to analyze content" in
          match ToString newsContent with
          | Throw _ => reply failed
          | Normal text =>
              let c := AutoSelect.completion_call env text in
              {| calls := [c];
                 outcome :=
                   try_catch
                     (analysisText <- completion_content (openai c) ;;
                      AutoSelect.send_selections analysisText)
                     (fun _ => Normal failed) |}
          end
    | Throw e => {| calls := []; outcome := Throw e |}
    end.
Proof. unfold AutoSelect.handler. rewrite post. reflexivity. Qed.

Lemma GenerateReport_post :
  GenerateReport.handler env openai req
  = match get (body req) (lit "newsContent"),
          get (body req) (lit "selectedTraits") with
    | Normal newsContent, Normal selectedTraits =>
        if negb (truthy newsContent) || negb (truthy selectedTraits)
        then reply (error 400 "News content and selected traits are required")
        else if negb (configured env)
        then reply (error 500 "OpenAI API key not configured")
        else
          let failed := error 500 "Failed to generate analysis report" in
          match GenerateReport.content selectedTraits newsContent with
          | Throw _ => reply failed
          | Normal (traits, text) =>
              let c := GenerateReport.completion_call env traits text in
              {| calls := [c];
                 outcome :=
                   try_catch
                     (analysisReport <- completion_content (openai c) ;;
                      Normal (json 200
                                (VObj [(lit "report", analysisReport)])))
                     (fun _ => Normal failed) |}
          end
    | Throw e, _ | _, Throw e => {| calls := []; outcome := Throw e |}
    end.
Proof. unfold GenerateReport.handler. rewrite post. reflexivity. Qed.

End Validation.

(** X24: on both routes a method other than POST and OPTIONS is answered
    405; a POST whose body can be destructured (it is neither [null] nor
    [undefined]) and whose required field is absent or falsy is answered
    400; such a POST with its fields, when the key is not configured, is
    answered 500; none of the three calls the completion service. *)
Theorem request_validation :
  forall (env : environment) (openai : upstream) (req : request),
    (method req <> lit "POST" -> method req <> lit "OPTIONS" ->
     rejected (AutoSelect.handler env openai req) 405
     /\ rejected (GenerateReport.handler env openai req) 405)
    /\ (method req = lit "POST" ->
        forall newsContent,
          get (body req) (lit "newsContent") = Normal newsContent ->
          truthy newsContent = false ->
          rejected (AutoSelect.handler env openai req) 400
          /\ rejected (GenerateReport.handler env openai req) 400)
    /\ (method req = lit "POST" ->
        forall selectedTraits,
          get (body req) (lit "selectedTraits") = Normal selectedTraits ->
          truthy selectedTraits = false ->
          rejected (GenerateReport.handler env openai req) 400)
    /\ (method req = lit "POST" ->
        configured env = false ->
        forall newsContent,
          get (body req) (lit "newsContent") = Normal newsContent ->
          truthy newsContent = true ->
          rejected (AutoSelect.handler env openai req) 500
          /\ forall selectedTraits,
               get (body req) (lit "selectedTraits") = Normal selectedTraits ->
               truthy selectedTraits = true ->
               rejected (GenerateReport.handler env openai req) 500).
Proof.
  intros env openai req. repeat apply conj.
  - intros HP HO. destruct (not_allowed env openai req HP HO) as [-> ->].
    split; apply (rejected_reply (error 405 "Method not allowed")).
  - intros post nc Hnc Hfalsy.
    rewrite AutoSelect_post, GenerateReport_post by exact post.
    destruct (get_total _ _ (lit "selectedTraits") _ Hnc) as [st Hst].
    rewrite Hnc, Hst, Hfalsy. cbn [negb orb].
    split; [apply (rejected_reply (error 400 "News content is required"))|].
    apply (rejected_reply
             (error 400 "News content and selected traits are required")).
  - intros post st Hst Hfalsy.
    rewrite GenerateReport_post by exact post.
    destruct (get_total _ _ (lit "newsContent") _ Hst) as [nc Hnc].
    rewrite Hnc, Hst, Hfalsy. rewrite orb_true_r.
    apply (rejected_reply
             (error 400 "News content and selected traits are required")).
  - intros post Henv nc Hnc Hnc'.
    rewrite AutoSelect_post, GenerateReport_post by exact post.
    rewrite Hnc, Hnc', Henv. cbn [negb orb].
    split; [apply (rejected_reply (error 500 "OpenAI API key not configured"))|].
    intros st Hst Hst'. rewrite Hst, Hst'. cbn [negb].
    apply (rejected_reply (error 500 "OpenAI API key not configured")).
Qed.

Lemma request_validation_witness :
  let get_ := {| method := lit "GET"; body := VUndefined |} in
  let empty := {| method := lit "POST"; body := VObj [] |} in
  let no_traits :=
    {| method := lit "POST";
       body := VObj [(lit "newsContent", VStr Sample.query)] |} in
  rejected (AutoSelect.handler Sample.env Sample.unreachable get_) 405
  /\ rejected (GenerateReport.handler Sample.env Sample.unreachable get_) 405
  /\ rejected (AutoSelect.handler Sample.env Sample.unreachable empty) 400
  /\ rejected (GenerateReport.handler Sample.env Sample.unreachable no_traits) 400
  /\ rejected (AutoSelect.handler None Sample.unreachable Sample.select) 500
  /\ rejected (GenerateReport.handler None Sample.unreachable
                 (Sample.report [VStr (lit "male")])) 500.
Proof.
  intros get_ empty no_traits.
  destruct (request_validation Sample.env Sample.unreachable get_)
    as (H405 & _).
  destruct (request_validation Sample.env Sample.unreachable empty)
    as (_ & H400 & _).
  destruct (request_validation Sample.env Sample.unreachable no_traits)
    as (_ & _ & H400' & _).
  destruct (request_validation None Sample.unreachable Sample.select)
    as (_ & _ & _ & H500).
  destruct (request_validation None Sample.unreachable
              (Sample.report [VStr (lit "male")])) as (_ & _ & _ & H500').
  assert (HG : method get_ <> lit "POST") by (vm_compute; discriminate).
  assert (HG' : method get_ <> lit "OPTIONS") by (vm_compute; discriminate).
  refine (conj (proj1 (H405 HG HG')) (conj (proj2 (H405 HG HG'))
            (conj _ (conj _ (conj _ _))))).
  - apply (H400 eq_refl VUndefined); reflexivity.
  - apply (H400' eq_refl VUndefined); reflexivity.
  - apply (H500 eq_refl eq_refl (VStr Sample.query)); reflexivity.
  - apply (proj2 (H500' eq_refl eq_refl (VStr Sample.query) eq_refl eq_refl)
             (VArr [VStr (lit "male")])); reflexivity.
Defined.

(** C4: a POST whose JSON body is [null] has none of the required
    fields, and neither route answers it 400: destructuring the body
    throws before the fields are checked, the exception escapes the
    handler, and no response is sent by it.  The completion service is
    not called. *)
Theorem null_body_is_not_answered :
  forall (env : environment) (openai : upstream),
    let req := {| method := lit "POST"; body := VNull |} in
    AutoSelect.handler env openai req
    = {| calls := []; outcome := Throw TypeError |}
    /\ GenerateReport.handler env openai req
       = {| calls := []; outcome := Throw TypeError |}
    /\ ~ rejected (AutoSelect.handler env openai req) 400
    /\ ~ rejected (GenerateReport.handler env openai req) 400.
Proof.
  intros env openai req.
  split; [reflexivity|]. split; [reflexivity|].
  split; intros (_ & r & Hr & _); discriminate Hr.
Qed.

(** ** The calls to the completion service *)

Lemma AutoSelect_calls (env : environment) (openai : upstream) (req : request)
  (c : call) :
  In c (calls (AutoSelect.handler env openai req)) ->
  exists newsContent, c = AutoSelect.completion_call env newsContent.
Proof.
  unfold AutoSelect.handler.
  destruct (str_eqb (method req) (lit "OPTIONS")); [intros []|].
  destruct (negb (str_eqb (method req) (lit "POST"))); [intros []|].
  destruct (get (body req) (lit "newsContent")) as [nc|e]; [|intros []].
  destruct (negb (truthy nc)); [intros []|].
  destruct (negb (configured env)); [intros []|].
  destruct (ToString nc) as [text|e]; [|intros []].
  intros [<-|[]]. eauto.
Qed.

Lemma GenerateReport_calls (env : environment) (openai : upstream)
  (req : request) (c : call) :
  In c (calls (GenerateReport.handler env openai req)) ->
  exists traits newsContent,
    c = GenerateReport.completion_call env traits newsContent.
Proof.
  unfold GenerateReport.handler.
  destruct (str_eqb (method req) (lit "OPTIONS")); [intros []|].
  destruct (negb (str_eqb (method req) (lit "POST"))); [intros []|].
  destruct (get (body req) (lit "newsContent")) as [nc|e];
    destruct (get (body req) (lit "selectedTraits")) as [st|e'];
    try (intros []).
  destruct (negb (truthy nc) || negb (truthy st)); [intros []|].
  destruct (negb (configured env)); [intros []|].
  destruct (GenerateReport.content st nc) as [[traits text]|e]; [|intros []].
  intros [<-|[]]. eauto.
Qed.

(** C8: every call the auto-select route makes has a temperature below,
    and an output budget below, those of every call the generate-report
    route makes. *)
Theorem selector_cooler_and_shorter :
  forall (env env' : environment) (openai openai' : upstream)
         (req req' : request) (c c' : call),
    In c (calls (AutoSelect.handler env openai req)) ->
    In c' (calls (GenerateReport.handler env' openai' req')) ->
    Number.ltb (temperature c) (temperature c') = true
    /\ max_tokens c < max_tokens c'.
Proof.
  intros env env' openai openai' req req' c c' Hc Hc'.
  apply AutoSelect_calls in Hc. destruct Hc as (nc & ->).
  apply GenerateReport_calls in Hc'. destruct Hc' as (traits & nc' & ->).
  split; [vm_compute; reflexivity | reflexivity].
Qed.

Lemma selector_cooler_and_shorter_witness :
  let c := AutoSelect.completion_call Sample.env Sample.query in
  let c' := GenerateReport.completion_call Sample.env (lit "male")
              Sample.query in
  max_tokens c = 500 /\ max_tokens c' = 2000
  /\ Number.ltb (temperature c) (temperature c') = true
  /\ max_tokens c < max_tokens c'.
Proof.
  intros c c'. split; [reflexivity|]. split; [reflexivity|].
  apply (selector_cooler_and_shorter Sample.env Sample.env
           Sample.unreachable Sample.unreachable
           Sample.select (Sample.report [VStr (lit "male")])).
  - left. reflexivity.
  - left. reflexivity.
Defined.

(** ** The empty selection *)

(** C9: the generate-report route takes a request whose [selectedTraits]
    is the empty array and calls the completion service with an empty
    list of traits (it answers 400 only when a field is absent or falsy);
    the page is what keeps the selection from being empty:
    [generateReport] returns at once, and the button is disabled, while
    nothing is selected.  The news content is one that can be put into the
    prompt, as every string can. *)
Theorem empty_selection_reaches_service :
  forall (env : environment) (openai : upstream) (req : request)
         (newsContent : value) (text : str),
    method req = lit "POST" ->
    get (body req) (lit "newsContent") = Normal newsContent ->
    truthy newsContent = true ->
    ToString newsContent = Normal text ->
    configured env = true ->
    (get (body req) (lit "selectedTraits") = Normal (VArr []) ->
     calls (GenerateReport.handler env openai req)
     = [GenerateReport.completion_call env [] text])
    /\ (forall selectedTraits,
           get (body req) (lit "selectedTraits") = Normal selectedTraits ->
           (rejected (GenerateReport.handler env openai req) 400
            <-> truthy selectedTraits = false))
    /\ (forall (api : Home.backend) (st : Home.state),
           JSSet.size (Home.selectedCharacteristics st) = 0%nat ->
           Home.generateReport api st
           = {| Home.requests := []; Home.after := Normal st |}
           /\ Home.generate_btn_disabled st = true).
Proof.
  intros env openai req nc text post Hnc Hnc' Htext Henv.
  split; [|split].
  - intros Hst. rewrite GenerateReport_post by exact post.
    rewrite Hnc, Hst, Hnc', Henv. unfold GenerateReport.content.
    cbn [join array_join element_strings bind join_with].
    rewrite Htext. reflexivity.
  - intros st Hst. rewrite GenerateReport_post by exact post.
    rewrite Hnc, Hst, Hnc', Henv. cbn [negb orb].
    destruct (truthy st) eqn:E; cbn [negb].
    + split; [|discriminate].
      intros (Hcalls & r & Hr & Hcode).
      destruct (GenerateReport.content st nc) as [[traits text']|e].
      * discriminate Hcalls.
      * injection Hr as <-. discriminate Hcode.
    + split; [reflexivity|]. intros _.
      apply (rejected_reply
               (error 400 "News content and selected traits are required")).
  - intros api st Hsize. unfold Home.generateReport, Home.generate_btn_disabled.
    rewrite Hsize. split; reflexivity.
Qed.

Lemma empty_selection_reaches_service_witness :
  calls (GenerateReport.handler Sample.env Sample.unreachable (Sample.report []))
  = [GenerateReport.completion_call Sample.env [] Sample.query]
  /\ Home.generateReport (deploy Sample.env Sample.unreachable) Sample.typed
     = {| Home.requests := []; Home.after := Normal Sample.typed |}
  /\ Home.generate_btn_disabled Sample.typed = true.
Proof.
  destruct (empty_selection_reaches_service Sample.env Sample.unreachable
              (Sample.report []) (VStr Sample.query) Sample.query
              eq_refl eq_refl eq_refl eq_refl eq_refl) as (Hcall & _ & Hpage).
  split; [exact (Hcall eq_refl)|].
  exact (Hpage (deploy Sample.env Sample.unreachable) Sample.typed eq_refl).
Defined.

(** ** The auto-select route: parsing the completion *)

Lemma parse_text_throws (text : str) (e : exn) :
  JSON.parse_text text = Throw e -> e = SyntaxError.
Proof.
  unfold JSON.parse_text.
  destruct (JSON.lex JSON.LIdle [] text) as [ts|]; [|congruence].
  destruct (JSON.run (JSON.PValue []) ts); congruence.
Qed.

Lemma send_selections_parsed (content v : value) :
  JSON.parse content = Normal v ->
  AutoSelect.send_selections content = Normal (json 200 v).
Proof. unfold AutoSelect.send_selections. intros ->. reflexivity. Qed.

Lemma send_selections_fallback (content : value) (e : exn) :
  JSON.parse content = Throw e ->
  AutoSelect.send_selections content = Normal (json 200 AutoSelect.fallback).
Proof. unfold AutoSelect.send_selections. intros ->. reflexivity. Qed.

Lemma invocation_fails_throws (r : fetched) :
  invocation_fails r <-> exists e, completion_content r = Throw e.
Proof.
  split.
  - intros [|code text H|code text e H H']; simpl; eauto.
    rewrite H. simpl. eauto.
  - intros [e H]. destruct r as [|code text]; [constructor|].
    destruct (ok code) eqn:E.
    + apply bad_completion with (e := e); assumption.
    + apply bad_status; assumption.
Qed.

(** What the route answers once the request is in order and the news
    content was put into the prompt. *)
Lemma AutoSelect_outcome (env : environment) (openai : upstream)
  (req : request) (newsContent : value) (text : str) :
  method req = lit "POST" ->
  get (body req) (lit "newsContent") = Normal newsContent ->
  truthy newsContent = true ->
  ToString newsContent = Normal text ->
  configured env = true ->
  let c := AutoSelect.completion_call env text in
  AutoSelect.handler env openai req
  = {| calls := [c];
       outcome :=
         match completion_content (openai c) with
         | Normal analysisText => AutoSelect.send_selections analysisText
         | Throw _ => Normal (error 500 "Failed to analyze content")
         end |}.
Proof.
  intros post Hnc Hnc' Htext Henv c. rewrite AutoSelect_post by exact post.
  rewrite Hnc, Hnc', Henv, Htext. cbn [negb]. fold c.
  unfold bind, try_catch.
  destruct (completion_content (openai c)) as [content|e]; [|reflexivity].
  unfold AutoSelect.send_selections, try_catch, bind.
  destruct (JSON.parse content); reflexivity.
Qed.

(** News content that cannot be put into the prompt: the template literal
    throws inside the [try], and the service is not called. *)
Lemma AutoSelect_unprintable (env : environment) (openai : upstream)
  (req : request) (newsContent : value) (e : exn) :
  method req = lit "POST" ->
  get (body req) (lit "newsContent") = Normal newsContent ->
  truthy newsContent = true ->
  ToString newsContent = Throw e ->
  configured env = true ->
  AutoSelect.handler env openai req
  = reply (error 500 "Failed to analyze content").
Proof.
  intros post Hnc Hnc' Htext Henv. rewrite AutoSelect_post by exact post.
  rewrite Hnc, Hnc', Henv, Htext. reflexivity.
Qed.

(** C7: whatever text the completion holds, the parsing step sends a
    response and throws nothing: the parsed value when the text is JSON,
    the fallback selections when it is not; the route, once it called the
    service with the news content in the prompt, answers with that
    response, and [handleQuerySubmit] itself never throws. *)
Theorem selections_never_throw :
  (forall analysisText : str,
      exists v,
        AutoSelect.send_selections (VStr analysisText) = Normal (json 200 v)
        /\ (JSON.parse_text analysisText = Normal v
            \/ (JSON.parse_text analysisText = Throw SyntaxError
                /\ v = AutoSelect.fallback))
        /\ forall env openai req newsContent text,
             method req = lit "POST" ->
             get (body req) (lit "newsContent") = Normal newsContent ->
             truthy newsContent = true ->
             ToString newsContent = Normal text ->
             configured env = true ->
             completion_content
               (openai (AutoSelect.completion_call env text))
             = Normal (VStr analysisText) ->
             outcome (AutoSelect.handler env openai req)
             = Normal (json 200 v))
  /\ (forall (api : Home.backend) (st : Home.state),
         exists st', Home.after (Home.handleQuerySubmit api st) = Normal st').
Proof.
  split.
  - intros text.
    assert (H : exists v,
               AutoSelect.send_selections (VStr text) = Normal (json 200 v)
               /\ (JSON.parse_text text = Normal v
                   \/ (JSON.parse_text text = Throw SyntaxError
                       /\ v = AutoSelect.fallback))).
    { destruct (JSON.parse_text text) as [v|e] eqn:E.
      - exists v. split; [|left; reflexivity].
        apply send_selections_parsed. unfold JSON.parse.
        cbn [ToString bind]. exact E.
      - exists AutoSelect.fallback. split.
        + apply send_selections_fallback with (e := e). unfold JSON.parse.
          cbn [ToString bind]. exact E.
        + right. rewrite (parse_text_throws _ _ E). split; reflexivity. }
    destruct H as (v & Hsend & Hv). exists v. split; [exact Hsend|].
    split; [exact Hv|].
    intros env openai req nc t post Hnc Hnc' Htext Henv Hcontent.
    rewrite (AutoSelect_outcome env openai req nc t post Hnc Hnc' Htext Henv).
    cbn [outcome]. rewrite Hcontent. exact Hsend.
  - intros api st. unfold Home.handleQuerySubmit.
    destruct (negb (truthy (VStr (trim (Home.currentQuery st)))));
      [eexists; reflexivity|].
    cbn [Home.after]. unfold try_catch, bind.
    match goal with
    | |- context [api ?path ?sent] =>
        destruct (api path sent) as [|code data]; [eexists; reflexivity|]
    end.
    destruct (ok code); [|eexists; reflexivity].
    destruct data as [autoSelections|e]; [|eexists; reflexivity].
    match goal with
    | |- context [Home.applyAutoSelections ?v ?s] =>
        destruct (Home.applyAutoSelections v s); eexists; reflexivity
    end.
Qed.

Lemma selections_never_throw_witness :
  outcome (AutoSelect.handler Sample.env Sample.truncated Sample.select)
  = Normal (json 200 AutoSelect.fallback).
Proof.
  destruct selections_never_throw as (Hstep & _).
  destruct (Hstep (litq "{'ages': ['24-30'")) as (v & _ & [Hv|[_ ->]] & Hroute).
  - vm_compute in Hv. discriminate Hv.
  - apply (Hroute Sample.env Sample.truncated Sample.select
             (VStr Sample.query) Sample.query); reflexivity.
Defined.

Example empty_text :
  AutoSelect.send_selections (VStr []) = Normal (json 200 AutoSelect.fallback).
Proof. reflexivity. Qed.

Example prose_text :
  AutoSelect.send_selections
    (VStr (litq "Sure! Here are my selections: {'ages': ['24-30']}"))
  = Normal (json 200 AutoSelect.fallback).
Proof. reflexivity. Qed.

Example extra_fields_text :
  AutoSelect.send_selections
    (VStr (litq "{'ages': ['24-30'], 'confidence': 0.9, 'notes': null}"))
  = Normal (json 200
              (VObj [ (lit "ages", VArr [VStr (lit "24-30")]);
                      (lit "confidence", VNum (Number.of_decimal false 9 (-1)));
                      (lit "notes", VNull) ])).
Proof. vm_compute. reflexivity. Qed.

(** ** The auto-select route: what a suggestion holds *)

Lemma AutoSelect_sent (env : environment) (openai : upstream) (req : request)
  (r : response) (v : value) :
  outcome (AutoSelect.handler env openai req) = Normal r ->
  status r = 200 ->
  payload r = Json v ->
  exists c content,
    calls (AutoSelect.handler env openai req) = [c]
    /\ completion_content (openai c) = Normal content
    /\ AutoSelect.send_selections content = Normal (json 200 v).
Proof.
  unfold AutoSelect.handler.
  destruct (str_eqb (method req) (lit "OPTIONS")).
  { cbn [reply outcome]. intros [= <-] _ H. discriminate H. }
  destruct (negb (str_eqb (method req) (lit "POST"))).
  { cbn [reply outcome]. intros [= <-] H. discriminate H. }
  destruct (get (body req) (lit "newsContent")) as [nc|e]; [|discriminate].
  destruct (negb (truthy nc)).
  { cbn [reply outcome]. intros [= <-] H. discriminate H. }
  destruct (negb (configured env)).
  { cbn [reply outcome]. intros [= <-] H. discriminate H. }
  cbv zeta. destruct (ToString nc) as [text|e].
  2:{ cbn [reply outcome]. intros [= <-] H. discriminate H. }
  cbn [calls outcome]. unfold try_catch at 1, bind at 1.
  destruct (completion_content _) as [content|e] eqn:E.
  - intros Hsend Hstatus Hpayload. eexists. exists content.
    split; [reflexivity|]. split; [exact E|].
    unfold AutoSelect.send_selections, try_catch, bind in Hsend |- *.
    destruct (JSON.parse content); injection Hsend as <-;
      cbn [payload json] in Hpayload; injection Hpayload as ->; reflexivity.
  - intros [= <-] H. discriminate H.
Qed.

Lemma fallback_within_taxonomy : within_taxonomy AutoSelect.fallback.
Proof.
  intros category options Hc l Hl.
  unfold categories in Hc. cbn [In] in Hc.
  destruct Hc as [Hc|[Hc|[Hc|[Hc|[]]]]]; injection Hc as <- <-;
    vm_compute in Hl;
    repeat (destruct Hl as [<-|Hl];
            [eexists; split; [reflexivity|]; vm_compute; tauto|]);
    destruct Hl.
Qed.

(** C1, as the code has it: the fallback selections lie within the
    taxonomy; a value parsed from the text of the completion is returned
    by the route exactly as it was parsed, no label of it checked or
    dropped; and a suggestion the route returns is either the fallback
    selections or such a parsed value, so it lies within the taxonomy
    when the parsed text does. *)
Theorem suggestion_is_fallback_or_as_parsed :
  within_taxonomy AutoSelect.fallback
  /\ (forall (env : environment) (openai : upstream) (req : request)
             (newsContent : value) (text : str) (content parsed : value),
         method req = lit "POST" ->
         get (body req) (lit "newsContent") = Normal newsContent ->
         truthy newsContent = true ->
         ToString newsContent = Normal text ->
         configured env = true ->
         completion_content (openai (AutoSelect.completion_call env text))
         = Normal content ->
         JSON.parse content = Normal parsed ->
         outcome (AutoSelect.handler env openai req)
         = Normal (json 200 parsed))
  /\ forall (env : environment) (openai : upstream) (req : request)
            (r : response) (v : value),
       outcome (AutoSelect.handler env openai req) = Normal r ->
       status r = 200 ->
       payload r = Json v ->
       (v = AutoSelect.fallback
        \/ exists c content,
             calls (AutoSelect.handler env openai req) = [c]
             /\ completion_content (openai c) = Normal content
             /\ JSON.parse content = Normal v)
       /\ ((forall c content parsed,
               In c (calls (AutoSelect.handler env openai req)) ->
               completion_content (openai c) = Normal content ->
               JSON.parse content = Normal parsed ->
               within_taxonomy parsed) ->
           within_taxonomy v).
Proof.
  split; [exact fallback_within_taxonomy|]. split.
  { intros env openai req nc text content parsed post Hnc Hnc' Htext Henv
      Hcontent Hparse.
    rewrite (AutoSelect_outcome env openai req nc text post Hnc Hnc' Htext
               Henv).
    cbn [outcome]. rewrite Hcontent.
    apply send_selections_parsed. exact Hparse. }
  intros env openai req r v Hr Hstatus Hpayload.
  destruct (AutoSelect_sent env openai req r v Hr Hstatus Hpayload)
    as (c & content & Hcalls & Hcontent & Hsend).
  unfold AutoSelect.send_selections, try_catch, bind in Hsend.
  destruct (JSON.parse content) as [parsed|e] eqn:E.
  - injection Hsend as <-. split.
    + right. exists c, content. auto.
    + intros H. apply (H c content parsed); auto.
      rewrite Hcalls. left. reflexivity.
  - injection Hsend as <-. split; [left; reflexivity|].
    intros _. exact fallback_within_taxonomy.
Qed.

Lemma suggestion_is_fallback_or_as_parsed_witness :
  outcome (AutoSelect.handler Sample.env Sample.partial Sample.select)
  = Normal (json 200 Sample.partial_selections).
Proof.
  refine (proj1 (proj2 suggestion_is_fallback_or_as_parsed)
            Sample.env Sample.partial Sample.select
            (VStr Sample.query) Sample.query
            (VStr (litq "{'ages':['24-30'],'interests':['finance','music']}"))
            Sample.partial_selections
            eq_refl eq_refl eq_refl eq_refl eq_refl _ _);
    vm_compute; reflexivity.
Defined.

(** C1, as the claim has it, fails: a label the taxonomy does not have
    comes back in the suggestion, and the page selects it. *)
Lemma hallucinated_label_returned :
  outcome (AutoSelect.handler Sample.env Sample.hallucinating Sample.select)
  = Normal (json 200 Sample.hallucinated_selections)
  /\ In (VStr (lit "99+")) (labels Sample.hallucinated_selections (lit "ages"))
  /\ ~ In (lit "99+") (AutoSelect.ages AutoSelect.fixedOptions)
  /\ match Home.after (Home.handleQuerySubmit
                         (deploy Sample.env Sample.hallucinating)
                         Sample.typed) with
     | Normal st =>
         JSSet.has (Home.selectedCharacteristics st) (VStr (lit "99+"))
     | Throw _ => false
     end = true
  /\ ~ suggestions_filtered.
Proof.
  assert (Hout : ~ In (lit "99+") (AutoSelect.ages AutoSelect.fixedOptions)).
  { vm_compute. intros H.
    repeat (destruct H as [H|H]; [discriminate H|]). exact H. }
  assert (Hsent : outcome (AutoSelect.handler Sample.env Sample.hallucinating
                             Sample.select)
                  = Normal (json 200 Sample.hallucinated_selections)).
  { vm_compute. reflexivity. }
  assert (Hin : In (VStr (lit "99+"))
                  (labels Sample.hallucinated_selections (lit "ages"))).
  { vm_compute. left. reflexivity. }
  split; [exact Hsent|]. split; [exact Hin|]. split; [exact Hout|].
  split; [vm_compute; reflexivity|].
  intros Hclaim.
  destruct (Hclaim _ _ _ _ Hsent (lit "ages")
              (AutoSelect.ages AutoSelect.fixedOptions)
              (or_introl eq_refl) (VStr (lit "99+")) Hin)
    as (label & Hl & Hlabel).
  injection Hl as <-. exact (Hout Hlabel).
Qed.

(** ** The auto-select route: failures *)

Lemma deploy_auto_select (env : environment) (openai : upstream) (q : str) :
  deploy env openai (lit "/api/auto-select")
    (VObj [(lit "newsContent", VStr q)])
  = match outcome (AutoSelect.handler env openai
                     {| method := lit "POST";
                        body := VObj [(lit "newsContent", VStr q)] |}) with
    | Normal r =>
        Home.Answered (status r)
          match payload r with
          | Json v => Normal (wire v)
          | End_ => Throw SyntaxError
          end
    | Throw _ => Home.Answered 500 (Throw SyntaxError)
    end.
Proof. reflexivity. Qed.

(** What the page is answered for a query that is not blank. *)
Lemma deploy_auto_select_outcome (env : environment) (openai : upstream)
  (q : str) :
  q <> [] ->
  deploy env openai (lit "/api/auto-select")
    (VObj [(lit "newsContent", VStr q)])
  = if configured env
    then match completion_content
                 (openai (AutoSelect.completion_call env q)) with
         | Normal analysisText =>
             match JSON.parse analysisText with
             | Normal selections => Home.Answered 200 (Normal (wire selections))
             | Throw _ =>
                 Home.Answered 200 (Normal (wire AutoSelect.fallback))
             end
         | Throw _ =>
             Home.Answered 500
               (Normal (wire (VObj [(lit "error",
                                     VStr (lit "Failed to analyze content"))])))
         end
    else Home.Answered 500
           (Normal (wire (VObj [(lit "error",
                                 VStr (lit "OpenAI API key not configured"))]))).
Proof.
  intros Hq. rewrite deploy_auto_select.
  rewrite AutoSelect_post by reflexivity.
  change (get (body _) (lit "newsContent")) with (Normal (VStr q)).
  cbv beta iota. rewrite (proj2 (truthy_str q) Hq). cbn [negb].
  destruct (configured env); cbn [negb]; [|reflexivity].
  cbn [outcome ToString]. unfold try_catch at 1, bind at 1.
  destruct (completion_content _) as [content|e]; [|reflexivity].
  unfold AutoSelect.send_selections, try_catch, bind.
  destruct (JSON.parse content); reflexivity.
Qed.

(** C2, as the code has it: once the route has put the news content into
    the prompt and invoked the completion service, text that is not JSON
    is answered with the fallback selections (two ages, two genders, two
    personality traits, one interest); a failed invocation is answered
    500 with an error object, and the page then keeps the selection empty
    and says that auto-selection is unavailable.  Each of these is the
    same every time. *)
Theorem selector_failure_outcomes :
  (forall (env : environment) (openai : upstream) (req : request)
          (newsContent : value) (text : str),
      method req = lit "POST" ->
      get (body req) (lit "newsContent") = Normal newsContent ->
      truthy newsContent = true ->
      ToString newsContent = Normal text ->
      configured env = true ->
      let c := AutoSelect.completion_call env text in
      (forall content e,
          completion_content (openai c) = Normal content ->
          JSON.parse content = Throw e ->
          outcome (AutoSelect.handler env openai req)
          = Normal (json 200 AutoSelect.fallback))
      /\ (invocation_fails (openai c) ->
          outcome (AutoSelect.handler env openai req)
          = Normal (error 500 "Failed to analyze content")))
  /\ map (fun category => List.length (labels AutoSelect.fallback category))
       [lit "ages"; lit "genders"; lit "personality_traits"; lit "interests"]
     = [2; 2; 2; 1]%nat
  /\ (forall (env : environment) (openai : upstream) (st : Home.state),
         trim (Home.currentQuery st) <> [] ->
         (forall c, invocation_fails (openai c)) ->
         exists st',
           Home.after (Home.handleQuerySubmit (deploy env openai) st)
           = Normal st'
           /\ Home.selectedCharacteristics st' = JSSet.empty
           /\ Home.messages st'
              = [ (lit "user", Home.currentQuery st);
                  (lit "assistant", Home.unavailable) ]
           /\ Home.isLoading st' = false).
Proof.
  split; [|split; [reflexivity|]].
  - intros env openai req nc text post Hnc Hnc' Htext Henv c.
    rewrite (AutoSelect_outcome env openai req nc text post Hnc Hnc' Htext
               Henv).
    fold c. cbn [outcome]. split.
    + intros content e -> Hparse.
      apply send_selections_fallback with (e := e). exact Hparse.
    + intros Hfail. apply invocation_fails_throws in Hfail.
      destruct Hfail as [e ->]. reflexivity.
  - intros env openai st Hq Hfail.
    unfold Home.handleQuerySubmit.
    rewrite (proj2 (truthy_str _) Hq). cbn [negb Home.after].
    rewrite deploy_auto_select_outcome by (apply trim_nonempty; exact Hq).
    assert (H : exists code data,
               (if configured env
                then match completion_content
                             (openai (AutoSelect.completion_call env
                                        (Home.currentQuery st))) with
                     | Normal analysisText =>
                         match JSON.parse analysisText with
                         | Normal selections =>
                             Home.Answered 200 (Normal (wire selections))
                         | Throw _ =>
                             Home.Answered 200
                               (Normal (wire AutoSelect.fallback))
                         end
                     | Throw _ =>
                         Home.Answered 500
                           (Normal (wire (VObj [(lit "error",
                              VStr (lit "Failed to analyze content"))])))
                     end
                else Home.Answered 500
                       (Normal (wire (VObj [(lit "error",
                          VStr (lit "OpenAI API key not configured"))]))))
               = Home.Answered code data /\ ok code = false).
    { destruct (configured env); [|eexists; eexists; split; reflexivity].
      destruct (proj1 (invocation_fails_throws _)
                  (Hfail (AutoSelect.completion_call env (Home.currentQuery st))))
        as [e ->].
      eexists; eexists; split; reflexivity. }
    destruct H as (code & data & -> & Hcode).
    rewrite Hcode. destruct st as [q s c1 c2 c3 ms rc ld].
    eexists. split; [reflexivity|]. repeat split.
Qed.

Lemma selector_failure_outcomes_witness :
  outcome (AutoSelect.handler Sample.env Sample.truncated Sample.select)
  = Normal (json 200 AutoSelect.fallback)
  /\ outcome (AutoSelect.handler Sample.env Sample.overloaded Sample.select)
     = Normal (error 500 "Failed to analyze content")
  /\ exists st,
       Home.after (Home.handleQuerySubmit
                     (deploy Sample.env Sample.unreachable) Sample.typed)
       = Normal st
       /\ Home.selectedCharacteristics st = JSSet.empty
       /\ Home.messages st
          = [ (lit "user", Sample.query); (lit "assistant", Home.unavailable) ]
       /\ Home.isLoading st = false.
Proof.
  destruct selector_failure_outcomes as (Hroute & _ & Hpage).
  split; [|split].
  - refine (proj1 (Hroute Sample.env Sample.truncated Sample.select
                     (VStr Sample.query) Sample.query
                     eq_refl eq_refl eq_refl eq_refl eq_refl)
              (VStr (litq "{'ages': ['24-30'")) SyntaxError _ _);
      vm_compute; reflexivity.
  - apply (Hroute Sample.env Sample.overloaded Sample.select
             (VStr Sample.query) Sample.query
             eq_refl eq_refl eq_refl eq_refl eq_refl).
    apply bad_status. reflexivity.
  - apply (Hpage Sample.env Sample.unreachable Sample.typed).
    + vm_compute. discriminate.
    + intros c. apply transport_error.
Defined.

(** C2, as the claim has it, fails: when the completion service cannot be
    reached the route answers 500 with an error object, not the fallback
    selections; and text that is JSON of another shape is sent as it was
    parsed. *)
Lemma failure_is_not_defaulted :
  outcome (AutoSelect.handler Sample.env Sample.unreachable Sample.select)
  = Normal (error 500 "Failed to analyze content")
  /\ error 500 "Failed to analyze content" <> json 200 AutoSelect.fallback
  /\ outcome (AutoSelect.handler Sample.env Sample.off_schema Sample.select)
     = Normal (json 200 (VNum (Number.of_decimal false 42 0)))
  /\ VNum (Number.of_decimal false 42 0) <> AutoSelect.fallback
  /\ ~ failures_defaulted.
Proof.
  assert (Hsent : outcome (AutoSelect.handler Sample.env Sample.unreachable
                             Sample.select)
                  = Normal (error 500 "Failed to analyze content")).
  { vm_compute. reflexivity. }
  split; [exact Hsent|].
  split; [intros H; discriminate H|].
  split; [vm_compute; reflexivity|].
  split; [intros H; discriminate H|].
  intros Hclaim.
  specialize (Hclaim Sample.env Sample.unreachable Sample.select
                Sample.query eq_refl eq_refl eq_refl eq_refl
                transport_error).
  rewrite Hsent in Hclaim. discriminate Hclaim.
Qed.

(** ** The report *)





(** ** Suggestions with missing categories *)

Lemma wire_property_undefined (x : value) :
  wire_property x = VUndefined -> x = VUndefined.
Proof.
  destruct x; simpl; try discriminate; [reflexivity|].
  destruct (Number.is_finite n); [|discriminate].
  destruct (Number.is_zero n); discriminate.
Qed.

Lemma has_key_map (k : str) (props : list (str * value)) :
  has_key k (map (fun '((k', x) : str * value) => (k', wire_property x)) props)
  = has_key k props.
Proof.
  unfold has_key. induction props as [|[k' x] props IH]; [reflexivity|].
  cbn [map existsb fst]. rewrite IH. reflexivity.
Qed.

Lemma has_key_own (k : str) (props : list (str * value)) :
  has_key k props = false -> has_key k (own props) = false.
Proof.
  unfold has_key. induction props as [|[k' x] props IH]; [reflexivity|].
  cbn [existsb fst own]. intros H. apply orb_false_iff in H.
  destruct H as [Hk Hrest]. specialize (IH Hrest).
  destruct (has_key k' props); [exact IH|].
  destruct x; cbn [existsb fst]; try rewrite Hk; exact IH.
Qed.

Lemma lookup_absent (k : str) (props : list (str * value)) :
  has_key k props = false -> lookup k props = VUndefined.
Proof.
  unfold has_key. induction props as [|[k' x] props IH]; [reflexivity|].
  cbn [existsb fst lookup]. intros H. apply orb_false_iff in H.
  destruct H as [-> Hrest]. cbn [andb]. exact (IH Hrest).
Qed.

Lemma lookup_own (k : str) (props : list (str * value)) :
  lookup k (own props) = lookup k props.
Proof.
  induction props as [|[k' x] props IH]; [reflexivity|].
  cbn [own lookup].
  destruct (str_eqb k k') eqn:Ek.
  - apply str_eqb_eq in Ek. subst k'.
    destruct (has_key k props) eqn:Hk; cbn [andb negb]; [exact IH|].
    assert (Hx : lookup k (own props) = VUndefined).
    { apply lookup_absent, has_key_own, Hk. }
    destruct x; cbn [lookup]; rewrite ?str_eqb_refl, ?(has_key_own _ _ Hk);
      cbn [andb negb]; try reflexivity.
    rewrite Hx. reflexivity.
  - cbn [andb].
    destruct (has_key k' props); [exact IH|].
    destruct x; cbn [lookup]; rewrite ?Ek; cbn [andb]; exact IH.
Qed.

Lemma lookup_map_wire (k : str) (props : list (str * value)) :
  lookup k (map (fun '((k', x) : str * value) => (k', wire_property x)) props)
  = wire_property (lookup k props).
Proof.
  induction props as [|[k' x] props IH]; [reflexivity|].
  cbn [map lookup]. rewrite has_key_map.
  destruct (str_eqb k k' && negb (has_key k props)); [reflexivity | exact IH].
Qed.

(** A property of a value that travelled is the property as it
    travelled. *)
Lemma get_wire (props : list (str * value)) (k : str) :
  get (wire (VObj props)) k = Normal (wire_property (lookup k props)).
Proof.
  cbn [wire get]. f_equal.
  rewrite lookup_own. apply lookup_map_wire.
Qed.

Lemma wire_labels (ls : list str) : map wire (map VStr ls) = map VStr ls.
Proof. induction ls as [|l ls IH]; [reflexivity|]. cbn [map wire]. rewrite IH. reflexivity. Qed.

Lemma wire_category (present : option (list str)) :
  wire_property (category_value present) = category_value present.
Proof.
  destruct present as [ls|]; [|reflexivity].
  cbn [category_value wire_property wire]. rewrite wire_labels. reflexivity.
Qed.

Lemma spread_category (present : option (list str)) :
  Home.spread_or_empty (category_value present)
  = Normal (map VStr (present_labels present)).
Proof. destruct present; reflexivity. Qed.

(** A category of a suggestion that travelled and did not arrive as
    [null]. *)
Lemma get_wire_category (v : value) (k : str) (x : option (list str)) :
  wire v <> VNull ->
  get v k = Normal (category_value x) ->
  get (wire v) k = Normal (category_value x).
Proof.
  intros Hw Hg.
  destruct v as [| |b|n|s|elems|props]; cbn [get] in Hg; try discriminate.
  - exact Hg.
  - cbn [wire] in Hw |- *. destruct (Number.is_finite n).
    + destruct (Number.is_zero n); exact Hg.
    + contradiction Hw. reflexivity.
  - exact Hg.
  - exact Hg.
  - rewrite get_wire. injection Hg as ->. rewrite wire_category. reflexivity.
Qed.

(** [applyAutoSelections] on a suggestion whose categories are missing or
    arrays of labels. *)
Lemma applyAutoSelections_categories (v : value)
  (a g p i : option (list str)) (st : Home.state) :
  get v (lit "ages") = Normal (category_value a) ->
  get v (lit "genders") = Normal (category_value g) ->
  get v (lit "personality_traits") = Normal (category_value p) ->
  get v (lit "interests") = Normal (category_value i) ->
  Home.applyAutoSelections v st
  = Normal (Home.setSelectedCharacteristics
              (JSSet.of_list
                 (map VStr (present_labels a ++ present_labels g
                            ++ present_labels p ++ present_labels i))) st).
Proof.
  intros Ha Hg Hp Hi. unfold Home.applyAutoSelections.
  rewrite Ha, Hg, Hp, Hi.
  cbn [bind]. rewrite !spread_category. cbn [bind].
  rewrite !map_app. reflexivity.
Qed.

(** C5, as the code has it: when the text of the completion is valid JSON
    that does not reach the page as [null], and each category of it is
    either missing or an array of labels, the selection the page applies
    is the set of the labels of the categories that are there, a missing
    category counting as empty, and the page reports the analysis as
    done. *)
Theorem missing_categories_are_empty :
  forall (env : environment) (openai : upstream) (st : Home.state)
         (text : str) (v : value) (a g p i : option (list str)),
    trim (Home.currentQuery st) <> [] ->
    configured env = true ->
    (forall c, completion_content (openai c) = Normal (VStr text)) ->
    JSON.parse_text text = Normal v ->
    wire v <> VNull ->
    get v (lit "ages") = Normal (category_value a) ->
    get v (lit "genders") = Normal (category_value g) ->
    get v (lit "personality_traits") = Normal (category_value p) ->
    get v (lit "interests") = Normal (category_value i) ->
    let chosen := present_labels a ++ present_labels g
                  ++ present_labels p ++ present_labels i in
    exists st',
      Home.after (Home.handleQuerySubmit (deploy env openai) st) = Normal st'
      /\ Home.selectedCharacteristics st' = JSSet.of_list (map VStr chosen)
      /\ (forall label,
             JSSet.has (Home.selectedCharacteristics st') (VStr label) = true
             <-> In label chosen)
      /\ Home.messages st'
         = [ (lit "user", Home.currentQuery st);
             (lit "assistant", Home.analyzed) ].
Proof.
  intros env openai st text v a g p i Hq Henv Hcontent Hparse Hv Ha Hg Hp Hi
    chosen.
  unfold Home.handleQuerySubmit.
  rewrite (proj2 (truthy_str _) Hq). cbn [negb Home.after].
  rewrite deploy_auto_select_outcome by (apply trim_nonempty; exact Hq).
  rewrite Henv, Hcontent. unfold JSON.parse. cbn [ToString bind].
  rewrite Hparse.
  change (ok 200) with true. cbv iota. cbn [bind try_catch].
  rewrite (applyAutoSelections_categories (wire v) a g p i _
             (get_wire_category _ _ _ Hv Ha) (get_wire_category _ _ _ Hv Hg)
             (get_wire_category _ _ _ Hv Hp) (get_wire_category _ _ _ Hv Hi)).
  fold chosen. cbn [bind try_catch].
  destruct st as [q s c1 c2 c3 ms rc ld].
  eexists. split; [reflexivity|]. cbn [Home.selectedCharacteristics
    Home.setIsLoading Home.updateLastMessage Home.setMessages
    Home.setSelectedCharacteristics].
  split; [reflexivity|]. split; [|reflexivity].
  intros label. apply JSSetFacts.has_of_labels.
Qed.

Lemma missing_categories_are_empty_witness :
  exists st,
    Home.after (Home.handleQuerySubmit
                  (deploy Sample.env Sample.partial) Sample.typed)
    = Normal st
    /\ Home.selectedCharacteristics st
       = [VStr (lit "24-30"); VStr (lit "finance"); VStr (lit "music")].
Proof.
  destruct (missing_categories_are_empty Sample.env Sample.partial Sample.typed
              (litq "{'ages':['24-30'],'interests':['finance','music']}")
              Sample.partial_selections
              (Some [lit "24-30"]) None None
              (Some [lit "finance"; lit "music"]))
    as (st & Hst & Hsel & _).
  - vm_compute. discriminate.
  - reflexivity.
  - intros c. vm_compute. reflexivity.
  - vm_compute. reflexivity.
  - discriminate.
  - reflexivity.
  - reflexivity.
  - reflexivity.
  - reflexivity.
  - exists st. split; [exact Hst|]. rewrite Hsel. reflexivity.
Defined.

(** C5, as the claim has it, fails: the text [null] is valid JSON and has
    none of the four keys, and the page takes it as a failure:
    [applyAutoSelections] throws on it, and the message says that
    auto-selection is unavailable. *)
Lemma null_suggestion_is_a_failure :
  JSON.parse_text (lit "null") = Normal VNull
  /\ outcome (AutoSelect.handler Sample.env Sample.null_text Sample.select)
     = Normal (json 200 VNull)
  /\ Home.applyAutoSelections VNull Sample.typed = Throw TypeError
  /\ (st <- Home.after (Home.handleQuerySubmit
                          (deploy Sample.env Sample.null_text) Sample.typed) ;;
      Normal (Home.messages st, Home.selectedCharacteristics st))
     = Normal ([ (lit "user", Sample.query);
                 (lit "assistant", Home.unavailable) ], JSSet.empty)
  /\ ~ partial_parse_accepted.
Proof.
  assert (Hpage :
            (st <- Home.after (Home.handleQuerySubmit
                                 (deploy Sample.env Sample.null_text)
                                 Sample.typed) ;;
             Normal (Home.messages st, Home.selectedCharacteristics st))
            = Normal ([ (lit "user", Sample.query);
                        (lit "assistant", Home.unavailable) ], JSSet.empty)).
  { vm_compute. reflexivity. }
  split; [vm_compute; reflexivity|].
  split; [vm_compute; reflexivity|].
  split; [reflexivity|].
  split; [exact Hpage|].
  intros Hclaim.
  destruct (Hclaim Sample.env Sample.null_text Sample.typed (lit "null") VNull)
    as (st' & Hst' & Hmessages & _).
  - vm_compute. discriminate.
  - reflexivity.
  - intros c. vm_compute. reflexivity.
  - vm_compute. reflexivity.
  - exists (lit "ages"). split; [left; reflexivity | reflexivity].
  - intros k _ H. discriminate H.
  - rewrite Hst' in Hpage. cbn [bind] in Hpage.
    rewrite Hmessages in Hpage. vm_compute in Hpage. discriminate Hpage.
Qed.

(** * Further properties *)

(** ** The routes: headers and calls *)

(** X1: whatever the request, the key and the completion service, a
    response of either route carries the four cross-origin headers set at
    the top of the handler, any origin being allowed. *)
Theorem responses_carry_cors :
  forall (env : environment) (openai : upstream) (req : request)
         (r : response),
    outcome (AutoSelect.handler env openai req) = Normal r
    \/ outcome (GenerateReport.handler env openai req) = Normal r ->
    headers r = cors
    /\ In (lit "Access-Control-Allow-Origin", VStr (lit "*")) (headers r).
Proof.
  intros env openai req r H.
  assert (Hh : headers r = cors).
  { destruct H as [H|H].
    - unfold AutoSelect.handler in H.
      destruct (str_eqb (method req) (lit "OPTIONS")); [injection H as <-; reflexivity|].
      destruct (negb (str_eqb (method req) (lit "POST"))); [injection H as <-; reflexivity|].
      destruct (get (body req) (lit "newsContent")) as [nc|e]; [|discriminate H].
      destruct (negb (truthy nc)); [injection H as <-; reflexivity|].
      destruct (negb (configured env)); [injection H as <-; reflexivity|].
      cbv zeta in H.
      destruct (ToString nc) as [text|e]; [|injection H as <-; reflexivity].
      cbn [outcome] in H. unfold try_catch at 1, bind at 1 in H.
      destruct (completion_content _) as [content|e];
        [|injection H as <-; reflexivity].
      unfold AutoSelect.send_selections, try_catch, bind in H.
      destruct (JSON.parse content); injection H as <-; reflexivity.
    - unfold GenerateReport.handler in H.
      destruct (str_eqb (method req) (lit "OPTIONS")); [injection H as <-; reflexivity|].
      destruct (negb (str_eqb (method req) (lit "POST"))); [injection H as <-; reflexivity|].
      destruct (get (body req) (lit "newsContent")) as [nc|e];
        destruct (get (body req) (lit "selectedTraits")) as [st|e'];
        try discriminate H.
      destruct (negb (truthy nc) || negb (truthy st)); [injection H as <-; reflexivity|].
      destruct (negb (configured env)); [injection H as <-; reflexivity|].
      cbv zeta in H.
      destruct (GenerateReport.content st nc) as [[traits text]|e];
        [|injection H as <-; reflexivity].
      cbn [outcome] in H. unfold try_catch, bind in H.
      destruct (completion_content _); injection H as <-; reflexivity. }
  split; [exact Hh|]. rewrite Hh. right. left. reflexivity.
Qed.

Lemma responses_carry_cors_witness :
  headers (error 500 "Failed to analyze content") = cors
  /\ In (lit "Access-Control-Allow-Origin", VStr (lit "*"))
       (headers (error 500 "Failed to analyze content")).
Proof.
  apply (responses_carry_cors Sample.env Sample.unreachable Sample.select).
  left. vm_compute. reflexivity.
Defined.

(** X2: the auto-select route calls the completion service at most once,
    and exactly when the method is POST, the news content is truthy and
    can be converted to a string, and the key is configured; the call then
    carries the key as bearer token and one user message, the prompt for
    the news content as a string. *)
Theorem auto_select_calls :
  forall (env : environment) (openai : upstream) (req : request),
    match calls (AutoSelect.handler env openai req) with
    | [] =>
        ~ (method req = lit "POST"
           /\ configured env = true
           /\ exists newsContent text,
                get (body req) (lit "newsContent") = Normal newsContent
                /\ truthy newsContent = true
                /\ ToString newsContent = Normal text)
    | [c] =>
        method req = lit "POST"
        /\ exists key newsContent text,
             env = Some key /\ key <> []
             /\ get (body req) (lit "newsContent") = Normal newsContent
             /\ truthy newsContent = true
             /\ ToString newsContent = Normal text
             /\ url c = lit "https://api.openai.com/v1/chat/completions"
             /\ authorization c = lit "Bearer " ++ key
             /\ model c = lit "gpt-3.5-turbo"
             /\ messages c = [(lit "user", AutoSelect.prompt text)]
    | _ => False
    end.
Proof.
  intros env openai req. unfold AutoSelect.handler.
  destruct (str_eqb (method req) (lit "OPTIONS")) eqn:EO.
  { cbn [reply calls]. intros (HP & _). apply str_eqb_eq in EO.
    rewrite HP in EO. discriminate EO. }
  destruct (str_eqb (method req) (lit "POST")) eqn:EP; cbn [negb].
  2:{ cbn [reply calls]. intros (HP & _). apply str_eqb_neq in EP.
      contradiction. }
  apply str_eqb_eq in EP.
  destruct (get (body req) (lit "newsContent")) as [nc|e] eqn:Eg.
  2:{ cbn [calls]. intros (_ & _ & nc & text & H & _). discriminate H. }
  destruct (truthy nc) eqn:Et; cbn [negb].
  2:{ cbn [reply calls]. intros (_ & _ & nc' & text & H & H' & _).
      injection H as <-. congruence. }
  destruct (configured env) eqn:Ec; cbn [negb].
  2:{ cbn [reply calls]. intros (_ & H & _). discriminate H. }
  cbv zeta. destruct (ToString nc) as [text|e] eqn:Es.
  2:{ cbn [reply calls]. intros (_ & _ & nc' & text & H & _ & H').
      injection H as <-. congruence. }
  cbn [calls]. split; [exact EP|].
  destruct env as [[|k key]|]; try discriminate Ec.
  exists (k :: key), nc, text.
  split; [reflexivity|]. split; [discriminate|].
  split; [reflexivity|]. split; [exact Et|]. split; [exact Es|].
  split; [reflexivity|]. split; [reflexivity|]. split; reflexivity.
Qed.

(** X3: the generate-report route calls the completion service at most
    once, and exactly when the method is POST, both fields are truthy,
    [selectedTraits] is an array whose elements can be joined, the news
    content can be converted to a string and the key is configured; the
    prompt of the call lists the traits joined by a comma and a space. *)
Theorem generate_report_calls :
  forall (env : environment) (openai : upstream) (req : request),
    match calls (GenerateReport.handler env openai req) with
    | [] =>
        ~ (method req = lit "POST"
           /\ configured env = true
           /\ exists newsContent elems traits text,
                get (body req) (lit "newsContent") = Normal newsContent
                /\ truthy newsContent = true
                /\ get (body req) (lit "selectedTraits") = Normal (VArr elems)
                /\ array_join elems (lit ", ") = Normal traits
                /\ ToString newsContent = Normal text)
    | [c] =>
        method req = lit "POST"
        /\ exists key newsContent elems traits text,
             env = Some key /\ key <> []
             /\ get (body req) (lit "newsContent") = Normal newsContent
             /\ truthy newsContent = true
             /\ get (body req) (lit "selectedTraits") = Normal (VArr elems)
             /\ array_join elems (lit ", ") = Normal traits
             /\ ToString newsContent = Normal text
             /\ url c = lit "https://api.openai.com/v1/chat/completions"
             /\ authorization c = lit "Bearer " ++ key
             /\ model c = lit "gpt-3.5-turbo"
             /\ messages c
                = [(lit "user", GenerateReport.prompt traits text)]
    | _ => False
    end.
Proof.
  intros env openai req. unfold GenerateReport.handler.
  destruct (str_eqb (method req) (lit "OPTIONS")) eqn:EO.
  { cbn [reply calls]. intros (HP & _). apply str_eqb_eq in EO.
    rewrite HP in EO. discriminate EO. }
  destruct (str_eqb (method req) (lit "POST")) eqn:EP; cbn [negb].
  2:{ cbn [reply calls]. intros (HP & _). apply str_eqb_neq in EP.
      contradiction. }
  apply str_eqb_eq in EP.
  destruct (get (body req) (lit "newsContent")) as [nc|e] eqn:Eg;
    destruct (get (body req) (lit "selectedTraits")) as [st|e'] eqn:Es;
    cbn [calls];
    try (intros (_ & _ & nc' & elems & traits & text & Hnc & _ & Hst & _);
         first [discriminate Hnc | discriminate Hst]).
  destruct (truthy nc) eqn:Et; cbn [negb orb].
  2:{ cbn [reply calls].
      intros (_ & _ & nc' & elems & traits & text & H & H' & _).
      injection H as <-. congruence. }
  destruct (truthy st) eqn:Et'; cbn [negb].
  2:{ cbn [reply calls].
      intros (_ & _ & nc' & elems & traits & text & _ & _ & H & _).
      injection H as ->. discriminate Et'. }
  destruct (configured env) eqn:Ec; cbn [negb].
  2:{ cbn [reply calls]. intros (_ & H & _). discriminate H. }
  cbv zeta. unfold GenerateReport.content.
  destruct st as [| |b|n|s|elems|props]; cbn [join bind];
    try (cbn [reply calls];
         intros (_ & _ & nc' & elems' & traits & text & _ & _ & H & _);
         discriminate H).
  destruct (array_join elems (lit ", ")) as [traits|e] eqn:Ej; cbn [bind].
  2:{ cbn [reply calls].
      intros (_ & _ & nc' & elems' & traits & text & _ & _ & H & H' & _).
      injection H as <-. congruence. }
  destruct (ToString nc) as [text|e] eqn:Ex; cbn [bind].
  2:{ cbn [reply calls].
      intros (_ & _ & nc' & elems' & traits' & text & H & _ & _ & _ & H').
      injection H as <-. congruence. }
  cbn [calls]. split; [exact EP|].
  destruct env as [[|k key]|]; try discriminate Ec.
  exists (k :: key), nc, elems, traits, text.
  split; [reflexivity|]. split; [discriminate|].
  split; [reflexivity|]. split; [exact Et|]. split; [reflexivity|].
  split; [exact Ej|]. split; [exact Ex|].
  split; [reflexivity|]. split; [reflexivity|]. split; reflexivity.
Qed.

(** X4: a [selectedTraits] that is truthy but not an array (a string, a
    number, an object) makes [join] throw inside the [try]: the route
    answers 500 and the completion service is not called. *)
Theorem traits_not_an_array :
  forall (env : environment) (openai : upstream) (req : request)
         (newsContent selectedTraits : value),
    method req = lit "POST" ->
    get (body req) (lit "newsContent") = Normal newsContent ->
    get (body req) (lit "selectedTraits") = Normal selectedTraits ->
    truthy newsContent = true ->
    truthy selectedTraits = true ->
    configured env = true ->
    (forall elems, selectedTraits <> VArr elems) ->
    GenerateReport.handler env openai req
    = reply (error 500 "Failed to generate analysis report").
Proof.
  intros env openai req nc st post Hnc Hst Hnc' Hst' Henv Harr.
  rewrite GenerateReport_post by exact post.
  rewrite Hnc, Hst, Hnc', Hst', Henv. cbn [negb orb].
  unfold GenerateReport.content.
  destruct st; try reflexivity. exfalso. exact (Harr elems eq_refl).
Qed.

Lemma traits_not_an_array_witness :
  GenerateReport.handler Sample.env Sample.analysing
    {| method := lit "POST";
       body := VObj [ (lit "newsContent", VStr Sample.query);
                      (lit "selectedTraits", VStr (lit "male")) ] |}
  = reply (error 500 "Failed to generate analysis report").
Proof.
  apply (traits_not_an_array Sample.env Sample.analysing _
           (VStr Sample.query) (VStr (lit "male")));
    try reflexivity.
  intros elems H. discriminate H.
Defined.

(** ** The routes: prompts *)

Lemma starts_with_app (p r : str) : starts_with p (p ++ r) = true.
Proof.
  induction p as [|x p IH]; [reflexivity|].
  cbn [app starts_with]. rewrite N.eqb_refl. exact IH.
Qed.

Lemma starts_with_app_l (p a b : str) :
  starts_with p a = true -> starts_with p (a ++ b) = true.
Proof.
  revert a. induction p as [|x p IH]; intros a; [reflexivity|].
  destruct a as [|y a]; [discriminate|].
  cbn [app starts_with]. intros H. apply andb_true_iff in H.
  destruct H as [-> H]. exact (IH a H).
Qed.

Lemma includes_here (p r : str) : includes (p ++ r) p = true.
Proof.
  destruct (p ++ r) eqn:E; cbn [includes]; rewrite <- E, starts_with_app;
    reflexivity.
Qed.

Lemma includes_skip (pre s p : str) :
  includes s p = true -> includes (pre ++ s) p = true.
Proof.
  intros H. induction pre as [|x pre IH]; [exact H|].
  cbn [app includes]. rewrite IH. apply orb_true_r.
Qed.

Lemma includes_app_l (a b p : str) :
  includes a p = true -> includes (a ++ b) p = true.
Proof.
  induction a as [|x a IH].
  - cbn [includes]. rewrite orb_false_r. destruct p; [|discriminate].
    intros _. destruct b; reflexivity.
  - cbn [includes]. intros H. apply orb_true_iff in H. destruct H as [H|H].
    + change ((x :: a) ++ b) with (x :: (a ++ b)). cbn [includes].
      change (x :: (a ++ b)) with ((x :: a) ++ b).
      rewrite (starts_with_app_l _ _ b H). reflexivity.
    + change ((x :: a) ++ b) with (x :: (a ++ b)). cbn [includes].
      rewrite (IH H). apply orb_true_r.
Qed.

Lemma includes_middle (pre p post : str) :
  includes (pre ++ p ++ post) p = true.
Proof. apply includes_skip, includes_here. Qed.

Lemma selection_prompt_shape (text : str) :
  AutoSelect.prompt text = selection_prompt_opening ++ text ++ litq "'".
Proof. vm_compute. reflexivity. Qed.

Lemma report_prompt_shape (traits text : str) :
  GenerateReport.prompt traits text
  = report_prompt_opening ++ traits ++ report_prompt_middle ++ text
    ++ report_prompt_closing.
Proof.
  unfold GenerateReport.prompt, report_prompt_opening, report_prompt_middle,
    report_prompt_closing, lines.
  cbn [join_with]. rewrite <- !app_assoc. reflexivity.
Qed.

(** X5: the inputs are put into the prompts as they are, nothing escaped
    or cut: the report prompt has a line with the traits and a line with
    the news content between double quotes; the auto-select prompt ends
    with the news content between double quotes, after a text that does
    not depend on it and lists the labels of every category. *)
Theorem prompts_embed_inputs :
  (forall traits text : str,
      includes (GenerateReport.prompt traits text)
        (nl ++ lit "Audience Characteristics: " ++ traits ++ nl) = true
      /\ includes (GenerateReport.prompt traits text)
           (nl ++ litq "News Content: '" ++ text ++ litq "'" ++ nl) = true)
  /\ (forall text : str,
         AutoSelect.prompt text
         = selection_prompt_opening ++ text ++ litq "'"
         /\ includes (AutoSelect.prompt text)
              (nl ++ litq "News content to analyze: '" ++ text ++ litq "'")
            = true)
  /\ (forall category options,
         In (category, options) categories ->
         includes selection_prompt_opening
           (lit ": [" ++ join_with (lit ", ") options ++ lit "]" ++ nl)
         = true).
Proof.
  split; [|split].
  - intros traits text. rewrite report_prompt_shape. split.
    + replace (report_prompt_opening ++ traits ++ report_prompt_middle
                 ++ text ++ report_prompt_closing)
        with (removelast
                (lit "Provide a detailed analysis of how an audience with these characteristics would likely react to this news:" ++ nl ++ nl)
              ++ (nl ++ lit "Audience Characteristics: " ++ traits ++ nl)
              ++ (tl report_prompt_middle ++ text ++ report_prompt_closing))
        by (rewrite <- !app_assoc; reflexivity).
      apply includes_middle.
    + replace (report_prompt_opening ++ traits ++ report_prompt_middle
                 ++ text ++ report_prompt_closing)
        with ((report_prompt_opening ++ traits ++ nl)
              ++ (nl ++ litq "News Content: '" ++ text ++ litq "'" ++ nl)
              ++ tl (tl report_prompt_closing))
        by (rewrite <- !app_assoc; reflexivity).
      apply includes_middle.
  - intros text. rewrite selection_prompt_shape. split; [reflexivity|].
    set (pre := firstn (List.length selection_prompt_opening - 27)
                  selection_prompt_opening).
    assert (E : selection_prompt_opening
                = pre ++ nl ++ litq "News content to analyze: '")
      by (vm_compute; reflexivity).
    rewrite E.
    replace ((pre ++ nl ++ litq "News content to analyze: '")
             ++ text ++ litq "'")
      with (pre
            ++ (nl ++ litq "News content to analyze: '" ++ text ++ litq "'")
            ++ [])
      by (rewrite app_nil_r, <- !app_assoc; reflexivity).
    apply includes_middle.
  - intros category options H. unfold categories in H. cbn [In] in H.
    destruct H as [H|[H|[H|[H|[]]]]]; injection H as <- <-;
      vm_compute; reflexivity.
Qed.

(** ** The report, from the page to the completion and back *)

Lemma element_strings_labels (labels : list str) :
  element_strings (map VStr labels) = Normal labels.
Proof.
  induction labels as [|l labels IH]; [reflexivity|].
  cbn [map element_strings ToString bind]. rewrite IH. reflexivity.
Qed.

Lemma array_join_labels (labels : list str) (sep : str) :
  array_join (map VStr labels) sep = Normal (join_with sep labels).
Proof.
  unfold array_join. rewrite element_strings_labels. reflexivity.
Qed.

(** X6: for a selection of labels and a query that is not empty, the
    request [generateReport] sends makes the route call the completion
    service with the query as news content and the labels, in the order
    they were selected and joined by a comma and a space, as traits: the
    text the report shows as "Selected Traits". *)
Theorem report_request_lists_selection :
  forall (env : environment) (openai : upstream) (api : Home.backend)
         (st : Home.state) (labels : list str),
    Home.selectedCharacteristics st = map VStr labels ->
    labels <> [] ->
    Home.currentQuery st <> [] ->
    configured env = true ->
    exists sent,
      Home.requests (Home.generateReport api st)
      = [(lit "/api/generate-report", sent)]
      /\ calls (GenerateReport.handler env openai
                  {| method := lit "POST"; body := wire sent |})
         = [GenerateReport.completion_call env
              (join_with (lit ", ") labels) (Home.currentQuery st)]
      /\ View.selected_traits_meta st
         = Normal (join_with (lit ", ") labels).
Proof.
  intros env openai api st labels Hsel Hlabels Hq Henv.
  unfold Home.generateReport, View.selected_traits_meta, JSSet.to_list,
    JSSet.size.
  rewrite Hsel. destruct labels as [|l labels]; [contradiction|].
  cbn [map List.length Nat.eqb Home.requests].
  eexists. split; [reflexivity|].
  split; [|apply (array_join_labels (l :: labels))].
  rewrite GenerateReport_post by reflexivity.
  change (wire (VObj [ (lit "newsContent", VStr (Home.currentQuery st));
                       (lit "selectedTraits",
                         VArr (VStr l :: map VStr labels)) ]))
    with (VObj [ (lit "newsContent", VStr (Home.currentQuery st));
                 (lit "selectedTraits",
                   VArr (map wire (map VStr (l :: labels)))) ]).
  rewrite wire_labels.
  change (get (body _) (lit "newsContent"))
    with (Normal (VStr (Home.currentQuery st))).
  change (get (body _) (lit "selectedTraits"))
    with (Normal (VArr (map VStr (l :: labels)))).
  cbv beta iota. rewrite (proj2 (truthy_str _) Hq), Henv.
  cbn [truthy negb orb]. unfold GenerateReport.content. cbn [join].
  rewrite array_join_labels. reflexivity.
Qed.

Lemma report_request_lists_selection_witness :
  let st := Home.toggleCharacteristic (VStr (lit "male"))
              (Home.toggleCharacteristic (VStr (lit "technology"))
                 Sample.typed) in
  exists sent,
    Home.requests (Home.generateReport (deploy Sample.env Sample.analysing) st)
    = [(lit "/api/generate-report", sent)]
    /\ calls (GenerateReport.handler Sample.env Sample.analysing
                {| method := lit "POST"; body := wire sent |})
       = [GenerateReport.completion_call Sample.env
            (lit "technology, male") Sample.query]
    /\ View.selected_traits_meta st = Normal (lit "technology, male").
Proof.
  intros st.
  apply (report_request_lists_selection Sample.env Sample.analysing
           (deploy Sample.env Sample.analysing) st
           [lit "technology"; lit "male"]).
  - reflexivity.
  - discriminate.
  - vm_compute. discriminate.
  - reflexivity.
Defined.



(** ** The page: submitting a query *)

Lemma trim_start_nil (s : str) :
  trim_start s = [] <-> forallb is_js_space s = true.
Proof.
  induction s as [|c s IH]; cbn [trim_start forallb]; [tauto|].
  destruct (is_js_space c); cbn [andb]; [exact IH|].
  split; discriminate.
Qed.

Lemma trim_start_head (s : str) (c : N) (r : str) :
  trim_start s = c :: r -> is_js_space c = false.
Proof.
  induction s as [|x s IH]; cbn [trim_start]; [discriminate|].
  destruct (is_js_space x) eqn:E; [exact IH|].
  intros H. injection H as -> _. exact E.
Qed.

Lemma forallb_rev (f : N -> bool) (s : str) :
  forallb f (rev s) = forallb f s.
Proof.
  induction s as [|c s IH]; [reflexivity|].
  cbn [rev forallb]. rewrite forallb_app, IH. cbn [forallb].
  rewrite andb_true_r. apply andb_comm.
Qed.

Lemma trim_nil (s : str) : trim s = [] <-> forallb is_js_space s = true.
Proof.
  unfold trim. split.
  - intros H.
    assert (H' : trim_start (rev (trim_start s)) = []).
    { destruct (trim_start (rev (trim_start s))); [reflexivity|].
      apply (f_equal (@List.length N)) in H. rewrite length_rev in H.
      discriminate H. }
    apply trim_start_nil in H'. rewrite forallb_rev in H'.
    apply trim_start_nil.
    destruct (trim_start s) as [|c r] eqn:E; [reflexivity|].
    apply trim_start_head in E. cbn [forallb] in H'. rewrite E in H'.
    discriminate H'.
  - intros H. apply trim_start_nil in H. rewrite H. reflexivity.
Qed.

(** X8: a query that is empty or all white space is not sent:
    [handleQuerySubmit] makes no request and leaves the state as it is;
    any other query is sent, once. *)
Theorem blank_query_is_not_sent :
  forall (api : Home.backend) (st : Home.state),
    (forallb is_js_space (Home.currentQuery st) = true ->
     Home.handleQuerySubmit api st
     = {| Home.requests := []; Home.after := Normal st |})
    /\ (forallb is_js_space (Home.currentQuery st) = false ->
        Home.requests (Home.handleQuerySubmit api st)
        = [(lit "/api/auto-select",
            VObj [(lit "newsContent", VStr (Home.currentQuery st))])]).
Proof.
  intros api st. unfold Home.handleQuerySubmit. split; intros H.
  - apply trim_nil in H. rewrite H. reflexivity.
  - destruct (trim (Home.currentQuery st)) eqn:E.
    + apply trim_nil in E. congruence.
    + reflexivity.
Qed.

Lemma blank_query_is_not_sent_witness :
  let st := Home.setCurrentQuery [32; 9; 160; 10]%N Home.initial in
  Home.handleQuerySubmit (deploy Sample.env Sample.analysing) st
  = {| Home.requests := []; Home.after := Normal st |}.
Proof.
  intros st.
  apply (proj1 (blank_query_is_not_sent
                  (deploy Sample.env Sample.analysing) st)).
  reflexivity.
Defined.

(** ** The selection holds no value twice *)

Lemma has_false (s : JSSet.t) (v : value) :
  JSSet.has s v = false <-> Forall (fun x => same_value_zero v x = false) s.
Proof.
  unfold JSSet.has. induction s as [|x s IH]; cbn [existsb].
  - split; [constructor | reflexivity].
  - rewrite orb_false_iff, IH. split.
    + intros [H1 H2]. constructor; assumption.
    + intros H. inversion H; subst. split; assumption.
Qed.

Lemma distinct_snoc (s : JSSet.t) (v : value) :
  distinct s -> JSSet.has s v = false -> distinct (s ++ [v]).
Proof.
  unfold distinct. intros Hs Hv. apply has_false in Hv.
  induction Hs as [|a l Ha Hl IH]; cbn [app].
  - constructor; constructor.
  - inversion Hv; subst. constructor.
    + apply Forall_app. split; [exact Ha|]. constructor; [assumption|constructor].
    + apply IH. assumption.
Qed.

Lemma distinct_add (s : JSSet.t) (v : value) :
  distinct s -> distinct (JSSet.add s v).
Proof.
  intros Hs. unfold JSSet.add. destruct (JSSet.has s v) eqn:E; [exact Hs|].
  apply distinct_snoc; assumption.
Qed.

Lemma distinct_delete (s : JSSet.t) (v : value) :
  distinct s -> distinct (JSSet.delete s v).
Proof.
  unfold distinct, JSSet.delete. intros Hs.
  induction Hs as [|a l Ha Hl IH]; cbn [filter]; [constructor|].
  destruct (negb (same_value_zero v a)); [|exact IH].
  constructor; [|exact IH].
  apply Forall_forall. intros x Hx. apply filter_In in Hx.
  rewrite Forall_forall in Ha. apply Ha. tauto.
Qed.

Lemma distinct_fold_add (vs : list value) (acc : JSSet.t) :
  distinct acc -> distinct (fold_left JSSet.add vs acc).
Proof.
  revert acc. induction vs as [|v vs IH]; intros acc Hacc; [exact Hacc|].
  cbn [fold_left]. apply IH, distinct_add, Hacc.
Qed.

Lemma distinct_of_list (vs : list value) : distinct (JSSet.of_list vs).
Proof. apply distinct_fold_add. constructor. Qed.

Lemma has_of_list (vs : list value) (label : str) :
  JSSet.has (JSSet.of_list vs) (VStr label) = true <-> In (VStr label) vs.
Proof.
  unfold JSSet.of_list. rewrite JSSetFacts.has_fold_add.
  unfold JSSet.empty, JSSet.has at 1. cbn [existsb orb].
  rewrite existsb_exists. split.
  - intros (x & Hin & Hx). apply same_value_zero_str_l in Hx. subst x.
    exact Hin.
  - intros H. exists (VStr label). split; [exact H|].
    apply JSSetFacts.same_value_zero_refl_str.
Qed.

Lemma size_delete (s : JSSet.t) (label : str) :
  distinct s ->
  JSSet.has s (VStr label) = true ->
  S (JSSet.size (JSSet.delete s (VStr label))) = JSSet.size s.
Proof.
  unfold distinct, JSSet.size, JSSet.delete, JSSet.has.
  intros Hs. induction Hs as [|a l Ha Hl IH]; cbn [existsb filter];
    [discriminate|].
  destruct (same_value_zero (VStr label) a) eqn:E; cbn [negb orb].
  - intros _. apply same_value_zero_str_l in E. subst a.
    cbn [List.length]. f_equal.
    fold (JSSet.delete l (VStr label)).
    rewrite JSSetFacts.delete_absent; [reflexivity|].
    apply has_false. apply Forall_forall. intros x Hx.
    rewrite Forall_forall in Ha. specialize (Ha x Hx).
    destruct (same_value_zero (VStr label) x) eqn:Ex; [|reflexivity].
    apply same_value_zero_str_l in Ex. subst x.
    rewrite JSSetFacts.same_value_zero_refl_str in Ha. discriminate Ha.
  - intros H. cbn [List.length]. f_equal. exact (IH H).
Qed.

(** X9: toggling a label keeps the selection free of duplicates and
    changes its size by one: one less when the label was selected, one
    more when it was not. *)
Theorem toggle_counts :
  forall (st : Home.state) (label : str),
    distinct (Home.selectedCharacteristics st) ->
    let st' := Home.toggleCharacteristic (VStr label) st in
    distinct (Home.selectedCharacteristics st')
    /\ (if JSSet.has (Home.selectedCharacteristics st) (VStr label)
        then S (JSSet.size (Home.selectedCharacteristics st'))
             = JSSet.size (Home.selectedCharacteristics st)
        else JSSet.size (Home.selectedCharacteristics st')
             = S (JSSet.size (Home.selectedCharacteristics st))).
Proof.
  intros st label Hd. destruct st as [q s c1 c2 c3 ms rc ld].
  cbn [Home.selectedCharacteristics] in Hd.
  unfold Home.toggleCharacteristic.
  cbn [Home.selectedCharacteristics Home.setSelectedCharacteristics].
  destruct (JSSet.has s (VStr label)) eqn:E.
  - split; [apply distinct_delete, Hd | apply size_delete; assumption].
  - split; [apply distinct_add, Hd|].
    unfold JSSet.add. rewrite E. unfold JSSet.size.
    rewrite length_app. cbn [List.length]. apply Nat.add_1_r.
Qed.

Lemma toggle_counts_witness :
  let st := Home.toggleCharacteristic (VStr (lit "male")) Sample.typed in
  distinct (Home.selectedCharacteristics
              (Home.toggleCharacteristic (VStr (lit "music")) st))
  /\ JSSet.size (Home.selectedCharacteristics
                   (Home.toggleCharacteristic (VStr (lit "music")) st))
     = S (JSSet.size (Home.selectedCharacteristics st)).
Proof.
  intros st.
  apply (toggle_counts st (lit "music")).
  constructor; constructor.
Defined.

(** ** The page: applying a suggestion *)

Lemma spread_throws (x : value) :
  spreadable x = false <-> Home.spread_or_empty x = Throw TypeError.
Proof.
  unfold spreadable, Home.spread_or_empty.
  destruct (truthy x); cbn [negb orb];
    destruct x; split; intros H; try reflexivity; discriminate H.
Qed.

Lemma spread_normal (x : value) :
  spreadable x = true -> exists vs, Home.spread_or_empty x = Normal vs.
Proof.
  unfold spreadable, Home.spread_or_empty.
  destruct (truthy x); cbn [negb orb]; [|eauto].
  destruct x; intros H; try discriminate H; eauto.
Qed.

Lemma get_same_base (v : value) (k k' : str) (e : exn) :
  get v k = Throw e -> get v k' = Throw TypeError.
Proof. destruct v; cbn [get]; intros H; try discriminate H; reflexivity. Qed.

(** X10: [applyAutoSelections] throws a [TypeError], before it sets
    anything, exactly when the suggestion is [null] or [undefined] or one
    of its four categories is truthy and neither an array nor a string;
    otherwise it changes the selection and nothing else, the new
    selection has no value twice, and a label is in it exactly when one of
    the categories lists it. *)
Theorem applyAutoSelections_outcomes :
  forall (autoSelections : value) (st : Home.state),
    match Home.applyAutoSelections autoSelections st with
    | Throw e =>
        e = TypeError
        /\ (get autoSelections (lit "ages") = Throw TypeError
            \/ exists k x,
                 In k suggestion_keys
                 /\ get autoSelections k = Normal x
                 /\ spreadable x = false)
    | Normal st' =>
        (forall k, In k suggestion_keys ->
                   exists x, get autoSelections k = Normal x
                             /\ spreadable x = true)
        /\ Home.setSelectedCharacteristics (Home.selectedCharacteristics st) st'
           = st
        /\ distinct (Home.selectedCharacteristics st')
        /\ forall label,
             JSSet.has (Home.selectedCharacteristics st') (VStr label) = true
             <-> exists k x vs,
                   In k suggestion_keys
                   /\ get autoSelections k = Normal x
                   /\ Home.spread_or_empty x = Normal vs
                   /\ In (VStr label) vs
    end.
Proof.
  intros v st. unfold Home.applyAutoSelections, suggestion_keys.
  destruct (get v (lit "ages")) as [a|e] eqn:Ea.
  2:{ cbn [bind]. rewrite (get_same_base _ _ (lit "ages") _ Ea) in Ea.
      injection Ea as ->. auto. }
  destruct (get_total v _ (lit "genders") _ Ea) as [g Eg].
  destruct (get_total v _ (lit "personality_traits") _ Ea) as [p Ep].
  destruct (get_total v _ (lit "interests") _ Ea) as [i Ei].
  rewrite Eg, Ep, Ei. cbn [bind].
  destruct (spreadable a) eqn:Sa.
  2:{ rewrite (proj1 (spread_throws a) Sa). cbn [bind]. split; [reflexivity|].
      right. exists (lit "ages"), a. cbn [In]. auto. }
  destruct (spread_normal a Sa) as [va Ha]. rewrite Ha. cbn [bind].
  destruct (spreadable g) eqn:Sg.
  2:{ rewrite (proj1 (spread_throws g) Sg). cbn [bind]. split; [reflexivity|].
      right. exists (lit "genders"), g. cbn [In]. auto. }
  destruct (spread_normal g Sg) as [vg Hg]. rewrite Hg. cbn [bind].
  destruct (spreadable p) eqn:Sp.
  2:{ rewrite (proj1 (spread_throws p) Sp). cbn [bind]. split; [reflexivity|].
      right. exists (lit "personality_traits"), p. cbn [In]. auto. }
  destruct (spread_normal p Sp) as [vp Hp]. rewrite Hp. cbn [bind].
  destruct (spreadable i) eqn:Si.
  2:{ rewrite (proj1 (spread_throws i) Si). cbn [bind]. split; [reflexivity|].
      right. exists (lit "interests"), i. cbn [In]. auto 6. }
  destruct (spread_normal i Si) as [vi Hi]. rewrite Hi. cbn [bind].
  split; [|split; [|split]].
  - intros k [<-|[<-|[<-|[<-|[]]]]]; eauto.
  - destruct st; reflexivity.
  - destruct st; apply distinct_of_list.
  - intros label.
    replace (Home.selectedCharacteristics
               (Home.setSelectedCharacteristics
                  (JSSet.of_list (va ++ vg ++ vp ++ vi)) st))
      with (JSSet.of_list (va ++ vg ++ vp ++ vi)) by (destruct st; reflexivity).
    rewrite has_of_list, !in_app_iff. split.
    + intros [H|[H|[H|H]]].
      * exists (lit "ages"), a, va. cbn [In]. auto.
      * exists (lit "genders"), g, vg. cbn [In]. auto.
      * exists (lit "personality_traits"), p, vp. cbn [In]. auto.
      * exists (lit "interests"), i, vi. cbn [In]. auto 6.
    + intros (k & x & vs & Hk & Hx & Hvs & Hin).
      destruct Hk as [<-|[<-|[<-|[<-|[]]]]]; rewrite Hx in *.
      * injection Ea as <-. rewrite Hvs in Ha. injection Ha as <-. auto.
      * injection Eg as <-. rewrite Hvs in Hg. injection Hg as <-. auto.
      * injection Ep as <-. rewrite Hvs in Hp. injection Hp as <-. auto.
      * injection Ei as <-. rewrite Hvs in Hi. injection Hi as <-. auto.
Qed.

(** ** The page: the last message *)

Lemma last_message_cases (ms : list (str * str)) :
  ms = [] \/ exists before m, ms = before ++ [m].
Proof.
  induction ms as [|m before _] using rev_ind; [left; reflexivity|].
  right. exists before, m. reflexivity.
Qed.

(** X11: [updateLastMessage] neither adds nor removes a message and
    changes nothing but the messages; of the messages it changes at most
    the content of the last one, and only when the assistant sent it; a
    later update takes the place of an earlier one. *)
Theorem updateLastMessage_only_last :
  forall (content : str) (st : Home.state),
    let st' := Home.updateLastMessage content st in
    Home.setMessages (fun _ => Home.messages st) st' = st
    /\ (Home.messages st = [] -> Home.messages st' = [])
    /\ (forall before sender old,
           Home.messages st = before ++ [(sender, old)] ->
           Home.messages st'
           = before ++ [(sender, if str_eqb sender (lit "assistant")
                                 then content else old)])
    /\ List.length (Home.messages st') = List.length (Home.messages st)
    /\ forall content',
         Home.updateLastMessage content' st'
         = Home.updateLastMessage content' st.
Proof.
  intros content st st'.
  assert (Hsnoc : forall c before sender old (s : Home.state),
             Home.messages s = before ++ [(sender, old)] ->
             Home.messages (Home.updateLastMessage c s)
             = before ++ [(sender, if str_eqb sender (lit "assistant")
                                   then c else old)]).
  { intros c before sender old s H. destruct s as [q sel c1 c2 c3 ms rc ld].
    cbn [Home.messages] in H. subst ms.
    unfold Home.updateLastMessage. cbn [Home.setMessages Home.messages].
    rewrite rev_app_distr. cbn [rev app].
    destruct (str_eqb sender (lit "assistant")); [|reflexivity].
    rewrite rev_involutive. reflexivity. }
  assert (Hnil : forall c (s : Home.state),
             Home.messages s = [] ->
             Home.messages (Home.updateLastMessage c s) = []).
  { intros c s H. destruct s as [q sel c1 c2 c3 ms rc ld].
    cbn [Home.messages] in H. subst ms. reflexivity. }
  assert (Hrest : forall c (s : Home.state),
             Home.setMessages (fun _ => Home.messages s)
               (Home.updateLastMessage c s) = s).
  { intros c s. destruct s; reflexivity. }
  assert (Heq : forall s s' : Home.state,
             Home.setMessages (fun _ => []) s = Home.setMessages (fun _ => []) s' ->
             Home.messages s = Home.messages s' -> s = s').
  { intros [q sel c1 c2 c3 ms rc ld] [q' sel' c1' c2' c3' ms' rc' ld'].
    cbn [Home.setMessages Home.messages]. intros H ->.
    injection H as -> -> -> -> -> -> ->. reflexivity. }
  subst st'.
  split; [apply Hrest|]. split; [intros H; apply Hnil, H|].
  split; [intros before sender old H; apply Hsnoc, H|].
  destruct (last_message_cases (Home.messages st))
    as [E|(ms & [sender old] & E)].
  - split; [rewrite (Hnil content st E), E; reflexivity|].
    intros c'. apply Heq.
    + destruct st; reflexivity.
    + rewrite (Hnil c' st E). apply Hnil, Hnil, E.
  - split.
    + rewrite (Hsnoc content ms sender old st E), E.
      rewrite !length_app. reflexivity.
    + intros c'. apply Heq.
      * destruct st; reflexivity.
      * rewrite (Hsnoc c' ms sender old st E).
        rewrite (Hsnoc c' ms sender
                   (if str_eqb sender (lit "assistant") then content else old)
                   _ (Hsnoc content ms sender old st E)).
        destruct (str_eqb sender (lit "assistant")); reflexivity.
Qed.

Lemma updateLastMessage_only_last_witness :
  let st := Home.addMessage (lit "user") Sample.query Home.initial in
  Home.messages (Home.updateLastMessage Home.unavailable st)
  = [] ++ [(lit "user", Sample.query)].
Proof.
  intros st.
  destruct (updateLastMessage_only_last Home.unavailable st)
    as (_ & _ & H & _).
  exact (H [] (lit "user") Sample.query eq_refl).
Defined.

(** ** The page over time *)

(** The handlers that wait are their two parts, one after the other. *)
Lemma handleQuerySubmit_parts (api : Home.backend) (st : Home.state) :
  Home.handleQuerySubmit api st
  = match Session.start Session.Submitted st with
    | (st1, Some (p, (path, sent))) =>
        {| Home.requests := [(path, sent)];
           Home.after := Normal (Session.resume p (api path sent) st1) |}
    | (st1, None) => {| Home.requests := []; Home.after := Normal st1 |}
    end.
Proof.
  unfold Home.handleQuerySubmit, Session.start.
  destruct (negb (truthy (VStr (trim (Home.currentQuery st)))));
    [reflexivity|].
  cbv zeta. f_equal. unfold Session.resume, try_catch, bind.
  match goal with
  | |- context [api ?path ?sent] =>
      destruct (api path sent) as [|code data]; [reflexivity|]
  end.
  destruct (ok code); [|reflexivity].
  destruct data as [autoSelections|e]; [|reflexivity].
  match goal with
  | |- context [Home.applyAutoSelections ?v ?s] =>
      destruct (Home.applyAutoSelections v s); reflexivity
  end.
Qed.

Lemma generateReport_parts (api : Home.backend) (st : Home.state) :
  Home.generateReport api st
  = match Session.start Session.GenerateClicked st with
    | (st1, Some (p, (path, sent))) =>
        {| Home.requests := [(path, sent)];
           Home.after := Normal (Session.resume p (api path sent) st1) |}
    | (st1, None) => {| Home.requests := []; Home.after := Normal st1 |}
    end.
Proof.
  unfold Home.generateReport, Session.start.
  destruct (Nat.eqb (JSSet.size (Home.selectedCharacteristics st)) 0);
    [reflexivity|].
  cbv zeta. f_equal. unfold Session.resume, try_catch, bind.
  match goal with
  | |- context [api ?path ?sent] =>
      destruct (api path sent) as [|code data]; [reflexivity|]
  end.
  destruct (ok code); [|reflexivity].
  destruct data as [data|e]; [|reflexivity].
  destruct (get data (lit "report")); reflexivity.
Qed.

Lemma applyAutoSelections_sets (v : value) (st st' : Home.state) :
  Home.applyAutoSelections v st = Normal st' ->
  exists vs, st' = Home.setSelectedCharacteristics (JSSet.of_list vs) st.
Proof.
  unfold Home.applyAutoSelections, bind.
  repeat match goal with
         | |- context [match ?x with Normal _ => _ | Throw _ => _ end] =>
             destruct x; [|discriminate]
         end.
  intros [= <-]. eauto.
Qed.

(** What the second part of [handleQuerySubmit] leaves. *)
Lemma resume_selecting (r : Home.landed) (st : Home.state) :
  (exists vs,
      Session.resume Session.Selecting r st
      = Home.setIsLoading false
          (Home.updateLastMessage Home.analyzed
             (Home.setSelectedCharacteristics (JSSet.of_list vs) st)))
  \/ Session.resume Session.Selecting r st
     = Home.setIsLoading false (Home.updateLastMessage Home.unavailable st).
Proof.
  unfold Session.resume, bind.
  destruct r as [|code data]; [right; reflexivity|].
  destruct (ok code); [|right; reflexivity].
  destruct data as [autoSelections|e]; [|right; reflexivity].
  destruct (Home.applyAutoSelections autoSelections st) as [st'|e] eqn:E;
    [|right; reflexivity].
  apply applyAutoSelections_sets in E. destruct E as [vs ->].
  left. exists vs. reflexivity.
Qed.

Lemma resume_reporting (r : Home.landed) (st : Home.state) :
  exists report,
    Session.resume Session.Reporting r st
    = Home.setIsLoading false
        (Home.setShowReport true (Home.setReportContent report st)).
Proof.
  unfold Session.resume, bind.
  destruct r as [|code data]; [eexists; reflexivity|].
  destruct (ok code); [|eexists; reflexivity].
  destruct data as [data|e]; [|eexists; reflexivity].
  destruct (get data (lit "report")); eexists; reflexivity.
Qed.

(** X12: whatever the API answers, after a query that is not blank was
    submitted the page shows the chat and the panel and no report, is not
    loading, and has the query and one answer of the assistant as its
    only messages; the earlier selection is gone: the new one has no
    value twice, and is empty when the answer is that auto-selection is
    unavailable. *)
Theorem query_submitted :
  forall (api : Home.backend) (st : Home.state),
    forallb is_js_space (Home.currentQuery st) = false ->
    exists st',
      Home.after (Home.handleQuerySubmit api st) = Normal st'
      /\ Home.currentQuery st' = Home.currentQuery st
      /\ Home.reportContent st' = Home.reportContent st
      /\ Home.showChat st' = true
      /\ Home.showCharacteristics st' = true
      /\ Home.showReport st' = false
      /\ Home.isLoading st' = false
      /\ distinct (Home.selectedCharacteristics st')
      /\ (Home.messages st'
          = [ (lit "user", Home.currentQuery st);
              (lit "assistant", Home.analyzed) ]
          \/ (Home.messages st'
              = [ (lit "user", Home.currentQuery st);
                  (lit "assistant", Home.unavailable) ]
              /\ Home.selectedCharacteristics st' = JSSet.empty)).
Proof.
  intros api st Hq. rewrite handleQuerySubmit_parts.
  unfold Session.start.
  destruct (trim (Home.currentQuery st)) as [|c0 rest] eqn:E.
  { apply trim_nil in E. congruence. }
  cbn [truthy negb Home.after].
  match goal with
  | |- context [Session.resume _ ?r ?s] =>
      destruct (resume_selecting r s) as [[vs ->]| ->]
  end; destruct st as [q sel c1 c2 c3 ms rc ld]; eexists;
    (split; [reflexivity|]);
    cbn [Home.currentQuery Home.reportContent Home.showChat
           Home.showCharacteristics Home.showReport Home.isLoading
           Home.selectedCharacteristics Home.messages Home.setIsLoading
           Home.updateLastMessage Home.setMessages
           Home.setSelectedCharacteristics Home.addMessage
           Home.setShowReport Home.setShowCharacteristics Home.setShowChat];
    repeat (split; [reflexivity|]).
  - split; [apply distinct_of_list|]. left. reflexivity.
  - split; [constructor|]. right. split; reflexivity.
Qed.

Lemma query_submitted_witness :
  exists st',
    Home.after (Home.handleQuerySubmit (deploy Sample.env Sample.partial)
                  Sample.typed) = Normal st'
    /\ Home.showChat st' = true
    /\ Home.isLoading st' = false.
Proof.
  destruct (query_submitted (deploy Sample.env Sample.partial) Sample.typed
              eq_refl) as (st' & H & _ & _ & Hchat & _ & _ & Hload & _).
  exists st'. auto.
Defined.

Ltac page_fields :=
  cbn [Home.currentQuery Home.selectedCharacteristics Home.showChat
         Home.showCharacteristics Home.showReport Home.messages
         Home.reportContent Home.isLoading
         Home.setCurrentQuery Home.setSelectedCharacteristics
         Home.setShowChat Home.setShowCharacteristics Home.setShowReport
         Home.setMessages Home.setReportContent Home.setIsLoading
         Home.addMessage Home.goBackToMain] in *.

Lemma consistent_initial : consistent Home.initial.
Proof.
  unfold consistent. cbn. repeat split; [discriminate | constructor].
Qed.

Lemma consistent_updateLastMessage (c : str) (st : Home.state) :
  In c [Home.analyzing; Home.analyzed; Home.unavailable] ->
  consistent st -> consistent (Home.updateLastMessage c st).
Proof.
  intros Hc. destruct st as [q sel c1 c2 c3 ms rc ld].
  unfold consistent, Home.updateLastMessage. page_fields.
  intros (H1 & H2 & H3 & H4). repeat split; try assumption.
  destruct c1.
  - destruct H3 as (m & _ & ->). exists c. split; [exact Hc|]. reflexivity.
  - rewrite H3. reflexivity.
Qed.

Lemma consistent_selection (s : JSSet.t) (st : Home.state) :
  distinct s -> consistent st ->
  consistent (Home.setSelectedCharacteristics s st).
Proof.
  intros Hs. destruct st as [q sel c1 c2 c3 ms rc ld].
  unfold consistent. page_fields. tauto.
Qed.

Lemma consistent_setIsLoading (b : bool) (st : Home.state) :
  consistent st -> consistent (Home.setIsLoading b st).
Proof. destruct st. unfold consistent. page_fields. tauto. Qed.

Lemma consistent_setShowReport (b : bool) (st : Home.state) :
  consistent st -> consistent (Home.setShowReport b st).
Proof. destruct st. unfold consistent. page_fields. tauto. Qed.

Lemma consistent_setReportContent (r : value) (st : Home.state) :
  consistent st -> consistent (Home.setReportContent r st).
Proof. destruct st. unfold consistent. page_fields. tauto. Qed.

Lemma consistent_resume (p : Session.pending) (r : Home.landed)
  (st : Home.state) :
  consistent st -> consistent (Session.resume p r st).
Proof.
  intros H. destruct p.
  - destruct (resume_selecting r st) as [[vs ->]| ->];
      apply consistent_setIsLoading, consistent_updateLastMessage;
      cbn [In]; auto.
    apply consistent_selection; [apply distinct_of_list | exact H].
  - destruct (resume_reporting r st) as [report ->].
    apply consistent_setIsLoading, consistent_setShowReport,
      consistent_setReportContent, H.
Qed.

Lemma consistent_start (e : Session.event) (st : Home.state) :
  consistent st ->
  Session.enabled st e = true ->
  consistent (fst (Session.start e st)).
Proof.
  intros H He. destruct e; cbn [Session.start Session.enabled] in *.
  - unfold View.welcome_screen in He. apply negb_true_iff in He.
    destruct st as [q0 sel c1 c2 c3 ms rc ld]. unfold consistent in *.
    page_fields. subst c1. cbn [fst]. page_fields.
    destruct H as (H1 & _ & H3 & H4). repeat split; auto. discriminate.
  - destruct (trim (Home.currentQuery st)) as [|c0 rest] eqn:E;
      cbn [truthy negb fst]; [exact H|].
    destruct st as [q0 sel c1 c2 c3 ms rc ld]. unfold consistent in *.
    page_fields. repeat split.
    + intros _. rewrite E. discriminate.
    + exists Home.analyzing. cbn [In]. auto.
    + constructor.
  - cbn [fst]. unfold Home.toggleCharacteristic.
    apply consistent_selection; [|exact H].
    destruct H as (_ & _ & _ & H).
    destruct (JSSet.has _ _); [apply distinct_delete | apply distinct_add];
      exact H.
  - destruct (Nat.eqb _ 0); cbn [fst]; [exact H|].
    apply consistent_setIsLoading, H.
  - cbn [fst]. apply consistent_setShowReport, H.
  - cbn [fst]. destruct st as [q0 sel c1 c2 c3 ms rc ld].
    unfold consistent. page_fields.
    repeat split; [discriminate | constructor].
Qed.

Lemma nth_error_cut (A : Type) (l : list A) (n : nat) (a : A) :
  nth_error l n = Some a -> l = firstn n l ++ a :: skipn (S n) l.
Proof.
  revert l. induction n as [|n IH]; intros [|x l]; cbn; try discriminate.
  - intros [= ->]. reflexivity.
  - intros H. f_equal. exact (IH l H).
Qed.

Lemma occur_step (o : Session.occurrence) (w w' : Session.world) :
  Session.occur o w = Some w' -> Session.step w w'.
Proof.
  destruct o as [e|n r]; cbn [Session.occur].
  - destruct (Session.enabled (Session.page w) e) eqn:E; [|discriminate].
    intros [= <-]. apply Session.event_happens. exact E.
  - destruct (nth_error (Session.inflight w) n) as [p|] eqn:E; [|discriminate].
    intros [= <-].
    apply Session.response_arrives. apply nth_error_cut. exact E.
Qed.

Lemma play_reachable (os : list Session.occurrence) (w w' : Session.world) :
  Session.reachable w -> Session.play os w = Some w' -> Session.reachable w'.
Proof.
  revert w. induction os as [|o os IH]; intros w Hw; cbn [Session.play].
  - intros [= <-]. exact Hw.
  - destruct (Session.occur o w) as [w1|] eqn:E; [|discriminate].
    apply IH. apply Session.reachable_step with (w := w); [exact Hw|].
    apply occur_step with (o := o). exact E.
Qed.

(** One step of the session keeps the page consistent. *)
Lemma consistent_step (w w' : Session.world) :
  consistent (Session.page w) -> Session.step w w' ->
  consistent (Session.page w').
Proof.
  intros IH Hstep.
  destruct Hstep as [e w He|p r w before after Hin]; cbn [Session.page].
  - apply consistent_start; assumption.
  - apply consistent_resume. exact IH.
Qed.

(** X13: with the handlers interleaved in any way and the API answering
    anything, at every moment the panel is shown exactly when the chat
    is; while the chat is shown the query is not blank and the messages
    are that query and one message of the assistant (analysing, analysed
    or unavailable), and otherwise there are none; and the selection
    never holds a value twice. *)
Theorem page_stays_consistent :
  forall w : Session.world, Session.reachable w -> consistent (Session.page w).
Proof.
  intros w Hw. induction Hw as [|w w' Hw IH Hstep].
  - exact consistent_initial.
  - exact (consistent_step w w' IH Hstep).
Qed.

Lemma page_stays_consistent_witness :
  match Session.play
          [ Session.Does (Session.Typed Sample.query);
            Session.Does Session.Submitted;
            Session.Arrives 0
              (deploy Sample.env Sample.partial (lit "/api/auto-select")
                 (VObj [(lit "newsContent", VStr Sample.query)])) ]
          Session.opened with
  | Some w => consistent (Session.page w)
  | None => False
  end.
Proof.
  destruct (Session.play _ Session.opened) as [w|] eqn:E.
  - apply (page_stays_consistent w).
    exact (play_reachable _ _ _ Session.reachable_opened E).
  - vm_compute in E. discriminate E.
Defined.

(** X14: with the handlers interleaved in any way, whenever the generate
    button can be clicked the request it sends is in order for the
    route: the route does not answer 400, and when the key is configured
    it calls the completion service, with the selection joined as traits
    and the query as news content, unless the selection, as it travelled,
    cannot be joined: then the route answers 500 without a call. *)
Theorem report_requests_in_order :
  forall w : Session.world,
    Session.reachable w ->
    Session.enabled (Session.page w) Session.GenerateClicked = true ->
    exists st1 sent,
      Session.start Session.GenerateClicked (Session.page w)
      = (st1, Some (Session.Reporting, (lit "/api/generate-report", sent)))
      /\ forall (env : environment) (openai : upstream),
           ~ rejected (GenerateReport.handler env openai
                         {| method := lit "POST"; body := wire sent |}) 400
           /\ (configured env = true ->
               match array_join
                       (map wire (JSSet.to_list
                                    (Home.selectedCharacteristics
                                       (Session.page w))))
                       (lit ", ") with
               | Normal traits =>
                   calls (GenerateReport.handler env openai
                            {| method := lit "POST"; body := wire sent |})
                   = [GenerateReport.completion_call env traits
                        (Home.currentQuery (Session.page w))]
               | Throw _ =>
                   GenerateReport.handler env openai
                     {| method := lit "POST"; body := wire sent |}
                   = reply (error 500 "Failed to generate analysis report")
               end).
Proof.
  intros w Hw.
  assert (Hc : consistent (Session.page w)).
  { induction Hw as [|w w' Hw IH Hstep];
      [exact consistent_initial | exact (consistent_step w w' IH Hstep)]. }
  clear Hw. rename Hc into Hw. intros He.
  destruct (Session.page w) as [q sel c1 c2 c3 ms rc ld].
  unfold consistent in Hw. page_fields.
  destruct Hw as (H1 & H2 & _ & _).
  cbn [Session.enabled] in He.
  unfold View.characteristics_content, Home.generate_btn_disabled in He.
  page_fields. subst c2.
  destruct c1; [|discriminate He]. cbn [andb] in He.
  destruct c3; [discriminate He|]. cbn [negb andb] in He.
  destruct (Nat.eqb (JSSet.size sel) 0) eqn:Esize; [discriminate He|].
  unfold Session.start. page_fields. rewrite Esize.
  eexists. eexists. split; [reflexivity|].
  intros env openai.
  assert (Hq : q <> []) by (apply trim_nonempty, H2; reflexivity).
  rewrite GenerateReport_post by reflexivity.
  change (get (body _) (lit "newsContent")) with (Normal (VStr q)).
  change (get (body _) (lit "selectedTraits"))
    with (Normal (VArr (map wire (JSSet.to_list sel)))).
  cbv beta iota. rewrite (proj2 (truthy_str _) Hq).
  cbn [truthy negb orb]. unfold GenerateReport.content. cbn [join].
  destruct (configured env); cbn [negb].
  - destruct (array_join _ (lit ", ")) as [traits|e]; cbn [bind ToString];
      cbv zeta.
    + split; [|intros _; reflexivity].
      intros (Hcalls & _). discriminate Hcalls.
    + split; [|intros _; reflexivity].
      intros (_ & r & Hr & Hcode). injection Hr as <-. discriminate Hcode.
  - split; [|discriminate].
    intros (_ & r & Hr & Hcode). injection Hr as <-. discriminate Hcode.
Qed.

Lemma report_requests_in_order_witness :
  match Session.play
          [ Session.Does (Session.Typed Sample.query);
            Session.Does Session.Submitted;
            Session.Arrives 0
              (deploy Sample.env Sample.partial (lit "/api/auto-select")
                 (VObj [(lit "newsContent", VStr Sample.query)]));
            Session.Does (Session.Toggled (lit "music")) ]
          Session.opened with
  | Some w =>
      exists st1 sent,
        Session.start Session.GenerateClicked (Session.page w)
        = (st1, Some (Session.Reporting, (lit "/api/generate-report", sent)))
        /\ forall (env : environment) (openai : upstream),
             ~ rejected (GenerateReport.handler env openai
                           {| method := lit "POST"; body := wire sent |}) 400
             /\ (configured env = true ->
                 match array_join
                         (map wire (JSSet.to_list
                                      (Home.selectedCharacteristics
                                         (Session.page w))))
                         (lit ", ") with
                 | Normal traits =>
                     calls (GenerateReport.handler env openai
                              {| method := lit "POST"; body := wire sent |})
                     = [GenerateReport.completion_call env traits
                          (Home.currentQuery (Session.page w))]
                 | Throw _ =>
                     GenerateReport.handler env openai
                       {| method := lit "POST"; body := wire sent |}
                     = reply (error 500 "Failed to generate analysis report")
                 end)
  | None => False
  end.
Proof.
  destruct (Session.play _ Session.opened) as [w|] eqn:E.
  - apply (report_requests_in_order w).
    + exact (play_reachable _ _ _ Session.reachable_opened E).
    + vm_compute in E. injection E as <-. vm_compute. reflexivity.
  - vm_compute in E. discriminate E.
Defined.

(** X15: a response that arrives after the user went back to the main
    page is still applied: the page can show the welcome screen, with no
    request in flight, and hold a selection that is not empty. *)
Theorem late_response_is_applied :
  exists w : Session.world,
    Session.reachable w
    /\ View.welcome_screen (Session.page w) = true
    /\ Session.inflight w = []
    /\ Home.selectedCharacteristics (Session.page w)
       = [VStr (lit "24-30"); VStr (lit "finance"); VStr (lit "music")].
Proof.
  destruct (Session.play
              [ Session.Does (Session.Typed Sample.query);
                Session.Does Session.Submitted;
                Session.Does Session.LogoClicked;
                Session.Arrives 0
                  (deploy Sample.env Sample.partial (lit "/api/auto-select")
                     (VObj [(lit "newsContent", VStr Sample.query)])) ]
              Session.opened) as [w|] eqn:E.
  - exists w. split.
    + exact (play_reachable _ _ _ Session.reachable_opened E).
    + vm_compute in E. injection E as <-.
      split; [|split]; vm_compute; reflexivity.
  - vm_compute in E. discriminate E.
Qed.

(** ** What the report view shows *)

(** X16: the "News Content" line of the report is never longer than 103
    code units: it is the query itself up to a hundred code units, and
    otherwise its first hundred code units followed by three dots. *)
Theorem news_content_is_cut :
  forall st : Home.state,
    (List.length (View.news_content_meta st) <= 103)%nat
    /\ firstn 100 (View.news_content_meta st)
       = firstn 100 (Home.currentQuery st)
    /\ ((List.length (Home.currentQuery st) <= 100)%nat ->
        View.news_content_meta st = Home.currentQuery st)
    /\ ((100 < List.length (Home.currentQuery st))%nat ->
        List.length (View.news_content_meta st) = 103%nat
        /\ skipn 100 (View.news_content_meta st) = lit "...").
Proof.
  intros st. unfold View.news_content_meta.
  destruct (Nat.ltb 100 (List.length (Home.currentQuery st))) eqn:E.
  - apply Nat.ltb_lt in E.
    assert (Hlen : List.length (firstn 100 (Home.currentQuery st)) = 100%nat)
      by (rewrite length_firstn; lia).
    repeat split.
    + rewrite length_app, Hlen. cbn. lia.
    + rewrite firstn_app, Hlen, Nat.sub_diag, firstn_O, app_nil_r.
      apply firstn_firstn.
    + lia.
    + rewrite length_app, Hlen. reflexivity.
    + rewrite skipn_app, Hlen, Nat.sub_diag.
      rewrite skipn_all2 by lia. reflexivity.
  - apply Nat.ltb_ge in E. repeat split; try reflexivity; lia.
Qed.

Lemma news_content_is_cut_witness :
  let st := Home.setCurrentQuery (repeat 97%N 150) Home.initial in
  List.length (View.news_content_meta st) = 103%nat
  /\ skipn 100 (View.news_content_meta st) = lit "...".
Proof.
  intros st.
  apply (proj2 (proj2 (proj2 (news_content_is_cut st)))).
  vm_compute. lia.
Defined.

(** X17: the generate button can be clicked exactly when something is
    selected and the page is not loading, and its text then states how
    many values are selected; the text without a count shows only with
    nothing selected. *)
Theorem generate_button :
  forall st : Home.state,
    (Home.generate_btn_disabled st = false
     <-> JSSet.size (Home.selectedCharacteristics st) <> 0%nat
         /\ Home.isLoading st = false)
    /\ (Home.generate_btn_disabled st = false ->
        View.generate_btn_label st
        = lit "Generate Analysis Report ("
            ++ Number.digits_of
                 (Z.of_nat (JSSet.size (Home.selectedCharacteristics st)))
            ++ lit " traits selected)")
    /\ (View.generate_btn_label st = lit "Generate Analysis Report" ->
        JSSet.size (Home.selectedCharacteristics st) = 0%nat
        /\ Home.isLoading st = false).
Proof.
  intros st. unfold Home.generate_btn_disabled, View.generate_btn_label.
  destruct (Home.isLoading st);
    destruct (JSSet.size (Home.selectedCharacteristics st)) as [|n] eqn:E;
    cbn [Nat.eqb Nat.ltb Nat.leb orb]; repeat split;
    try discriminate; try tauto; try (intros [H _]; congruence).
Qed.

Lemma generate_button_witness :
  let st := Home.toggleCharacteristic (VStr (lit "male"))
              (Home.toggleCharacteristic (VStr (lit "music")) Sample.typed) in
  View.generate_btn_label st = lit "Generate Analysis Report (2 traits selected)".
Proof.
  intros st.
  rewrite (proj1 (proj2 (generate_button st)) eq_refl). reflexivity.
Defined.

(** ** The build script *)

Lemma starts_with_split (p s : str) :
  starts_with p s = true -> s = p ++ skipn (List.length p) s.
Proof.
  revert s. induction p as [|x p IH]; intros s; [reflexivity|].
  destruct s as [|y s]; [discriminate|].
  cbn [starts_with List.length skipn app]. intros H.
  apply andb_true_iff in H. destruct H as [Hx Hp].
  apply N.eqb_eq in Hx. subst y. f_equal. exact (IH s Hp).
Qed.

(** What [split_first] finds is the first occurrence. *)
Lemma split_first_some (pat s acc before after : str) :
  Build.split_first pat s acc = Some (before, after) ->
  exists pre,
    before = rev acc ++ pre
    /\ s = pre ++ pat ++ after
    /\ forall p1 p2,
         pre = p1 ++ p2 -> p2 <> [] ->
         starts_with pat (p2 ++ pat ++ after) = false.
Proof.
  revert acc. induction s as [|c s IH]; intros acc; cbn [Build.split_first].
  - destruct (starts_with pat []) eqn:E; [|discriminate].
    intros [= <- <-]. exists []. rewrite app_nil_r.
    split; [reflexivity|]. split; [apply (starts_with_split _ _ E)|].
    intros p1 p2 H Hp2. destruct p1, p2; try discriminate H. contradiction.
  - destruct (starts_with pat (c :: s)) eqn:E.
    + intros [= <- <-]. exists []. rewrite app_nil_r.
      split; [reflexivity|]. split; [apply (starts_with_split _ _ E)|].
      intros p1 p2 H Hp2. destruct p1, p2; try discriminate H. contradiction.
    + intros H. destruct (IH _ H) as (pre & Hb & Hs & Hfirst).
      exists (c :: pre). cbn [rev] in Hb. rewrite <- app_assoc in Hb.
      split; [exact Hb|]. split; [cbn [app]; rewrite <- Hs; reflexivity|].
      intros p1 p2 Hp Hp2. destruct p1 as [|x p1].
      * cbn [app] in Hp. subst p2. cbn [app]. rewrite <- Hs. exact E.
      * injection Hp as _ Hp. exact (Hfirst p1 p2 Hp Hp2).
Qed.

Lemma split_first_includes (pat s acc : str) :
  includes s pat
  = match Build.split_first pat s acc with Some _ => true | None => false end.
Proof.
  revert acc. induction s as [|c s IH]; intros acc;
    cbn [Build.split_first includes].
  - destruct (starts_with pat []); reflexivity.
  - destruct (starts_with pat (c :: s)); [reflexivity|].
    cbn [orb]. apply IH.
Qed.

Lemma get_substitution_plain (matched before after key rest : str) :
  forallb (fun c => negb (N.eqb c 36)) key = true ->
  Build.get_substitution matched before after (key ++ rest)
  = key ++ Build.get_substitution matched before after rest.
Proof.
  induction key as [|c key IH]; [reflexivity|].
  cbn [forallb app]. intros H. apply andb_true_iff in H.
  destruct H as [Hc Hkey]. apply negb_true_iff in Hc.
  cbn [Build.get_substitution]. rewrite Hc. f_equal. exact (IH Hkey).
Qed.

Lemma get_substitution_verbatim (matched before after key : str) :
  forallb (fun c => negb (N.eqb c 36)) key = true ->
  Build.get_substitution matched before after key = key.
Proof.
  intros H. rewrite <- (app_nil_r key) at 1.
  rewrite (get_substitution_plain _ _ _ key [] H).
  cbn [Build.get_substitution]. apply app_nil_r.
Qed.

Lemma build_writes (key : str) (d : Build.disk) (html : str) :
  Build.template d = Some html ->
  key <> [] ->
  Build.build (Some key) d
  = {| Build.effects :=
         (if Build.dist_exists d then [] else [Build.Mkdir (lit "dist")])
         ++ [ Build.WriteFile (lit "dist/index.html")
                (Build.replace html Build.placeholder key);
              Build.ConsoleLog (9989%N :: lit " Build completed successfully!");
              Build.ConsoleLog
                (55357%N :: 56513%N :: lit " Output: dist/index.html");
              Build.ConsoleLog
                (55357%N :: 56593%N :: lit " API key injected securely") ];
       Build.finished := Normal 0 |}.
Proof.
  intros Ht Hk. unfold Build.build. rewrite Ht.
  destruct key; [contradiction|reflexivity].
Qed.

(** X18: with a template that holds the placeholder and a key without
    dollar signs, the build writes to [dist/index.html] the template with
    the key in the place of the first placeholder, and of the first only:
    what follows it is written as it is, a second placeholder included. *)
Theorem build_injects_key :
  forall (key html : str) (d : Build.disk),
    Build.template d = Some html ->
    key <> [] ->
    forallb (fun c => negb (N.eqb c 36)) key = true ->
    includes html Build.placeholder = true ->
    exists before after,
      html = before ++ Build.placeholder ++ after
      /\ (forall p1 p2,
             before = p1 ++ p2 -> p2 <> [] ->
             starts_with Build.placeholder
               (p2 ++ Build.placeholder ++ after) = false)
      /\ In (Build.WriteFile (lit "dist/index.html") (before ++ key ++ after))
           (Build.effects (Build.build (Some key) d))
      /\ Build.finished (Build.build (Some key) d) = Normal 0
      /\ (includes after Build.placeholder = true ->
          includes (before ++ key ++ after) Build.placeholder = true).
Proof.
  intros key html d Ht Hk Hplain Hin.
  rewrite (split_first_includes _ _ []) in Hin.
  destruct (Build.split_first Build.placeholder html []) as [[before after]|]
    eqn:E; [|discriminate Hin].
  destruct (split_first_some _ _ _ _ _ E) as (pre & Hb & Hs & Hfirst).
  cbn [rev app] in Hb. subst pre.
  exists before, after. split; [exact Hs|]. split; [exact Hfirst|].
  rewrite (build_writes key d html Ht Hk). cbn [Build.effects Build.finished].
  unfold Build.replace. rewrite E.
  rewrite (get_substitution_verbatim _ _ _ key Hplain).
  split; [|split; [reflexivity|]].
  - apply in_or_app. right. left. reflexivity.
  - intros H. rewrite app_assoc. apply includes_skip. exact H.
Qed.

Lemma build_injects_key_witness :
  let d := {| Build.template :=
                Some (lit "<script>const k = '{{OPENAI_API_KEY}}';</script>");
              Build.dist_exists := false |} in
  exists before after,
    lit "<script>const k = '{{OPENAI_API_KEY}}';</script>"
    = before ++ Build.placeholder ++ after
    /\ (forall p1 p2,
           before = p1 ++ p2 -> p2 <> [] ->
           starts_with Build.placeholder
             (p2 ++ Build.placeholder ++ after) = false)
    /\ In (Build.WriteFile (lit "dist/index.html")
             (before ++ lit "sk-test" ++ after))
         (Build.effects (Build.build (Some (lit "sk-test")) d))
    /\ Build.finished (Build.build (Some (lit "sk-test")) d) = Normal 0
    /\ (includes after Build.placeholder = true ->
        includes (before ++ lit "sk-test" ++ after) Build.placeholder = true).
Proof.
  intros d.
  apply (build_injects_key (lit "sk-test") _ d); try reflexivity.
  discriminate.
Defined.

(** X19: with a template that does not hold the placeholder the build
    writes the template as it is, and ends as a success all the same,
    saying that the key was injected. *)
Theorem build_without_placeholder :
  forall (key html : str) (d : Build.disk),
    Build.template d = Some html ->
    key <> [] ->
    includes html Build.placeholder = false ->
    In (Build.WriteFile (lit "dist/index.html") html)
      (Build.effects (Build.build (Some key) d))
    /\ In (Build.ConsoleLog
             (55357%N :: 56593%N :: lit " API key injected securely"))
         (Build.effects (Build.build (Some key) d))
    /\ Build.finished (Build.build (Some key) d) = Normal 0.
Proof.
  intros key html d Ht Hk Hin.
  rewrite (split_first_includes _ _ []) in Hin.
  rewrite (build_writes key d html Ht Hk). cbn [Build.effects Build.finished].
  unfold Build.replace.
  destruct (Build.split_first Build.placeholder html []); [discriminate Hin|].
  split; [|split; [|reflexivity]]; apply in_or_app; right; cbn [In]; auto.
Qed.

Lemma build_without_placeholder_witness :
  let d := {| Build.template := Some (lit "<p>static page</p>");
              Build.dist_exists := true |} in
  In (Build.WriteFile (lit "dist/index.html") (lit "<p>static page</p>"))
    (Build.effects (Build.build (Some (lit "sk-test")) d))
  /\ In (Build.ConsoleLog
           (55357%N :: 56593%N :: lit " API key injected securely"))
       (Build.effects (Build.build (Some (lit "sk-test")) d))
  /\ Build.finished (Build.build (Some (lit "sk-test")) d) = Normal 0.
Proof.
  intros d.
  apply (build_without_placeholder (lit "sk-test") _ d); try reflexivity.
  discriminate.
Defined.

Lemma build_cases (apiKey : option str) (d : Build.disk) :
  (exists html key,
      Build.template d = Some html /\ apiKey = Some key /\ key <> []
      /\ Build.build apiKey d
         = {| Build.effects :=
                (if Build.dist_exists d then []
                 else [Build.Mkdir (lit "dist")])
                ++ [ Build.WriteFile (lit "dist/index.html")
                       (Build.replace html Build.placeholder key);
                     Build.ConsoleLog
                       (9989%N :: lit " Build completed successfully!");
                     Build.ConsoleLog
                       (55357%N :: 56513%N :: lit " Output: dist/index.html");
                     Build.ConsoleLog
                       (55357%N :: 56593%N
                          :: lit " API key injected securely") ];
              Build.finished := Normal 0 |})
  \/ (Build.template d <> None
      /\ (apiKey = None \/ apiKey = Some [])
      /\ Build.build apiKey d
         = {| Build.effects :=
                [Build.ConsoleError
                   (lit "Error: OPENAI_API_KEY environment variable is not set")];
              Build.finished := Normal 1 |})
  \/ (Build.template d = None
      /\ Build.build apiKey d
         = {| Build.effects := [];
              Build.finished :=
                Throw (Error (lit "ENOENT: no such file or directory")) |}).
Proof.
  unfold Build.build. destruct (Build.template d) as [html|].
  - destruct apiKey as [[|k key]|].
    + right. left. split; [discriminate|]. auto.
    + left. exists html, (k :: key). repeat split. discriminate.
    + right. left. split; [discriminate|]. auto.
  - right. right. split; reflexivity.
Qed.

(** X20: the build writes a file, or makes the directory, only when the
    template is there and the key is set and not empty, and only then does
    it end with code 0; without the key it ends with code 1 after one
    message on the error stream; without the template it ends with the
    exception of the read, whether the key is set or not; it makes the
    directory exactly when it writes and [dist] does not exist. *)
Theorem build_needs_template_and_key :
  forall (apiKey : option str) (d : Build.disk),
    let r := Build.build apiKey d in
    ((exists p c, In (Build.WriteFile p c) (Build.effects r))
     <-> exists html key,
           Build.template d = Some html /\ apiKey = Some key /\ key <> [])
    /\ ((exists p c, In (Build.WriteFile p c) (Build.effects r))
        <-> Build.finished r = Normal 0)
    /\ (In (Build.Mkdir (lit "dist")) (Build.effects r)
        <-> Build.finished r = Normal 0 /\ Build.dist_exists d = false)
    /\ (Build.template d = None ->
        Build.effects r = [] /\ exists e, Build.finished r = Throw e)
    /\ (Build.template d <> None ->
        apiKey = None \/ apiKey = Some [] ->
        r = {| Build.effects :=
                 [Build.ConsoleError
                    (lit "Error: OPENAI_API_KEY environment variable is not set")];
               Build.finished := Normal 1 |}).
Proof.
  intros apiKey d r. subst r.
  destruct (build_cases apiKey d)
    as [(html & key & Ht & Hk & Hne & ->)|[(Ht & Hk & ->)|(Ht & ->)]];
    cbn [Build.effects Build.finished].
  - split; [|split; [|split; [|split]]].
    + split; [intros _; exists html, key; auto|].
      intros _. eexists. eexists. apply in_or_app. right. left. reflexivity.
    + split; [reflexivity|].
      intros _. eexists. eexists. apply in_or_app. right. left. reflexivity.
    + destruct (Build.dist_exists d); cbn [app In].
      * split; [|intros [_ H]; discriminate H].
        intros [H|[H|[H|[H|[]]]]]; discriminate H.
      * split; [auto|]. intros _. left. reflexivity.
    + intros H. rewrite H in Ht. discriminate Ht.
    + intros _ [H|H]; rewrite H in Hk; [discriminate Hk|].
      injection Hk as <-. contradiction.
  - split; [|split; [|split; [|split]]].
    + split.
      * intros (p & c & [H|[]]). discriminate H.
      * intros (html & key & _ & H & Hne).
        destruct Hk as [Hk|Hk]; rewrite Hk in H; [discriminate H|].
        injection H as <-. contradiction.
    + split; [|discriminate]. intros (p & c & [H|[]]). discriminate H.
    + split; [|intros [H _]; discriminate H]. intros [H|[]]. discriminate H.
    + intros H. contradiction.
    + reflexivity.
  - split; [|split; [|split; [|split]]].
    + split; [intros (p & c & [])|].
      intros (html & key & H & _). rewrite H in Ht. discriminate Ht.
    + split; [intros (p & c & [])|discriminate].
    + split; [intros []|intros [H _]; discriminate H].
    + intros _. split; [reflexivity|]. eexists. reflexivity.
    + intros H. contradiction.
Qed.

Lemma build_needs_template_and_key_witness :
  Build.build None
    {| Build.template := Some (lit "key={{OPENAI_API_KEY}};");
       Build.dist_exists := false |}
  = {| Build.effects :=
         [Build.ConsoleError
            (lit "Error: OPENAI_API_KEY environment variable is not set")];
       Build.finished := Normal 1 |}.
Proof.
  apply (build_needs_template_and_key None
           {| Build.template := Some (lit "key={{OPENAI_API_KEY}};");
              Build.dist_exists := false |}).
  - discriminate.
  - left. reflexivity.
Defined.

(** X21: a dollar sign in the key is read as a replacement pattern: where
    the key has [$&] the placeholder itself is written, and where it has
    [$$] one dollar sign. *)
Theorem build_expands_dollar_patterns :
  forall (k1 k2 html : str) (d : Build.disk),
    Build.template d = Some html ->
    forallb (fun c => negb (N.eqb c 36)) k1 = true ->
    forallb (fun c => negb (N.eqb c 36)) k2 = true ->
    includes html Build.placeholder = true ->
    exists before after,
      html = before ++ Build.placeholder ++ after
      /\ In (Build.WriteFile (lit "dist/index.html")
               (before ++ k1 ++ Build.placeholder ++ k2 ++ after))
           (Build.effects (Build.build (Some (k1 ++ lit "$&" ++ k2)) d))
      /\ In (Build.WriteFile (lit "dist/index.html")
               (before ++ k1 ++ lit "$" ++ k2 ++ after))
           (Build.effects (Build.build (Some (k1 ++ lit "$$" ++ k2)) d)).
Proof.
  intros k1 k2 html d Ht H1 H2 Hin.
  rewrite (split_first_includes _ _ []) in Hin.
  destruct (Build.split_first Build.placeholder html []) as [[before after]|]
    eqn:E; [|discriminate Hin].
  destruct (split_first_some _ _ _ _ _ E) as (pre & Hb & Hs & _).
  cbn [rev app] in Hb. subst pre.
  exists before, after. split; [exact Hs|].
  assert (Hne : forall t : str, k1 ++ 36%N :: t <> []) by (intros t; destruct k1; discriminate).
  split.
  - change (lit "$&" ++ k2) with (36%N :: 38%N :: k2).
    rewrite (build_writes _ d html Ht (Hne _)). cbn [Build.effects].
    unfold Build.replace. rewrite E.
    rewrite (get_substitution_plain _ _ _ k1 _ H1).
    change (Build.get_substitution Build.placeholder before after
              (36%N :: 38%N :: k2))
      with (Build.placeholder
            ++ Build.get_substitution Build.placeholder before after k2).
    rewrite (get_substitution_verbatim _ _ _ k2 H2), <- !app_assoc.
    apply in_or_app. right. left. reflexivity.
  - change (lit "$$" ++ k2) with (36%N :: 36%N :: k2).
    rewrite (build_writes _ d html Ht (Hne _)). cbn [Build.effects].
    unfold Build.replace. rewrite E.
    rewrite (get_substitution_plain _ _ _ k1 _ H1).
    change (Build.get_substitution Build.placeholder before after
              (36%N :: 36%N :: k2))
      with (36%N :: Build.get_substitution Build.placeholder before after k2).
    rewrite (get_substitution_verbatim _ _ _ k2 H2), <- !app_assoc.
    apply in_or_app. right. left. reflexivity.
Qed.

Lemma build_expands_dollar_patterns_witness :
  let d := {| Build.template := Some (lit "key={{OPENAI_API_KEY}};");
              Build.dist_exists := true |} in
  exists before after,
    lit "key={{OPENAI_API_KEY}};" = before ++ Build.placeholder ++ after
    /\ In (Build.WriteFile (lit "dist/index.html")
             (before ++ lit "sk-" ++ Build.placeholder ++ lit "-x" ++ after))
         (Build.effects (Build.build (Some (lit "sk-" ++ lit "$&" ++ lit "-x")) d))
    /\ In (Build.WriteFile (lit "dist/index.html")
             (before ++ lit "sk-" ++ lit "$" ++ lit "-x" ++ after))
         (Build.effects (Build.build (Some (lit "sk-" ++ lit "$$" ++ lit "-x")) d)).
Proof.
  intros d.
  apply (build_expands_dollar_patterns (lit "sk-") (lit "-x") _ d);
    reflexivity.
Defined.

(** ** The routes: what comes out *)

Lemma get_throws (b : value) (k : str) (e : exn) :
  get b k = Throw e -> e = TypeError /\ (b = VUndefined \/ b = VNull).
Proof. destruct b; cbn [get]; intros [= <-]; auto. Qed.

(** X22: a route lets an exception escape exactly in one case, a POST
    whose body is [null] or [undefined], and then before any call;
    otherwise it sends one response, whose status is 200, 400, 405 or 500
    and which has no body exactly when the method is OPTIONS. *)
Theorem route_outcomes :
  forall (env : environment) (openai : upstream) (req : request) (s : served),
    s = AutoSelect.handler env openai req
    \/ s = GenerateReport.handler env openai req ->
    match outcome s with
    | Throw e =>
        e = TypeError /\ calls s = []
        /\ method req = lit "POST"
        /\ (body req = VUndefined \/ body req = VNull)
    | Normal r =>
        In (status r) [200; 400; 405; 500]
        /\ (payload r = End_ <-> method req = lit "OPTIONS")
        /\ (method req = lit "POST" ->
            body req <> VUndefined /\ body req <> VNull)
    end.
Proof.
  intros env openai req s Hs.
  assert (Hjson : forall code v,
             In code [200; 400; 405; 500] ->
             method req <> lit "OPTIONS" ->
             In (status (json code v)) [200; 400; 405; 500]
             /\ (payload (json code v) = End_ <-> method req = lit "OPTIONS")).
  { intros code v Hc Hm. split; [exact Hc|].
    split; [discriminate | contradiction]. }
  assert (Hbody : forall k x, get (body req) k = Normal x ->
                              body req <> VUndefined /\ body req <> VNull).
  { intros k x H. destruct (body req); cbn [get] in H;
      split; discriminate. }
  destruct Hs as [-> | ->].
  - unfold AutoSelect.handler.
    destruct (str_eqb (method req) (lit "OPTIONS")) eqn:EO.
    { apply str_eqb_eq in EO. cbn [reply outcome].
      split; [left; reflexivity|].
      split; [split; [intros _; exact EO | intros _; reflexivity]|].
      intros HP. rewrite EO in HP. discriminate HP. }
    apply str_eqb_neq in EO.
    destruct (str_eqb (method req) (lit "POST")) eqn:EP; cbn [negb].
    2:{ apply str_eqb_neq in EP. cbn [reply outcome].
        destruct (Hjson 405 (VObj [(lit "error", VStr (lit "Method not allowed"))]))
          as [H1 H2]; cbn [In]; auto.
        split; [exact H1|]. split; [exact H2|]. contradiction. }
    apply str_eqb_eq in EP.
    destruct (get (body req) (lit "newsContent")) as [nc|e] eqn:Eg.
    2:{ cbn [outcome calls]. destruct (get_throws _ _ _ Eg). auto. }
    pose proof (Hbody _ _ Eg) as Hb.
    destruct (negb (truthy nc)).
    { cbn [reply outcome]. unfold error.
      destruct (Hjson 400 (VObj [(lit "error",
                                  VStr (lit "News content is required"))]))
        as [H1 H2]; cbn [In]; auto. }
    destruct (negb (configured env)).
    { cbn [reply outcome]. unfold error.
      destruct (Hjson 500 (VObj [(lit "error",
                                  VStr (lit "OpenAI API key not configured"))]))
        as [H1 H2]; cbn [In]; auto 6. }
    cbv zeta. destruct (ToString nc) as [text|e].
    2:{ cbn [reply outcome]. unfold error.
        destruct (Hjson 500 (VObj [(lit "error",
                                    VStr (lit "Failed to analyze content"))]))
          as [H1 H2]; cbn [In]; auto 6. }
    cbn [outcome]. unfold try_catch at 1, bind at 1.
    destruct (completion_content _) as [content|e].
    + unfold AutoSelect.send_selections, try_catch, bind.
      destruct (JSON.parse content) as [v|e];
        match goal with
        | |- context [json 200 ?v] =>
            destruct (Hjson 200 v) as [H1 H2]; cbn [In]; auto
        end.
    + unfold error.
      destruct (Hjson 500 (VObj [(lit "error",
                                  VStr (lit "Failed to analyze content"))]))
        as [H1 H2]; cbn [In]; auto 6.
  - unfold GenerateReport.handler.
    destruct (str_eqb (method req) (lit "OPTIONS")) eqn:EO.
    { apply str_eqb_eq in EO. cbn [reply outcome].
      split; [left; reflexivity|].
      split; [split; [intros _; exact EO | intros _; reflexivity]|].
      intros HP. rewrite EO in HP. discriminate HP. }
    apply str_eqb_neq in EO.
    destruct (str_eqb (method req) (lit "POST")) eqn:EP; cbn [negb].
    2:{ apply str_eqb_neq in EP. cbn [reply outcome].
        destruct (Hjson 405 (VObj [(lit "error", VStr (lit "Method not allowed"))]))
          as [H1 H2]; cbn [In]; auto.
        split; [exact H1|]. split; [exact H2|]. contradiction. }
    apply str_eqb_eq in EP.
    destruct (get (body req) (lit "newsContent")) as [nc|e] eqn:Eg;
      destruct (get (body req) (lit "selectedTraits")) as [st|e'] eqn:Es;
      cbn [outcome calls];
      try (destruct (get_throws _ _ _ Eg); solve [auto]);
      try (destruct (get_throws _ _ _ Es); solve [auto]).
    pose proof (Hbody _ _ Eg) as Hb.
    destruct (negb (truthy nc) || negb (truthy st)).
    { cbn [reply outcome]. unfold error.
      match goal with
      | |- context [json 400 ?v] =>
          destruct (Hjson 400 v) as [H1 H2]; cbn [In]; auto
      end. }
    destruct (negb (configured env)).
    { cbn [reply outcome]. unfold error.
      match goal with
      | |- context [json 500 ?v] =>
          destruct (Hjson 500 v) as [H1 H2]; cbn [In]; auto 6
      end. }
    unfold error.
    destruct (GenerateReport.content st nc) as [[traits text]|e];
      cbn [reply outcome].
    + unfold try_catch, bind.
      destruct (completion_content _) as [content|e];
        match goal with
        | |- context [json ?code ?v] =>
            destruct (Hjson code v) as [H1 H2]; cbn [In]; auto 6
        end.
    + match goal with
      | |- context [json 500 ?v] =>
          destruct (Hjson 500 v) as [H1 H2]; cbn [In]; auto 6
      end.
Qed.

Lemma route_outcomes_witness :
  outcome (AutoSelect.handler Sample.env Sample.unreachable
             {| method := lit "POST"; body := VNull |})
  = Throw TypeError.
Proof.
  pose proof (route_outcomes Sample.env Sample.unreachable
                {| method := lit "POST"; body := VNull |} _
                (or_introl eq_refl)) as H.
  destruct (outcome _) as [r|e].
  - destruct H as (_ & _ & H). destruct (H eq_refl) as [_ Hnull].
    exfalso. apply Hnull. reflexivity.
  - destruct H as [-> _]. reflexivity.
Defined.

(** ** The page: the report, whatever the API answers *)


